(** * ovirt_vmpool: the VM pool module of the oVirt/RHV collection

    A shallow embedding of [lib/ansible/modules/cloud/ovirt/ovirt_vmpool.py]
    and the properties of its reconciliation engine.

    Python objects that the module mutates (the [vm] parameter, its
    [cloud_init] mapping and its [cloud_init_nics] list) live in a store of
    objects addressed by reference, so that two names for one object see each
    other's updates.  Methods of [VmPoolsModule] are computations in a state
    and exception monad over that store, the attributes of [self] and the
    remote engine reached through [self._connection]. *)

From Stdlib Require Import ZArith String Ascii List Bool Lia.
From stdpp Require Import base option list gmap strings fin_maps.

Local Open Scope Z_scope.
Local Open Scope string_scope.
Local Open Scope list_scope.

(** ** Python values and the object store *)

Definition loc := nat.

(** Values held in parameters: scalars are immutable, dictionaries and lists
    are references into the store. *)
Inductive val :=
| VNone
| VBool (b : bool)
| VInt (n : Z)
| VStr (s : string)
| VRef (l : loc).

#[global] Instance val_eq_dec : EqDecision val.
Proof. solve_decision. Defined.

Inductive obj :=
| ODict (d : gmap string val)
| OList (l : list val).

(** Exceptions the module can raise or let through. *)
Inductive exn :=
| AttributeError
| TypeError
| ValueError
| KeyError
| ProfileNotFound (profile_name : val) (cluster : option string)
| RemoteApiError
| TimeoutError.

#[global] Instance exn_eq_dec : EqDecision exn.
Proof. solve_decision. Defined.

Inductive result (A : Type) :=
| Ok (a : A)
| Raise (e : exn).
Arguments Ok {A} a.
Arguments Raise {A} e.

Definition is_Ok {A} (r : result A) : bool :=
  match r with Ok _ => true | Raise _ => false end.

(** ** The types of the SDK ([ovirtsdk4.types]) used by the module *)

(** An enumeration value, kept by its string value. *)
Inductive BootProtocol := BootProtocol_of (value : string).
Inductive NicInterface := NicInterface_of (value : string).
Inductive VmPoolType := AUTOMATIC | MANUAL.
Inductive VmStatus := DOWN | UP | IMAGE_LOCKED | POWERING_UP | WAIT_FOR_LAUNCH | OTHER_STATUS (s : string).
Inductive SsoMethod := GUEST_AGENT.

#[global] Instance VmStatus_eq_dec : EqDecision VmStatus.
Proof. solve_decision. Defined.

Record Ip := {
  address : val;
  netmask : val;
  gateway : val
}.

Record NicConfiguration := {
  boot_protocol : option BootProtocol;
  nc_name : val;
  on_boot : val;
  ip : option Ip
}.

(** [otypes.Initialization]: the list given by the keyword
    [nic_configurations] and the attributes given by unpacking a mapping
    ([**cloud_init] or [**sysprep]) are kept apart. *)
Record Initialization := {
  nic_configurations : option (list NicConfiguration);
  init_attrs : gmap string val
}.

Record MemoryPolicy := {
  guaranteed : val;
  mp_max : val
}.

Record Vm := {
  vm_comment : val;
  memory : val;
  memory_policy : option MemoryPolicy;
  initialization : option Initialization;
  display_smartcard_enabled : option val;
  sso_methods : option (list SsoMethod);
  time_zone : option val
}.

(** A reference to a cluster as the SDK hands it out: the desired entity
    names the cluster, the engine's entity links to it by id. *)
Record Cluster := {
  cl_id : option string;
  cl_name : option string
}.

Record VmPool := {
  vp_id : option string;
  vp_name : option string;
  vp_description : option string;
  vp_comment : option string;
  vp_cluster : option Cluster;
  vp_template : option string;
  vp_max_user_vms : option Z;
  vp_prestarted_vms : option Z;
  vp_size : option Z;
  vp_type : option VmPoolType;
  vp_vm : option Vm
}.

Record Nic := {
  nic_name : val;
  nic_interface : NicInterface;
  nic_vnic_profile : option string;
  nic_mac : option val
}.

Record VnicProfile := {
  prof_id : string;
  prof_name : string;
  prof_network : string
}.

(** ** The remote engine, as seen through the connection *)

Record EngineCluster := {
  ec_id : string;
  ec_name : string;
  ec_networks : list string
}.

Record EngineVm := {
  evm_id : string;
  evm_vm_pool : option string;
  evm_status : nat → VmStatus;
  evm_nics : list Nic
}.

Record Engine := {
  vm_pools : list VmPool;
  vms : list EngineVm;
  vnic_profiles : list VnicProfile;
  clusters : list EngineCluster
}.

Definition set_vms (l : list EngineVm) (e : Engine) : Engine :=
  {| vm_pools := vm_pools e; vms := l;
     vnic_profiles := vnic_profiles e; clusters := clusters e |}.

(** ** State of one run: the object store, the attributes of [self] that the
    module assigns, the engine, the time (in polling intervals) and the
    record of the virtual machines whose status was polled. *)

Record state := {
  heap : gmap loc obj;
  _initialization : option Initialization;
  changed : bool;
  engine : Engine;
  clock : nat;
  polled : list string
}.

Definition set_heap (h : gmap loc obj) (s : state) : state :=
  {| heap := h; _initialization := _initialization s; changed := changed s;
     engine := engine s; clock := clock s; polled := polled s |}.

Definition set__initialization (i : option Initialization) (s : state) : state :=
  {| heap := heap s; _initialization := i; changed := changed s;
     engine := engine s; clock := clock s; polled := polled s |}.

Definition set_changed (b : bool) (s : state) : state :=
  {| heap := heap s; _initialization := _initialization s; changed := b;
     engine := engine s; clock := clock s; polled := polled s |}.

Definition set_engine (e : Engine) (s : state) : state :=
  {| heap := heap s; _initialization := _initialization s; changed := changed s;
     engine := e; clock := clock s; polled := polled s |}.

Definition set_clock (t : nat) (s : state) : state :=
  {| heap := heap s; _initialization := _initialization s; changed := changed s;
     engine := engine s; clock := t; polled := polled s |}.

Definition set_polled (l : list string) (s : state) : state :=
  {| heap := heap s; _initialization := _initialization s; changed := changed s;
     engine := engine s; clock := clock s; polled := l |}.

(** ** The monad: a computation reads and updates the state and either
    returns or raises; what it changed before raising stays changed. *)

Definition M (A : Type) : Type := state → result A * state.

Definition ret {A} (a : A) : M A := λ s, (Ok a, s).

Definition bind {A B} (m : M A) (f : A → M B) : M B := λ s,
  match m s with
  | (Ok a, s') => f a s'
  | (Raise e, s') => (Raise e, s')
  end.

Declare Scope py_scope.
Delimit Scope py_scope with py.
Notation "x ← y ; z" := (bind y (λ x, z))
  (at level 20, y at level 100, z at level 200, only parsing) : py_scope.
Notation "y ;; z" := (bind y (λ _, z))
  (at level 100, z at level 200, only parsing, right associativity) : py_scope.
Local Open Scope py_scope.

Definition raise {A} (e : exn) : M A := λ s, (Raise e, s).
Definition gets {A} (f : state → A) : M A := λ s, (Ok (f s), s).
Definition modify (f : state → state) : M unit := λ s, (Ok tt, f s).
Definition lift {A} (r : result A) : M A := λ s, (r, s).

(** ** Python operations on values *)

Definition is_None (v : val) : bool := bool_decide (v = VNone).

(** [bool(v)]: None, False, 0, the empty string, the empty dict and the
    empty list are false. *)
Definition truthy (v : val) : M bool := λ s,
  match v with
  | VNone => (Ok false, s)
  | VBool b => (Ok b, s)
  | VInt n => (Ok (negb (n =? 0)%Z), s)
  | VStr t => (Ok (negb (bool_decide (t = ""))), s)
  | VRef l =>
      match heap s !! l with
      | Some (ODict d) => (Ok (negb (bool_decide (d = ∅))), s)
      | Some (OList xs) => (Ok (negb (bool_decide (xs = []))), s)
      | None => (Ok true, s)
      end
  end.

(** [o.get(k, dflt)]: only a dict has the method. *)
Definition py_get_default (o : val) (k : string) (dflt : val) : M val := λ s,
  match o with
  | VRef l =>
      match heap s !! l with
      | Some (ODict d) => (Ok (default dflt (d !! k)), s)
      | _ => (Raise AttributeError, s)
      end
  | _ => (Raise AttributeError, s)
  end.

Definition py_get (o : val) (k : string) : M val := py_get_default o k VNone.

(** [o.pop(k, dflt)]: returns the value and removes the key from the very
    object [o] refers to. *)
Definition py_pop_default (o : val) (k : string) (dflt : val) : M val := λ s,
  match o with
  | VRef l =>
      match heap s !! l with
      | Some (ODict d) =>
          match d !! k with
          | Some v => (Ok v, set_heap (<[l := ODict (delete k d)]> (heap s)) s)
          | None => (Ok dflt, s)
          end
      | _ => (Raise AttributeError, s)
      end
  | _ => (Raise AttributeError, s)
  end.

(** [o.pop(k)]: a missing key raises. *)
Definition py_pop (o : val) (k : string) : M val := λ s,
  match o with
  | VRef l =>
      match heap s !! l with
      | Some (ODict d) =>
          match d !! k with
          | Some v => (Ok v, set_heap (<[l := ODict (delete k d)]> (heap s)) s)
          | None => (Raise KeyError, s)
          end
      | _ => (Raise AttributeError, s)
      end
  | _ => (Raise AttributeError, s)
  end.

Definition lower_ascii (c : ascii) : ascii :=
  let n := nat_of_ascii c in
  if (65 <=? n)%nat && (n <=? 90)%nat then ascii_of_nat (n + 32) else c.

Fixpoint lower_string (s : string) : string :=
  match s with
  | EmptyString => EmptyString
  | String c r => String (lower_ascii c) (lower_string r)
  end.

(** [v.lower()]: only a string has the method. *)
Definition py_lower (v : val) : M string :=
  match v with
  | VStr t => ret (lower_string t)
  | _ => raise AttributeError
  end.

(** [[]]: a new list object. *)
Definition new_list : M val := λ s,
  let l := fresh (dom (heap s)) in
  (Ok (VRef l), set_heap (<[l := OList []]> (heap s)) s).

(** [lst.append(x)]. *)
Definition list_append (lst : val) (x : val) : M unit := λ s,
  match lst with
  | VRef l =>
      match heap s !! l with
      | Some (OList xs) => (Ok tt, set_heap (<[l := OList (xs ++ [x])]> (heap s)) s)
      | _ => (Raise AttributeError, s)
      end
  | _ => (Raise AttributeError, s)
  end.

(** The items of [for x in v]: a list yields its elements, a dict its keys;
    None and numbers are not iterable. *)
Definition py_iter (v : val) : M (list val) := λ s,
  match v with
  | VRef l =>
      match heap s !! l with
      | Some (OList xs) => (Ok xs, s)
      | Some (ODict d) => (Ok (VStr <$> (map_to_list d).*1), s)
      | None => (Raise TypeError, s)
      end
  | VStr t => (Ok ((λ c, VStr (String c EmptyString)) <$> list_ascii_of_string t), s)
  | _ => (Raise TypeError, s)
  end.

(** [**v] in a call: [v] must be a mapping. *)
Definition py_mapping (v : val) : M (gmap string val) := λ s,
  match v with
  | VRef l =>
      match heap s !! l with
      | Some (ODict d) => (Ok d, s)
      | _ => (Raise TypeError, s)
      end
  | _ => (Raise TypeError, s)
  end.

(** [a or b] on conditions: [b] is evaluated only when [a] is false. *)
Definition or_else (a b : M bool) : M bool :=
  x ← a; if x then ret true else b.

Definition is_not_None (m : M val) : M bool :=
  v ← m; ret (negb (is_None v)).

Fixpoint filterM {A} (f : A → M bool) (l : list A) : M (list A) :=
  match l with
  | [] => ret []
  | x :: r => b ← f x; r' ← filterM f r; ret (if b then x :: r' else r')
  end.

Fixpoint forM_ {A} (f : A → M unit) (l : list A) : M unit :=
  match l with
  | [] => ret tt
  | x :: r => f x;; forM_ f r
  end.

(** ** What the module takes from outside this file

    The enumerations and constructor signatures of the SDK, and
    [convert_to_bytes] of [module_utils.ovirt]. *)
Class Collaborators := {
  (** the values of [otypes.BootProtocol] *)
  is_BootProtocol : string → bool;
  (** the values of [otypes.NicInterface] *)
  is_NicInterface : string → bool;
  (** the keyword parameters of [otypes.Initialization] and, for each, the
      values its setter takes: a keyword the constructor does not have takes
      no value; an attribute of a struct or enumeration type takes None or
      an instance of that type, the others take any value *)
  Initialization_accepts : string → val → bool;
  convert_to_bytes : val → result val;
  (** what the engine does with a request to add, update or remove a pool:
      the entity it answers with and its new state, or a refusal *)
  engine_add_pool : VmPool → Engine → option (VmPool * Engine);
  engine_update_pool : VmPool → VmPool → Engine → option (VmPool * Engine);
  engine_remove_pool : VmPool → Engine → option Engine
}.

(** ** The parameters of the module, as [argument_spec] types them
    (lines 328-344, with [wait] and [timeout] of the common specification) *)

Inductive State := present | absent.

Record Params := {
  p_id : option string;
  p_state : State;
  p_name : string;
  p_template : option string;
  p_cluster : option string;
  p_description : option string;
  p_vm : val;
  p_comment : option string;
  p_vm_per_user : option Z;
  p_prestarted : option Z;
  p_vm_count : option Z;
  p_type : option string;
  p_wait : bool;
  p_timeout : nat
}.

Record AnsibleModule := {
  params : Params;
  check_mode : bool
}.

(** Truth value of an optional string parameter. *)
Definition str_truthy (o : option string) : bool :=
  match o with
  | Some t => negb (bool_decide (t = ""))
  | None => false
  end.

Section VmPoolsModule.
Context `{Collaborators}.

(** *** Constructors of the SDK *)

(** [otypes.BootProtocol(value)]: lookup of an enumeration by value. *)
Definition BootProtocol_new (value : string) : M BootProtocol :=
  if is_BootProtocol value then ret (BootProtocol_of value) else raise ValueError.

Definition NicInterface_new (value : val) : M NicInterface :=
  match value with
  | VStr t => if is_NicInterface t then ret (NicInterface_of t) else raise ValueError
  | _ => raise ValueError
  end.

(** [otypes.VmPoolType(value)]; the values are those of [choices]. *)
Definition VmPoolType_new (value : string) : M VmPoolType :=
  if bool_decide (value = "automatic") then ret AUTOMATIC
  else if bool_decide (value = "manual") then ret MANUAL
  else raise ValueError.

Definition accepted (kwargs : gmap string val) : bool :=
  bool_decide (map_Forall (λ k v, Initialization_accepts k v = true) kwargs).

(** [otypes.Initialization(nic_configurations=ncs, **kwargs)]: Python refuses
    a keyword given twice, the constructor a keyword it does not have, and
    the setter of an attribute a value it does not take (a value that is not
    None for an attribute of a struct type: the values of a mapping of the
    parameters are never instances of an SDK type).  Each of these is a
    TypeError. *)
Definition Initialization_new (ncs : option (list NicConfiguration))
    (kwargs : gmap string val) : M Initialization :=
  if bool_decide (is_Some (kwargs !! "nic_configurations")) then raise TypeError
  else if accepted kwargs
       then ret {| nic_configurations := ncs; init_attrs := kwargs |}
       else raise TypeError.

(** [otypes.Initialization] called with an unpacked mapping alone: the same
    checks of the keywords and of their values. *)
Definition Initialization_of_mapping (kwargs : gmap string val) : M Initialization :=
  if accepted kwargs
  then ret {| nic_configurations := None; init_attrs := kwargs |}
  else raise TypeError.

(** *** [get_initialization] (lines 203-247) *)

(** The condition of the comprehension, lines 233-239. *)
Definition nic_is_configured (nic : val) : M bool :=
  or_else (is_not_None (py_get nic "nic_gateway"))
  (or_else (is_not_None (py_get nic "nic_netmask"))
  (or_else (is_not_None (py_get nic "nic_ip_address"))
  (or_else (is_not_None (py_get nic "nic_boot_protocol"))
           (is_not_None (py_get nic "nic_on_boot"))))).

(** The condition on the static address, lines 226-230. *)
Definition nic_has_ip (nic : val) : M bool :=
  or_else (is_not_None (py_get nic "nic_gateway"))
  (or_else (is_not_None (py_get nic "nic_netmask"))
           (is_not_None (py_get nic "nic_ip_address"))).

(** The [boot_protocol] argument, lines 217-219. *)
Definition nic_boot_protocol (nic : val) : M (option BootProtocol) :=
  bp ← py_get nic "nic_boot_protocol";
  has_bp ← truthy bp;
  if has_bp
  then v ← py_pop nic "nic_boot_protocol";
       low ← py_lower v;
       b ← BootProtocol_new low;
       ret (Some b)
  else ret None.

(** The [ip] argument, lines 222-230. *)
Definition nic_ip (nic : val) : M (option Ip) :=
  has_ip ← nic_has_ip nic;
  if has_ip
  then address ← py_pop_default nic "nic_ip_address" VNone;
       netmask ← py_pop_default nic "nic_netmask" VNone;
       gateway ← py_pop_default nic "nic_gateway" VNone;
       ret (Some {| address := address; netmask := netmask; gateway := gateway |})
  else ret None.

(** One [otypes.NicConfiguration(...)], lines 216-231: each field is popped
    from the fragment as it is read. *)
Definition build_nic_configuration (nic : val) : M NicConfiguration :=
  boot_protocol ← nic_boot_protocol nic;
  name ← py_pop_default nic "nic_name" VNone;
  on_boot ← py_pop_default nic "nic_on_boot" VNone;
  ip ← nic_ip nic;
  ret {| boot_protocol := boot_protocol; nc_name := name;
         on_boot := on_boot; ip := ip |}.

(** The comprehension of lines 215-239 over the fragments. *)
Fixpoint build_nic_configurations (nics : list val) : M (list NicConfiguration) :=
  match nics with
  | [] => ret []
  | nic :: rest =>
      keep ← nic_is_configured nic;
      if keep
      then c ← build_nic_configuration nic;
           cs ← build_nic_configurations rest;
           ret (c :: cs)
      else build_nic_configurations rest
  end.

(** The conditional of lines 213-246, which assigns [self._initialization]. *)
Definition initialize (sysprep cloud_init cloud_init_nics : val) : M unit :=
  c ← or_else (truthy cloud_init) (truthy cloud_init_nics);
  if c
  then
    any_nics ← truthy cloud_init_nics;
    ncs ← (if any_nics
           then nics ← py_iter cloud_init_nics;
                l ← build_nic_configurations nics;
                ret (Some l)
           else ret None);
    kwargs ← py_mapping cloud_init;
    i ← Initialization_new ncs kwargs;
    modify (set__initialization (Some i))
  else
    s ← truthy sysprep;
    if s
    then kwargs ← py_mapping sysprep;
         i ← Initialization_of_mapping kwargs;
         modify (set__initialization (Some i))
    else ret tt.

Definition get_initialization (vm : val) : M (option Initialization) :=
  cached ← gets _initialization;
  match cached with
  | Some i => ret (Some i)
  | None =>
      sysprep ← py_get vm "sysprep";
      cloud_init ← py_get vm "cloud_init";
      given_nics ← py_get vm "cloud_init_nics";
      has_nics ← truthy given_nics;
      cloud_init_nics ← (if has_nics then ret given_nics else new_list);
      (if negb (is_None cloud_init)
       then list_append cloud_init_nics cloud_init
       else ret tt);;
      initialize sysprep cloud_init cloud_init_nics;;
      gets _initialization
  end.

(** *** [build_vm] (lines 175-200) *)

Definition build_vm (vm : val) : M Vm :=
  comment ← py_get vm "comment";
  m ← py_get vm "memory";
  has_memory ← truthy m;
  memory ←
    (if has_memory
     then m' ← py_get vm "memory"; lift (convert_to_bytes m')
     else ret VNone);
  mg ← py_get vm "memory_guaranteed";
  mm ← py_get vm "memory_max";
  has_policy ← or_else (truthy mg) (truthy mm);
  memory_policy ←
    (if has_policy
     then g' ← py_get vm "memory_guaranteed";
          g ← lift (convert_to_bytes g');
          x' ← py_get vm "memory_max";
          x ← lift (convert_to_bytes x');
          ret (Some {| guaranteed := g; mp_max := x |})
     else ret None);
  initialization ← get_initialization vm;
  sc ← py_get vm "smartcard_enabled";
  display ←
    (if negb (is_None sc)
     then sc' ← py_get vm "smartcard_enabled"; ret (Some sc')
     else ret None);
  sso ← py_get vm "sso";
  sso_methods ←
    (if negb (is_None sso)
     then sso' ← py_get vm "sso";
          on ← truthy sso';
          ret (Some (if on then [GUEST_AGENT] else []))
     else ret None);
  tz ← py_get vm "timezone";
  has_tz ← truthy tz;
  time_zone ←
    (if has_tz
     then tz' ← py_get vm "timezone"; ret (Some tz')
     else ret None);
  ret {| vm_comment := comment; memory := memory; memory_policy := memory_policy;
         initialization := initialization; display_smartcard_enabled := display;
         sso_methods := sso_methods; time_zone := time_zone |}.

(** *** [build_entity] (lines 152-172) *)

Definition build_entity (module : AnsibleModule) : M VmPool :=
  let p := params module in
  let vm := p_vm p in
  type ←
    (match p_type p with
     | Some t => if str_truthy (Some t)
                 then ty ← VmPoolType_new t; ret (Some ty)
                 else ret None
     | None => ret None
     end);
  built ← build_vm vm;
  ret {| vp_id := p_id p;
         vp_name := Some (p_name p);
         vp_description := p_description p;
         vp_comment := p_comment p;
         vp_cluster :=
           if str_truthy (p_cluster p)
           then Some {| cl_id := None; cl_name := p_cluster p |} else None;
         vp_template := if str_truthy (p_template p) then p_template p else None;
         vp_max_user_vms := p_vm_per_user p;
         vp_prestarted_vms := p_prestarted p;
         vp_size := p_vm_count p;
         vp_type := type;
         vp_vm := Some built |}.

(** *** [get_vms] (lines 249-255) *)

Definition get_vms (entity : VmPool) : M (list EngineVm) :=
  e ← gets engine;
  ret (List.filter
         (λ vm, match evm_vm_pool vm with
                | Some pool_id => bool_decide (Some pool_id = vp_id entity)
                | None => false
                end)
         (vms e)).

(** *** The services of the connection *)

(** The NICs of a virtual machine, as its NIC service lists them. *)
Definition nics_service_list (vm_id : string) : M (list Nic) :=
  e ← gets engine;
  match List.find (λ vm, bool_decide (evm_id vm = vm_id)) (vms e) with
  | Some vm => ret (evm_nics vm)
  | None => raise RemoteApiError
  end.

(** Modelled from the spec: [search_by_name] of [module_utils.ovirt], which is
    not among the sources; "look up an existing NIC with the same name on the
    target VM", None when there is none. *)
Definition search_by_name_nic (vm_id : string) (name : val) : M (option Nic) :=
  l ← nics_service_list vm_id;
  ret (List.find (λ n, bool_decide (nic_name n = name)) l).

(** Modelled from the spec: [search_by_name] on the clusters service, the
    cluster of that name or None. *)
Definition search_by_name_cluster (name : option string) : M (option EngineCluster) :=
  e ← gets engine;
  ret (List.find (λ c, bool_decide (Some (ec_name c) = name)) (clusters e)).

Definition add_nic (vm_id : string) (nic : Nic) (vm : EngineVm) : EngineVm :=
  if bool_decide (evm_id vm = vm_id)
  then {| evm_id := evm_id vm; evm_vm_pool := evm_vm_pool vm;
          evm_status := evm_status vm; evm_nics := evm_nics vm ++ [nic] |}
  else vm.

(** Modelled from the spec: the creation request of the NIC service, after
    which the engine lists the NIC on that virtual machine. *)
Definition nics_service_add (vm_id : string) (nic : Nic) : M unit :=
  nics_service_list vm_id;;
  modify (λ s, set_engine (set_vms (add_nic vm_id nic <$> vms (engine s)) (engine s)) s).

(** *** [__get_vnic_profile_id] (lines 287-313) *)

Definition get_vnic_profile_id (module : AnsibleModule) (nic : val) : M string :=
  e ← gets engine;
  cluster ← search_by_name_cluster (p_cluster (params module));
  profiles ← filterM
    (λ profile, name ← py_get nic "profile_name";
                ret (bool_decide (VStr (prof_name profile) = name)))
    (vnic_profiles e);
  cluster_networks ←
    (match cluster with
     | Some c => ret (ec_networks c)
     | None => raise AttributeError
     end);
  match List.find (λ profile, bool_decide (prof_network profile ∈ cluster_networks))
                  profiles with
  | Some profile => ret (prof_id profile)
  | None =>
      name ← py_get nic "profile_name";
      raise (ProfileNotFound name (p_cluster (params module)))
  end.

(** *** [__attach_nics] (lines 264-285) *)

(** The body of the loop, for one declared NIC. *)
Definition attach_nic (module : AnsibleModule) (vm_id : string) (nic : val) : M unit :=
  wanted ← py_get nic "name";
  found ← search_by_name_nic vm_id wanted;
  match found with
  | Some _ => ret tt
  | None =>
      (if negb (check_mode module)
       then
         name ← py_get nic "name";
         i ← py_get_default nic "interface" (VStr "virtio");
         interface ← NicInterface_new i;
         pn ← py_get nic "profile_name";
         has_profile ← truthy pn;
         vnic_profile ←
           (if has_profile
            then id ← get_vnic_profile_id module nic; ret (Some id)
            else ret None);
         ma ← py_get nic "mac_address";
         has_mac ← truthy ma;
         mac ←
           (if has_mac
            then a ← py_get nic "mac_address"; ret (Some a)
            else ret None);
         nics_service_add vm_id
           {| nic_name := name; nic_interface := interface;
              nic_vnic_profile := vnic_profile; nic_mac := mac |}
       else ret tt);;
      modify (set_changed true)
  end.

Definition attach_nics (module : AnsibleModule) (entity : EngineVm) (vm_param : val)
    : M unit :=
  declared ← py_get vm_param "nics";
  nics ← py_iter declared;
  forM_ (attach_nic module (evm_id entity)) nics.

(** *** [post_create] (lines 257-262) *)

Definition post_create (module : AnsibleModule) (entity : VmPool) : M unit :=
  let vm_param := p_vm (params module) in
  if negb (is_None vm_param)
  then declared ← py_get vm_param "nics";
       if negb (is_None declared)
       then vms ← get_vms entity;
            forM_ (λ vm, attach_nics module vm vm_param) vms
       else ret tt
  else ret tt.

(** *** [update_check] (lines 315-324) *)

(** Modelled from the spec: [equal] of [module_utils.ovirt], which is not
    among the sources; "unset desired fields are treated as equal to anything
    (skip comparison)", a set one is compared with the actual value. *)
Definition equal {A} `{EqDecision A} (param1 : option A) (param2 : option A) : bool :=
  match param1 with
  | None => true
  | Some v => bool_decide (param2 = Some v)
  end.

(** Modelled from the spec: [get_link_name] of [module_utils.ovirt], which is
    not among the sources; the cluster name "resolved from actual's cluster
    reference", None when the entity has no reference. *)
Definition get_link_name (e : Engine) (link : option Cluster) : option string :=
  match link with
  | Some l =>
      match List.find (λ c, bool_decide (Some (ec_id c) = cl_id l)) (clusters e) with
      | Some c => Some (ec_name c)
      | None => None
      end
  | None => None
  end.

Definition update_check (module : AnsibleModule) (entity : VmPool) : M bool :=
  let p := params module in
  e ← gets engine;
  ret (equal (Some (p_name p)) (vp_name entity) &&
       equal (p_cluster p) (get_link_name e (vp_cluster entity)) &&
       equal (p_description p) (vp_description entity) &&
       equal (p_comment p) (vp_comment entity) &&
       equal (p_vm_per_user p) (vp_max_user_vms entity) &&
       equal (p_prestarted p) (vp_prestarted_vms entity) &&
       equal (p_vm_count p) (vp_size entity)).

(** *** [create] and [remove] of the base class *)

(** Modelled from the spec: the lookup of [BaseModule], which is not among
    the sources; "look up by id/name", the name being "the stable lookup key
    when id is absent". *)
Definition search_entity (module : AnsibleModule) : M (option VmPool) :=
  e ← gets engine;
  ret (match p_id (params module) with
       | Some id => List.find (λ pool, bool_decide (vp_id pool = Some id)) (vm_pools e)
       | None =>
           List.find (λ pool, bool_decide (vp_name pool = Some (p_name (params module))))
                     (vm_pools e)
       end).

Definition request {A} (answer : option (A * Engine)) : M A :=
  match answer with
  | Some (a, e) => modify (set_engine e);; ret a
  | None => raise RemoteApiError
  end.

(** Modelled from the spec: [BaseModule.create], which is not among the
    sources (ensurePresent); "if absent, build the entity and create it
    remotely; if present, run updateCheck: if any compared field diverges,
    issue a full update with the freshly built entity, else no-op.  After
    creation (not after a no-op update), run the post-create hook." *)
Definition create (module : AnsibleModule) : M VmPool :=
  found ← search_entity module;
  match found with
  | None =>
      desired ← build_entity module;
      e ← gets engine;
      entity ← request (engine_add_pool desired e);
      post_create module entity;;
      modify (set_changed true);;
      ret entity
  | Some entity =>
      same ← update_check module entity;
      if same then ret entity
      else
        desired ← build_entity module;
        e ← gets engine;
        updated ← request (engine_update_pool entity desired e);
        modify (set_changed true);;
        ret updated
  end.

(** Modelled from the spec: [BaseModule.remove], which is not among the
    sources (ensureAbsent); "if present, stop then delete it remotely; if
    absent, no-op". *)
Definition remove (module : AnsibleModule) : M unit :=
  found ← search_entity module;
  match found with
  | None => ret tt
  | Some entity =>
      e ← gets engine;
      match engine_remove_pool entity e with
      | Some e' => modify (set_engine e');; modify (set_changed true)
      | None => raise RemoteApiError
      end
  end.

(** *** Waiting for the virtual machines of the pool (lines 367-375) *)

(** The condition of line 373. *)
Definition condition (status : VmStatus) : bool :=
  bool_decide (status ∈ [DOWN; UP]).

(** One reading of the status of a virtual machine, recorded in [polled]. *)
Definition poll (vm_id : string) : M VmStatus :=
  e ← gets engine;
  now ← gets clock;
  modify (λ s, set_polled (polled s ++ [vm_id]) s);;
  match List.find (λ vm, bool_decide (evm_id vm = vm_id)) (vms e) with
  | Some vm => ret (evm_status vm now)
  | None => raise RemoteApiError
  end.

(** Modelled from the spec: [wait] of [module_utils.ovirt], which is not
    among the sources; "blocks until predicate(vm) holds ... or timeout
    elapses.  Fails with TimeoutError on expiry."  Time is counted in polling
    intervals: one reading per interval while the deadline is ahead. *)
Fixpoint wait (vm_id : string) (cond : VmStatus → bool) (timeout : nat) : M unit :=
  match timeout with
  | O => raise TimeoutError
  | S remaining =>
      status ← poll vm_id;
      if cond status then ret tt
      else modify (λ s, set_clock (S (clock s)) s);; wait vm_id cond remaining
  end.

(** Modelled from the spec: [vms_service.list] searched by pool name, "VMs
    discovered as members of the ... pool at that moment": the virtual
    machines of the engine that belong to a pool of that name. *)
Definition pool_vms (name : string) (e : Engine) : list EngineVm :=
  List.filter
    (λ vm, existsb
             (λ pool, bool_decide (vp_name pool = Some name) &&
                      bool_decide (is_Some (vp_id pool)) &&
                      bool_decide (vp_id pool = evm_vm_pool vm))
             (vm_pools e))
    (vms e).

Definition vms_service_list_pool (name : string) : M (list EngineVm) :=
  e ← gets engine;
  ret (pool_vms name e).

(** *** [main], from the choice of the state on (lines 363-378) *)

Definition main (module : AnsibleModule) : M unit :=
  let p := params module in
  match p_state p with
  | present =>
      create module;;
      if p_wait p
      then vms ← vms_service_list_pool (p_name p);
           forM_ (λ vm, wait (evm_id vm) condition (p_timeout p)) vms
      else ret tt
  | absent => remove module
  end.

End VmPoolsModule.

(** * Definitions used to state the properties *)

(** A desired field agrees with the actual one when it is unset or both hold
    the same value. *)
Definition agrees {A} (desired actual : option A) : Prop :=
  ∀ v, desired = Some v → actual = Some v.

(** The [type] parameter is one [otypes.VmPoolType] takes (or is not given). *)
Definition type_is_valid (module : AnsibleModule) : bool :=
  match p_type (params module) with
  | Some t =>
      bool_decide (t = "") || bool_decide (t = "automatic") || bool_decide (t = "manual")
  | None => true
  end.

(** The store with the dict at [l] replaced by [d]. *)
Definition upd (l : loc) (d : gmap string val) (s : state) : state :=
  set_heap (<[l := ODict d]> (heap s)) s.

(** Truth value of a value that is not a reference. *)
Definition scalar_truthy (v : val) : bool :=
  match v with
  | VNone => false
  | VBool b => b
  | VInt n => negb (n =? 0)%Z
  | VStr t => negb (bool_decide (t = ""))
  | VRef _ => true
  end.

(** [d.get(k)] on the content of a dict. *)
Definition field (d : gmap string val) (k : string) : val := default VNone (d !! k).

(** A fragment has one of the five fields that make a NIC configuration. *)
Definition is_configured (d : gmap string val) : bool :=
  negb (is_None (field d "nic_gateway")) ||
  negb (is_None (field d "nic_netmask")) ||
  negb (is_None (field d "nic_ip_address")) ||
  negb (is_None (field d "nic_boot_protocol")) ||
  negb (is_None (field d "nic_on_boot")).

Definition has_ip (d : gmap string val) : bool :=
  negb (is_None (field d "nic_gateway")) ||
  negb (is_None (field d "nic_netmask")) ||
  negb (is_None (field d "nic_ip_address")).

Definition ip_of (d : gmap string val) : option Ip :=
  if has_ip d
  then Some {| address := field d "nic_ip_address";
               netmask := field d "nic_netmask";
               gateway := field d "nic_gateway" |}
  else None.

Definition boot_protocol_of (d : gmap string val) : option BootProtocol :=
  match field d "nic_boot_protocol" with
  | VStr t => if bool_decide (t = "") then None
              else Some (BootProtocol_of (lower_string t))
  | _ => None
  end.

(** The configuration a fragment of content [d] yields. *)
Definition nic_configuration_of (d : gmap string val) : NicConfiguration :=
  {| boot_protocol := boot_protocol_of d;
     nc_name := field d "nic_name";
     on_boot := field d "nic_on_boot";
     ip := ip_of d |}.

(** What is left of a fragment once its configuration is built. *)
Definition consumed (d : gmap string val) : gmap string val :=
  let d1 := if scalar_truthy (field d "nic_boot_protocol")
            then delete "nic_boot_protocol" d else d in
  let d2 := delete "nic_on_boot" (delete "nic_name" d1) in
  if has_ip d
  then delete "nic_gateway" (delete "nic_netmask" (delete "nic_ip_address" d2))
  else d2.

(** What is left of a fragment after the comprehension. *)
Definition leftover (d : gmap string val) : gmap string val :=
  if is_configured d then consumed d else d.

(** The store after the comprehension went over the fragments. *)
Fixpoint consume_all (frags : list (loc * gmap string val)) (s : state) : state :=
  match frags with
  | [] => s
  | (l, d) :: rest =>
      consume_all rest (if is_configured d then upd l (consumed d) s else s)
  end.

(** The boot protocol of a fragment is unset, empty, or a string that the
    enumeration has once put in lower case. *)
Definition boot_protocol_ok `{Collaborators} (d : gmap string val) : bool :=
  match field d "nic_boot_protocol" with
  | VNone => true
  | VStr t => bool_decide (t = "") || is_BootProtocol (lower_string t)
  | _ => false
  end.

(** What the [cloud_init_nics] parameter holds: nothing, or a list of
    fragments, each a dict of the store. *)
Definition fragments_given (s : state) (v : val)
    (frags : list (loc * gmap string val)) : Prop :=
  match v with
  | VNone => frags = []
  | VRef ll => heap s !! ll = Some (OList (VRef <$> frags.*1))
  | _ => False
  end.

(** ** Sample collaborators, parameters and stores for the examples *)

#[global] Instance sample_collaborators : Collaborators := {|
  is_BootProtocol t :=
    bool_decide (t ∈ ["autoconf"; "dhcp"; "none"; "poly_dhcp_autoconf"; "static"]);
  is_NicInterface t :=
    bool_decide (t ∈ ["e1000"; "pci_passthrough"; "rtl8139"; "rtl8139_virtio";
                      "spapr_vlan"; "virtio"]);
  Initialization_accepts t v :=
    bool_decide (t ∈ ["active_directory_ou"; "authorized_ssh_keys"; "cloud_init";
                      "configuration"; "custom_script"; "dns_search"; "dns_servers";
                      "domain"; "host_name"; "input_locale"; "nic_configurations";
                      "org_name"; "regenerate_ids"; "regenerate_ssh_keys";
                      "root_password"; "system_locale"; "timezone"; "ui_language";
                      "user_locale"; "user_name"; "windows_license_key"]) &&
    (is_None v || negb (bool_decide (t ∈ ["cloud_init"; "configuration"])));
  convert_to_bytes v := Ok v;
  engine_add_pool pool e :=
    Some (pool, {| vm_pools := vm_pools e ++ [pool]; vms := vms e;
                   vnic_profiles := vnic_profiles e; clusters := clusters e |});
  engine_update_pool _ pool e := Some (pool, e);
  engine_remove_pool _ e := Some e
|}.

Definition empty_engine : Engine :=
  {| vm_pools := []; vms := []; vnic_profiles := []; clusters := [] |}.

(** A run that has just started, on the store [h] and the engine [e]. *)
Definition start (h : gmap loc obj) (e : Engine) : state :=
  {| heap := h; _initialization := None; changed := false;
     engine := e; clock := 0; polled := [] |}.

(** The parameters of end-to-end scenario A: no [vm] is given. *)
Definition scenario_A : Params :=
  {| p_id := None; p_state := present; p_name := "pool1";
     p_template := Some "rhel7"; p_cluster := Some "c1";
     p_description := None; p_vm := VNone; p_comment := None;
     p_vm_per_user := Some 1; p_prestarted := Some 2; p_vm_count := Some 2;
     p_type := None; p_wait := true; p_timeout := 180 |}.

(** [vm] parameters at references 0 and 1: an empty one, and one with a
    sysprep mapping. *)
Definition two_vms : gmap loc obj :=
  {[ 0%nat := ODict ∅;
     1%nat := ODict {[ "sysprep" := VRef 2%nat ]};
     2%nat := ODict {[ "host_name" := VStr "w" ]} ]}.

(** A [vm] parameter with one cloud-init NIC fragment and a sysprep mapping,
    and no [cloud_init]. *)
Definition nics_and_sysprep : gmap loc obj :=
  {[ 0%nat := ODict {[ "cloud_init_nics" := VRef 1%nat; "sysprep" := VRef 3%nat ]};
     1%nat := OList [VRef 2%nat];
     2%nat := ODict {[ "nic_name" := VStr "eth0"; "nic_boot_protocol" := VStr "dhcp" ]};
     3%nat := ODict {[ "host_name" := VStr "w" ]} ]}.

(** A [vm] parameter with an empty [cloud_init] mapping and a sysprep one. *)
Definition empty_cloud_init : gmap loc obj :=
  {[ 0%nat := ODict {[ "cloud_init" := VRef 1%nat; "sysprep" := VRef 2%nat ]};
     1%nat := ODict ∅;
     2%nat := ODict {[ "host_name" := VStr "w" ]} ]}.

(** A [vm] parameter with two cloud-init NIC fragments, the second of which
    has only a name, and a [cloud_init] mapping with NIC fields of its own. *)
Definition three_fragments : gmap loc obj :=
  {[ 0%nat := ODict {[ "cloud_init_nics" := VRef 4%nat; "cloud_init" := VRef 3%nat ]};
     1%nat := ODict {[ "nic_name" := VStr "eth0"; "nic_boot_protocol" := VStr "DHCP" ]};
     2%nat := ODict {[ "nic_name" := VStr "eth1" ]};
     3%nat := ODict {[ "host_name" := VStr "h"; "nic_name" := VStr "eth2";
                       "nic_on_boot" := VBool true;
                       "nic_ip_address" := VStr "10.0.0.2" ]};
     4%nat := OList [VRef 1%nat; VRef 2%nat] ]}.

(** The time and the record of the polls. *)
Definition waited (s : state) : nat * list string := (clock s, polled s).

(** The virtual machine [vm] is in a state the module waits for at time [t]. *)
Definition ready_at (vm : EngineVm) (t : nat) : Prop :=
  condition (evm_status vm t) = true.

Definition find_vm (vm_id : string) (s : state) : option EngineVm :=
  List.find (λ vm, bool_decide (evm_id vm = vm_id)) (vms (engine s)).

(** A computation leaves [f] of the state as it was, whether it returns or
    raises. *)
Definition preserves {A B} (f : state → B) (m : M A) : Prop :=
  ∀ s r s', m s = (r, s') → f s' = f s.

(** The state after [n] polls of [vm_id] that took [t] intervals. *)
Definition after_polls (vm_id : string) (n t : nat) (s : state) : state :=
  set_clock (clock s + t) (set_polled (polled s ++ replicate n vm_id) s).

(** The cluster of that name, as the clusters service finds it. *)
Definition find_cluster (name : option string) (s : state) : option EngineCluster :=
  List.find (λ c, bool_decide (Some (ec_name c) = name)) (clusters (engine s)).

(** A profile has the requested name and its network is attached to the
    cluster. *)
Definition qualifies (name : val) (c : EngineCluster) (profile : VnicProfile) : bool :=
  bool_decide (VStr (prof_name profile) = name) &&
  bool_decide (prof_network profile ∈ ec_networks c).

(** The NICs of a virtual machine of the engine. *)
Definition vm_nics (vm_id : string) (s : state) : option (list Nic) :=
  evm_nics <$> find_vm vm_id s.

(** The first NIC of that name. *)
Definition find_nic (name : val) (ns : list Nic) : option Nic :=
  List.find (λ n, bool_decide (nic_name n = name)) ns.

(** The virtual machine has a NIC of that name. *)
Definition has_nic (vm_id : string) (name : val) (s : state) : Prop :=
  ∃ ns n, vm_nics vm_id s = Some ns ∧ find_nic name ns = Some n.

(** The NIC that the creation request carries for the declaration [d]. *)
Definition requested_nic (d : gmap string val) (interface : string)
    (profile : option string) : Nic :=
  {| nic_name := field d "name";
     nic_interface := NicInterface_of interface;
     nic_vnic_profile := profile;
     nic_mac := if scalar_truthy (field d "mac_address")
                then Some (field d "mac_address") else None |}.

(** The state once the engine has added [nic] to the virtual machine. *)
Definition with_nic (vm_id : string) (nic : Nic) (s : state) : state :=
  set_engine (set_vms (add_nic vm_id nic <$> vms (engine s)) (engine s)) s.

(** The profile of a declaration: none when no profile name is given, else
    the one [__get_vnic_profile_id] resolves. *)
Definition profile_resolved `{Collaborators} (module : AnsibleModule) (l : loc)
    (d : gmap string val) (s : state) (profile : option string) : Prop :=
  if scalar_truthy (field d "profile_name")
  then ∃ id, get_vnic_profile_id module (VRef l) s = (Ok id, s) ∧ profile = Some id
  else profile = None.

(** No field of the declaration is a dict or a list. *)
Definition scalars (d : gmap string val) : Prop :=
  ∀ k l, d !! k ≠ Some (VRef l).

(** The virtual machine has, in [s1], a NIC of the name that [nic] declares
    in [s]. *)
Definition declared_present (vm_id : string) (s1 s : state) (nic : val) : Prop :=
  ∃ name, py_get nic "name" s = (Ok name, s) ∧ has_nic vm_id name s1.

(** An engine with the pool of scenario A, one virtual machine in it that is
    ready from the second interval on, a cluster with one network, and three
    profiles of one name, the first of them on a network outside the
    cluster. *)
Definition sample_engine : Engine :=
  {| vm_pools :=
       [ {| vp_id := Some "p1"; vp_name := Some "pool1"; vp_description := None;
            vp_comment := None;
            vp_cluster := Some {| cl_id := Some "c1-id"; cl_name := None |};
            vp_template := None; vp_max_user_vms := Some 1;
            vp_prestarted_vms := Some 2; vp_size := Some 2;
            vp_type := None; vp_vm := None |} ];
     vms :=
       [ {| evm_id := "vm1"; evm_vm_pool := Some "p1";
            evm_status := λ t, if (t <? 2)%nat then IMAGE_LOCKED else DOWN;
            evm_nics := [] |} ];
     vnic_profiles :=
       [ {| prof_id := "prof0"; prof_name := "ovirtmgmt"; prof_network := "net0" |};
         {| prof_id := "prof1"; prof_name := "ovirtmgmt"; prof_network := "net1" |};
         {| prof_id := "prof2"; prof_name := "ovirtmgmt"; prof_network := "net1" |} ];
     clusters :=
       [ {| ec_id := "c1-id"; ec_name := "c1"; ec_networks := ["net1"] |} ] |}.

(** A [vm] parameter that declares one NIC with a profile. *)
Definition one_nic : gmap loc obj :=
  {[ 0%nat := ODict {[ "nics" := VRef 1%nat ]};
     1%nat := OList [VRef 2%nat];
     2%nat := ODict {[ "name" := VStr "nic1"; "profile_name" := VStr "ovirtmgmt" ]} ]}.

Definition sample_module : AnsibleModule :=
  {| params := scenario_A; check_mode := false |}.

(** The keys that the comprehension may pop from a fragment. *)
Definition nic_keys : list string :=
  ["nic_boot_protocol"; "nic_name"; "nic_on_boot";
   "nic_ip_address"; "nic_netmask"; "nic_gateway"].

(** The [sysprep] parameter holds nothing: it is unset or an empty mapping. *)
Definition no_mapping (s : state) (v : val) : Prop :=
  v = VNone ∨ ∃ l, v = VRef l ∧ heap s !! l = Some (ODict ∅).

(** Every object of [s] is in [s'] as it was. *)
Definition objects_kept (s s' : state) : Prop :=
  ∀ l o, heap s !! l = Some o → heap s' !! l = Some o.

(** The exception that a [nic_boot_protocol] makes lines 217-219 raise:
    ValueError for a non-empty string that is no value of the enumeration
    once in lower case, AttributeError for a true value that is no string
    and so has no [lower]. *)
Definition bad_boot_protocol `{Collaborators} (v : val) : option exn :=
  match v with
  | VStr t =>
      if negb (bool_decide (t = "")) && negb (is_BootProtocol (lower_string t))
      then Some ValueError else None
  | VBool true => Some AttributeError
  | VInt n => if (n =? 0)%Z then None else Some AttributeError
  | _ => None
  end.

(** A computation goes from a state to one related to it by [R], whether it
    returns or raises. *)
Definition keeps {A} (R : state → state → Prop) (m : M A) : Prop :=
  ∀ s r s', m s = (r, s') → R s s'.

(** The test of [get_vms] (line 252): the virtual machine belongs to the
    pool [entity]. *)
Definition is_member (entity : VmPool) (vm : EngineVm) : bool :=
  match evm_vm_pool vm with
  | Some pool_id => bool_decide (Some pool_id = vp_id entity)
  | None => false
  end.

(** The virtual machines of the pool, as the engine lists them in [s]. *)
Definition members (entity : VmPool) (s : state) : list EngineVm :=
  List.filter (is_member entity) (vms (engine s)).

(** [vm'] is [vm] with NICs added after the ones it had, and with none added
    unless its id is one of [ids]. *)
Definition nics_appended (ids : list string) (vm vm' : EngineVm) : Prop :=
  evm_id vm' = evm_id vm ∧
  evm_vm_pool vm' = evm_vm_pool vm ∧
  evm_status vm' = evm_status vm ∧
  ∃ extra, evm_nics vm' = evm_nics vm ++ extra ∧ (evm_id vm ∉ ids → extra = []).

(** From [s] to [s'] nothing happened but [changed] being set and NICs being
    appended to virtual machines whose id is one of [ids]. *)
Definition only_nics_appended (ids : list string) (s s' : state) : Prop :=
  heap s' = heap s ∧
  _initialization s' = _initialization s ∧
  clock s' = clock s ∧
  polled s' = polled s ∧
  vm_pools (engine s') = vm_pools (engine s) ∧
  vnic_profiles (engine s') = vnic_profiles (engine s) ∧
  clusters (engine s') = clusters (engine s) ∧
  Forall2 (nics_appended ids) (vms (engine s)) (vms (engine s')).

(** The state is as it was, or [changed] is set. *)
Definition unchanged_or_reported (s s' : state) : Prop :=
  s' = s ∨ changed s' = true.

(** The [vm] mapping at [l] is not one of its own cloud-init fragments. *)
Definition not_own_fragment (l : loc) (d : gmap string val) (s : state) : Prop :=
  field d "cloud_init" ≠ VRef l ∧
  ∀ ll xs, field d "cloud_init_nics" = VRef ll →
           heap s !! ll = Some (OList xs) → VRef l ∉ xs.

(** The dict at [l] is still there, with the same content. *)
Definition dict_kept (l : loc) (s s' : state) : Prop :=
  ∀ d, heap s !! l = Some (ODict d) → heap s' !! l = Some (ODict d).

(** The items that [for nic in v] goes over in [s] do not include the dict
    at [l]. *)
Definition iterates_apart (l : loc) (v : val) (s : state) : Prop :=
  ∀ items, py_iter v s = (Ok items, s) → VRef l ∉ items.

(** The values [build_vm] tests for truth are not dicts or lists. *)
Definition plain_fields (d : gmap string val) : Prop :=
  Forall (λ k, ∀ l, field d k ≠ VRef l)
         ["memory"; "memory_guaranteed"; "memory_max"; "sso"; "timezone"].

(** The [memory] argument of [otypes.Vm], lines 178-180. *)
Definition memory_of `{Collaborators} (d : gmap string val) : result val :=
  if scalar_truthy (field d "memory")
  then convert_to_bytes (field d "memory") else Ok VNone.

(** The [memory_policy] argument, lines 181-187. *)
Definition memory_policy_of `{Collaborators} (d : gmap string val)
    : result (option MemoryPolicy) :=
  if scalar_truthy (field d "memory_guaranteed") || scalar_truthy (field d "memory_max")
  then match convert_to_bytes (field d "memory_guaranteed") with
       | Ok g =>
           match convert_to_bytes (field d "memory_max") with
           | Ok x => Ok (Some {| guaranteed := g; mp_max := x |})
           | Raise e => Raise e
           end
       | Raise e => Raise e
       end
  else Ok None.

(** The [otypes.Vm] built from the mapping [d], given the converted sizes
    and the initialization. *)
Definition vm_of (d : gmap string val) (mem : val) (policy : option MemoryPolicy)
    (init : option Initialization) : Vm :=
  {| vm_comment := field d "comment";
     memory := mem;
     memory_policy := policy;
     initialization := init;
     display_smartcard_enabled :=
       if is_None (field d "smartcard_enabled") then None
       else Some (field d "smartcard_enabled");
     sso_methods :=
       if is_None (field d "sso") then None
       else Some (if scalar_truthy (field d "sso") then [GUEST_AGENT] else []);
     time_zone :=
       if scalar_truthy (field d "timezone") then Some (field d "timezone") else None |}.

(** The engine's entity holds what the desired entity asked for, in the
    fields that [update_check] compares. *)
Definition stored (e : Engine) (desired entity : VmPool) : Prop :=
  vp_name entity = vp_name desired ∧
  vp_description entity = vp_description desired ∧
  vp_comment entity = vp_comment desired ∧
  vp_max_user_vms entity = vp_max_user_vms desired ∧
  vp_prestarted_vms entity = vp_prestarted_vms desired ∧
  vp_size entity = vp_size desired ∧
  match vp_cluster desired with
  | Some c => get_link_name e (vp_cluster entity) = cl_name c
  | None => True
  end.

(** A [vm] parameter whose [cloud_init] mapping misspells [host_name]. *)
Definition misspelt_keyword : gmap loc obj :=
  {[ 0%nat := ODict {[ "cloud_init" := VRef 1%nat ]};
     1%nat := ODict {[ "hostname" := VStr "h" ]} ]}.

(** A [vm] parameter with one well-formed fragment and a [cloud_init]
    mapping whose boot protocol is no value of the enumeration. *)
Definition unknown_boot_protocol : gmap loc obj :=
  {[ 0%nat := ODict {[ "cloud_init_nics" := VRef 3%nat; "cloud_init" := VRef 2%nat ]};
     1%nat := ODict {[ "nic_name" := VStr "eth0"; "nic_boot_protocol" := VStr "dhcp" ]};
     2%nat := ODict {[ "nic_name" := VStr "eth1"; "nic_boot_protocol" := VStr "bootp" ]};
     3%nat := OList [VRef 1%nat] ]}.

(** A [vm] parameter with sizes, a false [sso], an empty [timezone] and a
    sysprep mapping. *)
Definition plain_vm : gmap loc obj :=
  {[ 0%nat := ODict {[ "memory" := VStr "2GiB"; "memory_max" := VStr "4GiB";
                       "sso" := VBool false; "timezone" := VStr "";
                       "sysprep" := VRef 1%nat ]};
     1%nat := ODict {[ "host_name" := VStr "w" ]} ]}.

(** The parameters of scenario A with a [vm] mapping at reference 0. *)
Definition scenario_with_vm : Params :=
  {| p_id := None; p_state := present; p_name := "pool1";
     p_template := Some "rhel7"; p_cluster := Some "c1";
     p_description := None; p_vm := VRef 0%nat; p_comment := None;
     p_vm_per_user := Some 1; p_prestarted := Some 2; p_vm_count := Some 2;
     p_type := None; p_wait := true; p_timeout := 180 |}.

(** The pool of [sample_engine]. *)
Definition sample_pool : VmPool :=
  {| vp_id := Some "p1"; vp_name := Some "pool1"; vp_description := None;
     vp_comment := None;
     vp_cluster := Some {| cl_id := Some "c1-id"; cl_name := None |};
     vp_template := None; vp_max_user_vms := Some 1;
     vp_prestarted_vms := Some 2; vp_size := Some 2;
     vp_type := None; vp_vm := None |}.

(** The engine of [sample_engine] with three virtual machines, the second
    of them outside the pool. *)
Definition three_vms : Engine :=
  set_vms
    [ {| evm_id := "vm1"; evm_vm_pool := Some "p1";
         evm_status := λ _, DOWN; evm_nics := [] |};
      {| evm_id := "vm2"; evm_vm_pool := None;
         evm_status := λ _, UP; evm_nics := [] |};
      {| evm_id := "vm3"; evm_vm_pool := Some "p1";
         evm_status := λ _, DOWN;
         evm_nics := [ {| nic_name := VStr "nic0";
                          nic_interface := NicInterface_of "e1000";
                          nic_vnic_profile := None; nic_mac := None |} ] |} ]
    sample_engine.

(** A [vm] parameter with two cloud-init NIC fragments, the second of which
    has only a name, and no [cloud_init] mapping. *)
Definition fragments_only : gmap loc obj :=
  {[ 0%nat := ODict {[ "cloud_init_nics" := VRef 3%nat ]};
     1%nat := ODict {[ "nic_name" := VStr "eth0"; "nic_boot_protocol" := VStr "dhcp" ]};
     2%nat := ODict {[ "nic_name" := VStr "eth1" ]};
     3%nat := OList [VRef 1%nat; VRef 2%nat] ]}.

(** [vm] parameters at references 0 and 2 that give [configuration], an
    attribute of a struct type, a string: in a sysprep mapping, and in a
    [cloud_init] mapping that also has a NIC field. *)
Definition struct_as_string : gmap loc obj :=
  {[ 0%nat := ODict {[ "sysprep" := VRef 1%nat ]};
     1%nat := ODict {[ "configuration" := VStr "x" ]};
     2%nat := ODict {[ "cloud_init" := VRef 3%nat ]};
     3%nat := ODict {[ "configuration" := VStr "x"; "nic_on_boot" := VBool true ]} ]}.

(** What the [nics] entry of the [vm] parameter holds: a list of
    declarations, each a dict of the store. *)
Definition nics_declared (s : state) (vm_param : val)
    (decls : list (loc * gmap string val)) : Prop :=
  ∃ lp dp ll,
    vm_param = VRef lp ∧
    heap s !! lp = Some (ODict dp) ∧
    field dp "nics" = VRef ll ∧
    heap s !! ll = Some (OList (VRef <$> decls.*1)) ∧
    Forall (λ f, heap s !! f.1 = Some (ODict f.2)) decls.

(** [nic] is the NIC that the creation request carries for the declaration
    [f]: its name, its interface (virtio unless one is given), which the
    enumeration has, the id of the profile its profile name resolves to, if
    it has one, and its MAC address, if it has one. *)
Definition creation_request `{Collaborators} (module : AnsibleModule) (s : state)
    (f : loc * gmap string val) (nic : Nic) : Prop :=
  scalars f.2 ∧
  ∃ i profile,
    default (VStr "virtio") (f.2 !! "interface") = VStr i ∧
    is_NicInterface i = true ∧
    profile_resolved module f.1 f.2 s profile ∧
    nic = requested_nic f.2 i profile.

(** The virtual machine with the NICs [ns] has a NIC of the name that the
    declaration [f] gives. *)
Definition declared_on (ns : list Nic) (f : loc * gmap string val) : bool :=
  bool_decide (is_Some (find_nic (field f.2 "name") ns)).

(** The state once the engine has added the NICs [added], in that order, to
    the virtual machine. *)
Definition with_nics (vm_id : string) (added : list Nic) (s : state) : state :=
  foldl (λ s nic, with_nic vm_id nic s) s added.

(** The state after a pass of [__attach_nics] that created the NICs
    [added]: as it was when there is none, else with the NICs added and
    [changed] set. *)
Definition after_attach (vm_id : string) (added : list Nic) (s : state) : state :=
  if bool_decide (added = []) then s else set_changed true (with_nics vm_id added s).

(** * Properties *)

(** ** The monad *)

Lemma bind_Ok {A B} (m : M A) (f : A → M B) s a s' :
  m s = (Ok a, s') → bind m f s = f a s'.
Proof. intros E. unfold bind. by rewrite E. Qed.

Lemma bind_Raise {A B} (m : M A) (f : A → M B) s e s' :
  m s = (Raise e, s') → bind m f s = (Raise e, s').
Proof. intros E. unfold bind. by rewrite E. Qed.

Lemma bind_Ok_inv {A B} (m : M A) (f : A → M B) s b s2 :
  bind m f s = (Ok b, s2) → ∃ a s1, m s = (Ok a, s1) ∧ f a s1 = (Ok b, s2).
Proof.
  unfold bind. destruct (m s) as [[a|e] s1]; intros E; [eauto | discriminate].
Qed.

(** ** [update_check] *)

Section UpdateCheck.
Context `{Collaborators}.

Lemma equal_agrees {A} `{EqDecision A} (p1 p2 : option A) :
  equal p1 p2 = true ↔ agrees p1 p2.
Proof.
  unfold equal, agrees. destruct p1 as [v|].
  - rewrite bool_decide_eq_true. split; [by intros -> ? [= ->] | eauto].
  - split; [by intros _ ? [=] | done].
Qed.

(** An unset desired field agrees with every actual value. *)
Lemma agrees_unset {A} (actual : option A) : agrees None actual.
Proof. by intros v [=]. Qed.

(** C1: [update_check] returns, leaves the state alone, and answers true
    exactly when each of the seven compared fields (name, cluster name
    resolved from the entity's cluster reference, description, comment,
    vm_per_user, prestarted, vm_count) that is set in the parameters equals
    the field of the entity; an unset parameter agrees with anything. *)
Theorem update_check_compares module entity s :
  ∃ b, update_check module entity s = (Ok b, s) ∧
    (b = true ↔
       agrees (Some (p_name (params module))) (vp_name entity) ∧
       agrees (p_cluster (params module))
              (get_link_name (engine s) (vp_cluster entity)) ∧
       agrees (p_description (params module)) (vp_description entity) ∧
       agrees (p_comment (params module)) (vp_comment entity) ∧
       agrees (p_vm_per_user (params module)) (vp_max_user_vms entity) ∧
       agrees (p_prestarted (params module)) (vp_prestarted_vms entity) ∧
       agrees (p_vm_count (params module)) (vp_size entity)).
Proof.
  eexists. split; [reflexivity|].
  rewrite !andb_true_iff, !equal_agrees. tauto.
Qed.

End UpdateCheck.

(** ** The comprehension over the cloud-init fragments *)

Section Fragments.
Context `{Collaborators}.

Lemma set_heap_id s : set_heap (heap s) s = s.
Proof. by destruct s. Qed.

Lemma heap_upd l d s : heap (upd l d s) !! l = Some (ODict d).
Proof. apply lookup_insert_eq. Qed.

Lemma heap_upd_ne l l' d s : l ≠ l' → heap (upd l d s) !! l' = heap s !! l'.
Proof. apply lookup_insert_ne. Qed.

Lemma upd_upd l d1 d2 s : upd l d2 (upd l d1 s) = upd l d2 s.
Proof. unfold upd, set_heap. simpl. by rewrite insert_insert_eq. Qed.

Lemma upd_id l d s : heap s !! l = Some (ODict d) → upd l d s = s.
Proof. intros E. unfold upd. rewrite insert_id by done. apply set_heap_id. Qed.

Lemma py_get_dict s l d k :
  heap s !! l = Some (ODict d) → py_get (VRef l) k s = (Ok (field d k), s).
Proof. intros E. unfold py_get, py_get_default. by rewrite E. Qed.

Lemma py_pop_default_dict s l d k dflt :
  heap s !! l = Some (ODict d) →
  py_pop_default (VRef l) k dflt s =
    (Ok (default dflt (d !! k)), upd l (delete k d) s).
Proof.
  intros E. unfold py_pop_default. rewrite E.
  destruct (d !! k) eqn:Ek; [done|].
  rewrite delete_id by done. by rewrite upd_id.
Qed.

Lemma py_pop_dict s l d k v :
  heap s !! l = Some (ODict d) → d !! k = Some v →
  py_pop (VRef l) k s = (Ok v, upd l (delete k d) s).
Proof. intros E Ek. unfold py_pop. by rewrite E, Ek. Qed.

Lemma is_not_None_get s l d k :
  heap s !! l = Some (ODict d) →
  is_not_None (py_get (VRef l) k) s = (Ok (negb (is_None (field d k))), s).
Proof. intros E. unfold is_not_None. by rewrite (bind_Ok _ _ _ _ _ (py_get_dict _ _ _ k E)). Qed.

Lemma or_else_Ok (a b : M bool) s x :
  a s = (Ok x, s) → or_else a b s = if x then (Ok true, s) else b s.
Proof. intros E. unfold or_else. rewrite (bind_Ok _ _ _ _ _ E). by destruct x. Qed.

Lemma nic_is_configured_dict s l d :
  heap s !! l = Some (ODict d) →
  nic_is_configured (VRef l) s = (Ok (is_configured d), s).
Proof.
  intros E. unfold nic_is_configured, is_configured.
  repeat (rewrite (or_else_Ok _ _ _ _ (is_not_None_get _ _ _ _ E));
          match goal with |- context [negb (is_None ?v)] => destruct (negb (is_None v)) end;
          [done | cbn [orb]]).
  by rewrite (is_not_None_get _ _ _ _ E).
Qed.

Lemma nic_has_ip_dict s l d :
  heap s !! l = Some (ODict d) →
  nic_has_ip (VRef l) s = (Ok (has_ip d), s).
Proof.
  intros E. unfold nic_has_ip, has_ip.
  repeat (rewrite (or_else_Ok _ _ _ _ (is_not_None_get _ _ _ _ E));
          match goal with |- context [negb (is_None ?v)] => destruct (negb (is_None v)) end;
          [done | cbn [orb]]).
  by rewrite (is_not_None_get _ _ _ _ E).
Qed.

Lemma field_delete_ne d k k' : k ≠ k' → field (delete k d) k' = field d k'.
Proof. intros. unfold field. by rewrite lookup_delete_ne. Qed.

Lemma truthy_scalar v s :
  (∀ l, v ≠ VRef l) → truthy v s = (Ok (scalar_truthy v), s).
Proof. intros Hv. destruct v; try done. by destruct (Hv l). Qed.

Lemma has_ip_delete_ne d k :
  k ≠ "nic_gateway" → k ≠ "nic_netmask" → k ≠ "nic_ip_address" →
  has_ip (delete k d) = has_ip d.
Proof. intros. unfold has_ip. by rewrite !field_delete_ne. Qed.

Lemma nic_boot_protocol_dict s l d :
  heap s !! l = Some (ODict d) → boot_protocol_ok d = true →
  nic_boot_protocol (VRef l) s =
    (Ok (boot_protocol_of d),
     upd l (if scalar_truthy (field d "nic_boot_protocol")
            then delete "nic_boot_protocol" d else d) s).
Proof.
  intros E Hbp. unfold nic_boot_protocol.
  rewrite (bind_Ok _ _ _ _ _ (py_get_dict _ _ _ _ E)).
  unfold boot_protocol_ok in Hbp. unfold boot_protocol_of, field in *.
  destruct (d !! "nic_boot_protocol") as [[| | |t|]|] eqn:Ek; simpl in *; try done.
  - by rewrite upd_id.
  - unfold bind at 1; simpl.
    destruct (bool_decide (t = "")) eqn:Et; simpl in *.
    + by rewrite upd_id.
    + rewrite (bind_Ok _ _ _ _ _ (py_pop_dict _ _ _ _ _ E Ek)).
      unfold bind, py_lower, BootProtocol_new, ret. by rewrite Hbp.
  - by rewrite upd_id.
Qed.

Lemma nic_ip_dict s l d :
  heap s !! l = Some (ODict d) →
  nic_ip (VRef l) s =
    (Ok (ip_of d),
     upd l (if has_ip d
            then delete "nic_gateway" (delete "nic_netmask" (delete "nic_ip_address" d))
            else d) s).
Proof.
  intros E. unfold nic_ip.
  rewrite (bind_Ok _ _ _ _ _ (nic_has_ip_dict _ _ _ E)).
  unfold ip_of.
  destruct (has_ip d); [|by rewrite upd_id].
  rewrite (bind_Ok _ _ _ _ _ (py_pop_default_dict _ _ _ _ _ E)).
  rewrite (bind_Ok _ _ _ _ _ (py_pop_default_dict _ _ _ _ _ (heap_upd _ _ _))).
  rewrite upd_upd.
  rewrite (bind_Ok _ _ _ _ _ (py_pop_default_dict _ _ _ _ _ (heap_upd _ _ _))).
  rewrite upd_upd. unfold ret, field.
  by rewrite !lookup_delete_ne by done.
Qed.

Lemma ip_of_delete_ne d k :
  k ≠ "nic_gateway" → k ≠ "nic_netmask" → k ≠ "nic_ip_address" →
  ip_of (delete k d) = ip_of d.
Proof. intros. unfold ip_of. by rewrite has_ip_delete_ne, !field_delete_ne. Qed.

Lemma build_nic_configuration_dict s l d :
  heap s !! l = Some (ODict d) → boot_protocol_ok d = true →
  build_nic_configuration (VRef l) s =
    (Ok (nic_configuration_of d), upd l (consumed d) s).
Proof.
  intros E Hbp. unfold build_nic_configuration.
  rewrite (bind_Ok _ _ _ _ _ (nic_boot_protocol_dict _ _ _ E Hbp)).
  rewrite (bind_Ok _ _ _ _ _ (py_pop_default_dict _ _ _ _ _ (heap_upd _ _ _))).
  rewrite upd_upd.
  rewrite (bind_Ok _ _ _ _ _ (py_pop_default_dict _ _ _ _ _ (heap_upd _ _ _))).
  rewrite upd_upd.
  rewrite (bind_Ok _ _ _ _ _ (nic_ip_dict _ _ _ (heap_upd _ _ _))).
  rewrite upd_upd. unfold ret, consumed, nic_configuration_of.
  rewrite !has_ip_delete_ne, !ip_of_delete_ne by done.
  destruct (scalar_truthy _).
  - rewrite has_ip_delete_ne, ip_of_delete_ne by done.
    by rewrite !lookup_delete_ne by done.
  - by rewrite !lookup_delete_ne by done.
Qed.

Lemma Forall_upd_other (frags : list (loc * gmap string val)) l d s :
  l ∉ frags.*1 →
  Forall (λ f, heap s !! f.1 = Some (ODict f.2)) frags →
  Forall (λ f, heap (upd l d s) !! f.1 = Some (ODict f.2)) frags.
Proof.
  intros Hl. rewrite !Forall_forall. intros Hh f Hf.
  rewrite heap_upd_ne; [by apply Hh|].
  intros ->. apply Hl. by apply list_elem_of_fmap_2.
Qed.

Lemma build_nic_configurations_dicts frags : ∀ s,
  NoDup frags.*1 →
  Forall (λ f, heap s !! f.1 = Some (ODict f.2)) frags →
  Forall (λ f, boot_protocol_ok f.2 = true) frags →
  build_nic_configurations (VRef <$> frags.*1) s =
    (Ok (nic_configuration_of <$> List.filter is_configured frags.*2),
     consume_all frags s).
Proof.
  induction frags as [|[l d] rest IH]; intros s Hnd Hh Hbp; [done|].
  rewrite !fmap_cons in *. cbn [fst snd] in *.
  apply NoDup_cons in Hnd as [Hl Hnd].
  apply Forall_cons in Hh as [E Hh]. apply Forall_cons in Hbp as [Hb Hbp].
  cbn [fst snd build_nic_configurations List.filter consume_all] in *.
  rewrite (bind_Ok _ _ _ _ _ (nic_is_configured_dict _ _ _ E)).
  destruct (is_configured d).
  - rewrite (bind_Ok _ _ _ _ _ (build_nic_configuration_dict _ _ _ E Hb)).
    rewrite (bind_Ok _ _ _ _ _ (IH (upd l (consumed d) s) Hnd
               (Forall_upd_other _ _ _ _ Hl Hh) Hbp)).
    done.
  - by apply IH.
Qed.
End Fragments.

(** ** [get_initialization] on cloud-init input *)

Section CloudInit.
Context `{Collaborators}.

Lemma length_filter_complement {A} (f : A → bool) (l : list A) :
  length (List.filter f l) =
  (length l - length (List.filter (λ x, negb (f x)) l))%nat.
Proof.
  induction l as [|x l IH]; [done|]. simpl.
  pose proof (List.filter_length_le (λ x, negb (f x)) l).
  destruct (f x); simpl; lia.
Qed.

Lemma consume_all_fields frags : ∀ s,
  _initialization (consume_all frags s) = _initialization s.
Proof. induction frags as [|[l d] r IH]; intros s; [done|]. simpl. rewrite IH. by destruct (is_configured d). Qed.

Lemma heap_consume_all_other frags : ∀ s l,
  l ∉ frags.*1 → heap (consume_all frags s) !! l = heap s !! l.
Proof.
  induction frags as [|[l' d'] r IH]; intros s l Hl; [done|].
  rewrite fmap_cons in Hl. apply not_elem_of_cons in Hl as [Hne Hl]. simpl in *.
  rewrite IH by done. destruct (is_configured d'); [|done]. by rewrite heap_upd_ne.
Qed.

Lemma heap_consume_all frags : ∀ s l d,
  NoDup frags.*1 → (l, d) ∈ frags →
  heap s !! l = Some (ODict d) →
  heap (consume_all frags s) !! l = Some (ODict (leftover d)).
Proof.
  induction frags as [|[l' d'] r IH]; intros s l d Hnd Hin E.
  - by apply elem_of_nil in Hin.
  - rewrite fmap_cons in Hnd. apply NoDup_cons in Hnd as [Hl' Hnd]. simpl in *.
    apply elem_of_cons in Hin as [[= <- <-]|Hin].
    + rewrite heap_consume_all_other by done. unfold leftover.
      destruct (is_configured d); [apply heap_upd | done].
    + apply IH; [done..|].
      destruct (is_configured d'); [|done].
      rewrite heap_upd_ne; [done|]. intros ->. apply Hl'.
      by apply (list_elem_of_fmap_2 fst _ (l, d)).
Qed.

Lemma truthy_list s l xs :
  heap s !! l = Some (OList xs) →
  truthy (VRef l) s = (Ok (negb (bool_decide (xs = []))), s).
Proof. intros E. unfold truthy. by rewrite E. Qed.

Lemma truthy_dict s l d :
  heap s !! l = Some (ODict d) →
  truthy (VRef l) s = (Ok (negb (bool_decide (d = ∅))), s).
Proof. intros E. unfold truthy. by rewrite E. Qed.

Lemma py_iter_list s l xs :
  heap s !! l = Some (OList xs) → py_iter (VRef l) s = (Ok xs, s).
Proof. intros E. unfold py_iter. by rewrite E. Qed.

Lemma py_mapping_dict s l d :
  heap s !! l = Some (ODict d) → py_mapping (VRef l) s = (Ok d, s).
Proof. intros E. unfold py_mapping. by rewrite E. Qed.

Lemma or_else_true (a b : M bool) s :
  (a s = (Ok true, s) ∨ (∃ x, a s = (Ok x, s)) ∧ b s = (Ok true, s)) →
  or_else a b s = (Ok true, s).
Proof.
  intros [E|[[x E] Eb]]; rewrite (or_else_Ok _ _ _ _ E); [done|]. by destruct x.
Qed.

(** The cloud-init branch of [initialize], on a list of fragments that ends
    with the [cloud_init] mapping itself. *)
Lemma initialize_cloud_init sysprep lc dc ll (frags : list (loc * gmap string val)) s :
  let all := (frags ++ [(lc, dc)])%list in
  heap s !! ll = Some (OList (VRef <$> all.*1)) →
  NoDup all.*1 →
  Forall (λ f, heap s !! f.1 = Some (ODict f.2)) all →
  Forall (λ f, boot_protocol_ok f.2 = true) all →
  leftover dc !! "nic_configurations" = None →
  accepted (leftover dc) = true →
  initialize sysprep (VRef lc) (VRef ll) s =
    (Ok tt,
     set__initialization
       (Some {| nic_configurations :=
                  Some (nic_configuration_of <$> List.filter is_configured all.*2);
                init_attrs := leftover dc |})
       (consume_all all s)).
Proof.
  intros all Hll Hnd Hh Hbp Hnc Hacc. unfold initialize.
  assert (heap s !! lc = Some (ODict dc)) as Hlc.
  { rewrite Forall_forall in Hh. apply (Hh (lc, dc)). subst all.
    apply elem_of_app. right. by left. }
  assert (truthy (VRef ll) s = (Ok true, s)) as Htl.
  { rewrite (truthy_list _ _ _ Hll). subst all.
    rewrite fmap_app, fmap_app. simpl. by destruct (VRef <$> frags.*1). }
  rewrite (bind_Ok _ _ _ _ _ (or_else_true _ _ _
    (or_intror (conj (ex_intro _ _ (truthy_dict _ _ _ Hlc)) Htl)))).
  rewrite (bind_Ok _ _ _ _ _ Htl). cbv beta iota.
  rewrite (bind_Ok _ _ s
    (Some (nic_configuration_of <$> List.filter is_configured all.*2))
    (consume_all all s)).
  2:{ rewrite (bind_Ok _ _ _ _ _ (py_iter_list _ _ _ Hll)).
      by rewrite (bind_Ok _ _ _ _ _ (build_nic_configurations_dicts _ _ Hnd Hh Hbp)). }
  assert (heap (consume_all all s) !! lc = Some (ODict (leftover dc))) as Hlc'.
  { apply heap_consume_all; [done| |done]. subst all.
    apply elem_of_app. right. by left. }
  rewrite (bind_Ok _ _ _ _ _ (py_mapping_dict _ _ _ Hlc')).
  unfold Initialization_new. rewrite Hnc, Hacc.
  rewrite bool_decide_eq_false_2 by (by intros [? ?]). done.
Qed.

Lemma Forall_heap_insert_list (frags : list (loc * gmap string val)) s l xs :
  (∀ d, heap s !! l ≠ Some (ODict d)) →
  Forall (λ f, heap s !! f.1 = Some (ODict f.2)) frags →
  Forall (λ f, heap (set_heap (<[l := OList xs]> (heap s)) s) !! f.1 = Some (ODict f.2)) frags.
Proof.
  intros Hl Hh. eapply Forall_impl; [exact Hh|].
  intros [l' d'] E. cbn [fst snd set_heap heap] in *.
  rewrite lookup_insert_ne; [done|]. intros ->. by apply (Hl d').
Qed.

Lemma is_None_VRef l : is_None (VRef l) = false.
Proof. reflexivity. Qed.

Lemma get_initialization_cloud_init s lv dv lc dc
    (frags : list (loc * gmap string val)) :
  let all := (frags ++ [(lc, dc)])%list in
  _initialization s = None →
  heap s !! lv = Some (ODict dv) →
  field dv "cloud_init" = VRef lc →
  fragments_given s (field dv "cloud_init_nics") frags →
  NoDup all.*1 →
  Forall (λ f, heap s !! f.1 = Some (ODict f.2)) all →
  Forall (λ f, boot_protocol_ok f.2 = true) all →
  leftover dc !! "nic_configurations" = None →
  accepted (leftover dc) = true →
  ∃ s',
    get_initialization (VRef lv) s =
      (Ok (Some {| nic_configurations :=
                     Some (nic_configuration_of <$> List.filter is_configured all.*2);
                   init_attrs := leftover dc |}), s').
Proof.
  intros all Hi Hlv Hci Hgiven Hnd Hh Hbp Hnc Hacc.
  unfold get_initialization.
  rewrite (bind_Ok _ _ s None s) by (unfold gets; by rewrite Hi).
  rewrite (bind_Ok _ _ _ _ _ (py_get_dict _ _ _ _ Hlv)).
  rewrite (bind_Ok _ _ _ _ _ (py_get_dict _ _ _ _ Hlv)).
  rewrite (bind_Ok _ _ _ _ _ (py_get_dict _ _ _ _ Hlv)).
  rewrite Hci. cbv beta iota. rewrite is_None_VRef. cbn [negb].
  unfold fragments_given in Hgiven.
  assert (∃ ll s1,
    (∀ A (k : val → M A),
       bind (truthy (field dv "cloud_init_nics"))
         (λ has_nics,
            bind (if has_nics then ret (field dv "cloud_init_nics") else new_list)
              (λ cloud_init_nics,
                 bind (list_append cloud_init_nics (VRef lc))
                   (λ _, k cloud_init_nics))) s
       = k (VRef ll) s1) ∧
    _initialization s1 = None ∧
    heap s1 !! ll = Some (OList (VRef <$> all.*1)) ∧
    Forall (λ f, heap s1 !! f.1 = Some (ODict f.2)) all) as (ll & s1 & E1 & Hi1 & Hll & Hh1).
  { destruct (field dv "cloud_init_nics") as [| | | |ll] eqn:Eg; try done.
    - subst frags. set (l' := fresh (dom (heap s))).
      assert (heap s !! l' = None) as Hfresh
        by (apply not_elem_of_dom, is_fresh).
      exists l', (set_heap (<[l' := OList [VRef lc]]> (heap s)) s).
      split; [|split; [done|split]].
      + intros A k. unfold bind, truthy, new_list, list_append, ret. cbn.
        fold l'. rewrite lookup_insert_eq. cbn. by rewrite insert_insert_eq.
      + cbn. by rewrite lookup_insert_eq.
      + apply Forall_heap_insert_list; [|done]. by rewrite Hfresh.
    - destruct (decide (frags = [])) as [->|Hne].
      + set (l' := fresh (dom (heap s))).
        assert (heap s !! l' = None) as Hfresh
          by (apply not_elem_of_dom, is_fresh).
        exists l', (set_heap (<[l' := OList [VRef lc]]> (heap s)) s).
        split; [|split; [done|split]].
        * intros A k. unfold bind, truthy, new_list, list_append, ret. rewrite Hgiven. cbn.
          fold l'. rewrite lookup_insert_eq. cbn. by rewrite insert_insert_eq.
        * cbn. by rewrite lookup_insert_eq.
        * apply Forall_heap_insert_list; [|done]. by rewrite Hfresh.
      + exists ll, (set_heap (<[ll := OList (VRef <$> all.*1)]> (heap s)) s).
        split; [|split; [done|split]].
        * intros A k. unfold bind, truthy, list_append, ret. rewrite Hgiven.
          rewrite bool_decide_eq_false_2 by (by destruct frags). cbn. rewrite Hgiven.
          subst all. by rewrite !fmap_app.
        * cbn. by rewrite lookup_insert_eq.
        * apply Forall_heap_insert_list; [|done]. by rewrite Hgiven. }
  rewrite E1.
  subst all.
  rewrite (bind_Ok _ _ _ _ _
    (initialize_cloud_init _ _ _ _ _ _ Hll Hnd Hh1 Hbp Hnc Hacc)).
  eexists. unfold gets. reflexivity.
Qed.
(** Fragments given without a [cloud_init] mapping: the comprehension goes
    through, and unpacking None at line 241 raises. *)
Lemma get_initialization_fragments_only s lv dv (frags : list (loc * gmap string val)) :
  frags ≠ [] →
  _initialization s = None →
  heap s !! lv = Some (ODict dv) →
  field dv "cloud_init" = VNone →
  fragments_given s (field dv "cloud_init_nics") frags →
  NoDup frags.*1 →
  Forall (λ f, heap s !! f.1 = Some (ODict f.2)) frags →
  Forall (λ f, boot_protocol_ok f.2 = true) frags →
  get_initialization (VRef lv) s = (Raise TypeError, consume_all frags s).
Proof.
  intros Hne Hi Hlv Hci Hg Hnd Hh Hbp. unfold get_initialization.
  rewrite (bind_Ok _ _ s None s) by (unfold gets; by rewrite Hi).
  rewrite (bind_Ok _ _ _ _ _ (py_get_dict _ _ _ _ Hlv)).
  rewrite (bind_Ok _ _ _ _ _ (py_get_dict _ _ _ _ Hlv)).
  rewrite (bind_Ok _ _ _ _ _ (py_get_dict _ _ _ _ Hlv)).
  rewrite Hci. unfold fragments_given in Hg.
  destruct (field dv "cloud_init_nics") as [| | | |ll] eqn:Eg; try done.
  assert (truthy (VRef ll) s = (Ok true, s)) as Htl.
  { rewrite (truthy_list _ _ _ Hg). rewrite bool_decide_eq_false_2; [done|].
    by destruct frags. }
  rewrite (bind_Ok _ _ _ _ _ Htl). cbv beta iota.
  rewrite (bind_Ok _ _ s (VRef ll) s) by done.
  change (negb (is_None VNone)) with false. cbv beta iota.
  rewrite (bind_Ok _ _ s tt s) by done.
  apply bind_Raise. unfold initialize.
  rewrite (bind_Ok _ _ s true s).
  2:{ by rewrite (or_else_Ok _ _ _ false) by done. }
  rewrite (bind_Ok _ _ _ _ _ Htl). cbv beta iota.
  rewrite (bind_Ok _ _ s
    (Some (nic_configuration_of <$> List.filter is_configured frags.*2))
    (consume_all frags s)).
  2:{ rewrite (bind_Ok _ _ _ _ _ (py_iter_list _ _ _ Hg)).
      by rewrite (bind_Ok _ _ _ _ _ (build_nic_configurations_dicts _ _ Hnd Hh Hbp)). }
  done.
Qed.

(** C4, where the code departs from it: take N fragments, distinct dicts of
    the store, the boot protocol of each unset or a value of the
    enumeration, K of which have none of the five fields nic_ip_address,
    nic_netmask, nic_gateway, nic_boot_protocol, nic_on_boot set.  The
    comprehension returns N - K configurations: one for each fragment with a
    field set, in order, and none for the others.  When the fragments are
    the [cloud_init_nics] of [vm] followed by its [cloud_init] mapping, and
    [otypes.Initialization] takes what is left of that mapping,
    [get_initialization] returns an [Initialization] with that list.  When
    they are the [cloud_init_nics] of a [vm] without a [cloud_init] mapping,
    [get_initialization] raises TypeError once the list is built: there is
    no initialization, and so no list of N - K entries, and nothing is
    cached. *)
Theorem nic_configurations_drop_rule (frags : list (loc * gmap string val)) s :
  NoDup frags.*1 →
  Forall (λ f, heap s !! f.1 = Some (ODict f.2)) frags →
  Forall (λ f, boot_protocol_ok f.2 = true) frags →
  let cfgs := nic_configuration_of <$> List.filter is_configured frags.*2 in
  length cfgs =
    (length frags -
     length (List.filter (λ d, negb (is_configured d)) frags.*2))%nat ∧
  (∃ s', build_nic_configurations (VRef <$> frags.*1) s = (Ok cfgs, s')) ∧
  (∀ lv dv lc dc given,
     frags = given ++ [(lc, dc)] →
     _initialization s = None →
     heap s !! lv = Some (ODict dv) →
     field dv "cloud_init" = VRef lc →
     fragments_given s (field dv "cloud_init_nics") given →
     leftover dc !! "nic_configurations" = None →
     accepted (leftover dc) = true →
     ∃ s', get_initialization (VRef lv) s =
             (Ok (Some {| nic_configurations := Some cfgs;
                          init_attrs := leftover dc |}), s')) ∧
  (∀ lv dv,
     frags ≠ [] →
     _initialization s = None →
     heap s !! lv = Some (ODict dv) →
     field dv "cloud_init" = VNone →
     fragments_given s (field dv "cloud_init_nics") frags →
     ∃ s', get_initialization (VRef lv) s = (Raise TypeError, s') ∧
           _initialization s' = None).
Proof.
  intros Hnd Hh Hbp cfgs. split; [|split; [|split]].
  - subst cfgs. rewrite length_fmap, length_filter_complement.
    by rewrite length_fmap.
  - eexists. by apply build_nic_configurations_dicts.
  - intros lv dv lc dc given -> Hi Hlv Hci Hg Hnc Hacc.
    by apply (get_initialization_cloud_init s lv dv lc dc given).
  - intros lv dv Hne Hi Hlv Hci Hg.
    rewrite (get_initialization_fragments_only s lv dv frags) by done.
    eexists. split; [done|]. by rewrite consume_all_fields.
Qed.

End CloudInit.

Lemma nic_configurations_drop_rule_witness :
  let s := start fragments_only empty_engine in
  let dv : gmap string val := {[ "cloud_init_nics" := VRef 3%nat ]} in
  let eth0 : gmap string val :=
    {[ "nic_name" := VStr "eth0"; "nic_boot_protocol" := VStr "dhcp" ]} in
  let eth1 : gmap string val := {[ "nic_name" := VStr "eth1" ]} in
  let frags := [ (1%nat, eth0); (2%nat, eth1) ] in
  (NoDup frags.*1 ∧
   Forall (λ f, heap s !! f.1 = Some (ODict f.2)) frags ∧
   Forall (λ f, boot_protocol_ok f.2 = true) frags ∧
   frags ≠ [] ∧
   _initialization s = None ∧
   heap s !! 0%nat = Some (ODict dv) ∧
   field dv "cloud_init" = VNone ∧
   fragments_given s (field dv "cloud_init_nics") frags) ∧
  (∃ s', build_nic_configurations (VRef <$> frags.*1) s
         = (Ok [ {| boot_protocol := Some (BootProtocol_of "dhcp");
                    nc_name := VStr "eth0"; on_boot := VNone; ip := None |} ], s')) ∧
  ∃ s', get_initialization (VRef 0%nat) s = (Raise TypeError, s') ∧
        _initialization s' = None.
Proof.
  intros s dv eth0 eth1 frags.
  assert (NoDup frags.*1) as Hnd by (apply (bool_decide_unpack _); reflexivity).
  assert (Forall (λ f, heap s !! f.1 = Some (ODict f.2)) frags) as Hh
    by (repeat constructor).
  assert (Forall (λ f, boot_protocol_ok f.2 = true) frags) as Hbp
    by (repeat constructor).
  split; [by repeat split|].
  destruct (nic_configurations_drop_rule frags s Hnd Hh Hbp)
    as (_ & Hlist & _ & Hraise).
  split; [exact Hlist|].
  by apply (Hraise 0%nat dv).
Defined.

(** With a [cloud_init] mapping after the fragments the list reaches the
    result: three fragments, one of them with a name only, give two
    configurations. *)
Lemma nic_configurations_with_mapping :
  ∃ s',
    get_initialization (VRef 0%nat) (start three_fragments empty_engine) =
      (Ok (Some
             {| nic_configurations :=
                  Some [ {| boot_protocol := Some (BootProtocol_of "dhcp");
                            nc_name := VStr "eth0"; on_boot := VNone; ip := None |};
                         {| boot_protocol := None; nc_name := VStr "eth2";
                            on_boot := VBool true;
                            ip := Some {| address := VStr "10.0.0.2";
                                          netmask := VNone; gateway := VNone |} |} ];
                init_attrs := {[ "host_name" := VStr "h" ]} |}), s').
Proof. eexists. reflexivity. Qed.

(** C10: with an empty [cloud_init] mapping and no (or an empty)
    [cloud_init_nics] list, whatever [sysprep] holds, the cloud-init branch
    is taken: the result is an [Initialization] whose NIC configurations are
    the empty list (not None) and which has no other attribute. *)
Theorem get_initialization_empty_cloud_init `{Collaborators} s lv dv lc :
  _initialization s = None →
  heap s !! lv = Some (ODict dv) →
  field dv "cloud_init" = VRef lc →
  heap s !! lc = Some (ODict ∅) →
  fragments_given s (field dv "cloud_init_nics") [] →
  ∃ s',
    get_initialization (VRef lv) s =
      (Ok (Some {| nic_configurations := Some []; init_attrs := ∅ |}), s').
Proof.
  intros Hi Hlv Hci Hlc Hg.
  destruct (get_initialization_cloud_init s lv dv lc ∅ [] Hi Hlv Hci Hg)
    as (s' & E); try done.
  - apply NoDup_singleton.
  - by apply Forall_singleton.
  - by apply Forall_singleton.
  - eauto.
Qed.

Lemma get_initialization_empty_cloud_init_witness :
  let s := start empty_cloud_init empty_engine in
  let dv : gmap string val := {[ "cloud_init" := VRef 1%nat; "sysprep" := VRef 2%nat ]} in
  (_initialization s = None ∧
   heap s !! 0%nat = Some (ODict dv) ∧
   field dv "cloud_init" = VRef 1%nat ∧
   heap s !! 1%nat = Some (ODict ∅) ∧
   fragments_given s (field dv "cloud_init_nics") []) ∧
  ∃ s',
    get_initialization (VRef 0%nat) s =
      (Ok (Some {| nic_configurations := Some []; init_attrs := ∅ |}), s').
Proof.
  split; [repeat split|].
  apply (get_initialization_empty_cloud_init
           (start empty_cloud_init empty_engine) 0%nat
           {[ "cloud_init" := VRef 1%nat; "sysprep" := VRef 2%nat ]} 1%nat);
    reflexivity.
Defined.

(** ** Fragments without a [cloud_init] mapping *)

Section NoMapping.
Context `{Collaborators}.

Lemma initialize_without_mapping sysprep ll xs s :
  heap s !! ll = Some (OList xs) → xs ≠ [] →
  ∃ e s', initialize sysprep VNone (VRef ll) s = (Raise e, s').
Proof.
  intros Hll Hxs. unfold initialize.
  assert (truthy (VRef ll) s = (Ok true, s)) as Htl.
  { rewrite (truthy_list _ _ _ Hll). by rewrite bool_decide_eq_false_2. }
  rewrite (bind_Ok _ _ s true s).
  2:{ by rewrite (or_else_Ok _ _ _ false) by done. }
  rewrite (bind_Ok _ _ _ _ _ Htl). cbv beta iota.
  unfold bind at 1. unfold bind at 1.
  rewrite (py_iter_list _ _ _ Hll).
  unfold bind at 1.
  destruct (build_nic_configurations xs s) as [[cfgs|e] s1]; [|eauto].
  unfold ret at 1. unfold bind, py_mapping. eauto.
Qed.

(** C3, where the code departs from it: when [cloud_init_nics] is a
    non-empty list and [cloud_init] is not given, [get_initialization]
    raises, whatever [sysprep] holds: the cloud-init branch is taken and
    [**cloud_init] unpacks None. *)
Theorem get_initialization_nics_without_cloud_init s lv dv ll xs :
  _initialization s = None →
  heap s !! lv = Some (ODict dv) →
  field dv "cloud_init" = VNone →
  field dv "cloud_init_nics" = VRef ll →
  heap s !! ll = Some (OList xs) → xs ≠ [] →
  ∃ e s', get_initialization (VRef lv) s = (Raise e, s').
Proof.
  intros Hi Hlv Hci Hn Hll Hxs. unfold get_initialization.
  rewrite (bind_Ok _ _ s None s) by (unfold gets; by rewrite Hi).
  rewrite (bind_Ok _ _ _ _ _ (py_get_dict _ _ _ _ Hlv)).
  rewrite (bind_Ok _ _ _ _ _ (py_get_dict _ _ _ _ Hlv)).
  rewrite (bind_Ok _ _ _ _ _ (py_get_dict _ _ _ _ Hlv)).
  rewrite Hci, Hn.
  rewrite (bind_Ok _ _ s true s).
  2:{ rewrite (truthy_list _ _ _ Hll). by rewrite bool_decide_eq_false_2. }
  cbv beta iota.
  rewrite (bind_Ok _ _ s (VRef ll) s) by done.
  change (negb (is_None VNone)) with false. cbv beta iota.
  rewrite (bind_Ok _ _ s tt s) by done.
  destruct (initialize_without_mapping (field dv "sysprep") _ _ _ Hll Hxs)
    as (e & s' & E).
  rewrite (bind_Raise _ _ _ _ _ E). eauto.
Qed.

End NoMapping.

Lemma get_initialization_nics_without_cloud_init_witness :
  let s := start nics_and_sysprep empty_engine in
  let dv : gmap string val :=
    {[ "cloud_init_nics" := VRef 1%nat; "sysprep" := VRef 3%nat ]} in
  (_initialization s = None ∧
   heap s !! 0%nat = Some (ODict dv) ∧
   field dv "cloud_init" = VNone ∧
   field dv "cloud_init_nics" = VRef 1%nat ∧
   heap s !! 1%nat = Some (OList [VRef 2%nat]) ∧
   [VRef 2%nat] ≠ []) ∧
  ∃ e s', get_initialization (VRef 0%nat) s = (Raise e, s').
Proof.
  split; [repeat split; discriminate|].
  apply (get_initialization_nics_without_cloud_init
           (start nics_and_sysprep empty_engine) 0%nat
           {[ "cloud_init_nics" := VRef 1%nat; "sysprep" := VRef 3%nat ]}
           1%nat [VRef 2%nat]);
    (reflexivity || discriminate).
Defined.

(** The exception on that input is the TypeError of the unpacking. *)
Lemma get_initialization_nics_and_sysprep :
  (get_initialization (VRef 0%nat) (start nics_and_sysprep empty_engine)).1
  = Raise TypeError.
Proof. reflexivity. Qed.

(** ** The memo of [get_initialization] *)

Section Memo.
Context `{Collaborators}.

Ltac bind_inv H :=
  repeat (let a := fresh "a" in let s := fresh "s" in let E := fresh "E" in
          apply bind_Ok_inv in H as (a & s & E & H); cbv beta in H).

Lemma get_initialization_cached vm s i :
  _initialization s = Some i → get_initialization vm s = (Ok (Some i), s).
Proof. intros E. unfold get_initialization, bind, gets. by rewrite E. Qed.

(** What [get_initialization] returns is what [self._initialization] holds
    afterwards. *)
Lemma get_initialization_result vm s r s1 :
  get_initialization vm s = (Ok r, s1) → _initialization s1 = r.
Proof.
  unfold get_initialization. intros E.
  apply bind_Ok_inv in E as (cached & s0 & E0 & E).
  injection E0 as <- <-.
  destruct (_initialization s) as [i|] eqn:Ei.
  - by injection E as <- <-.
  - bind_inv E. by injection E as <- <-.
Qed.

(** C7, as amended: what a call returns is what [self._initialization] holds
    afterwards.  Once a call has returned an [Initialization], every later
    call returns that same one and changes nothing, whatever [vm] it is
    given; after a call that returned None the memo is still empty. *)
Theorem get_initialization_memoized vm1 vm2 s r s1 :
  get_initialization vm1 s = (Ok r, s1) →
  _initialization s1 = r ∧
  ∀ i, r = Some i → get_initialization vm2 s1 = (Ok (Some i), s1).
Proof.
  intros E. apply get_initialization_result in E. split; [done|].
  intros i ->. by apply get_initialization_cached.
Qed.

End Memo.

Lemma get_initialization_memoized_witness :
  let s := start two_vms empty_engine in
  let i := {| nic_configurations := None;
              init_attrs := {[ "host_name" := VStr "w" ]} |} in
  let s1 := (get_initialization (VRef 1%nat) s).2 in
  get_initialization (VRef 1%nat) s = (Ok (Some i), s1) ∧
  get_initialization (VRef 0%nat) s1 = (Ok (Some i), s1).
Proof.
  intros s i s1. split; [reflexivity|].
  apply (get_initialization_memoized (VRef 1%nat) (VRef 0%nat) s (Some i) s1);
    reflexivity.
Defined.

(** C7, as stated, fails: a first call that returns None caches nothing, and
    a second call with another [vm] returns an [Initialization]. *)
Lemma get_initialization_None_not_memoized :
  let r1 := get_initialization (VRef 0%nat) (start two_vms empty_engine) in
  let r2 := get_initialization (VRef 1%nat) r1.2 in
  r1.1 = Ok None ∧
  r2.1 = Ok (Some {| nic_configurations := None;
                     init_attrs := {[ "host_name" := VStr "w" ]} |}) ∧
  r2.1 ≠ r1.1.
Proof. vm_compute. split; [reflexivity|]. split; [reflexivity|discriminate]. Qed.

(** ** [build_entity] without a [vm] parameter *)

Section BuildEntity.
Context `{Collaborators}.

Lemma build_vm_None s : build_vm VNone s = (Raise AttributeError, s).
Proof. reflexivity. Qed.

Lemma build_entity_vm_None module s :
  p_vm (params module) = VNone →
  build_entity module s =
    (Raise (if type_is_valid module then AttributeError else ValueError), s).
Proof.
  intros Hvm. unfold build_entity, type_is_valid. rewrite Hvm.
  destruct (p_type (params module)) as [t|]; [|reflexivity].
  unfold str_truthy, VmPoolType_new.
  destruct (bool_decide (t = "")); [reflexivity|].
  destruct (bool_decide (t = "automatic")); [reflexivity|].
  destruct (bool_decide (t = "manual")); reflexivity.
Qed.

(** C9: when the [vm] parameter is None, [build_vm] raises on its first read
    of the mapping, and so does [build_entity], for every other parameter:
    no entity is built and the state is as before. *)
Theorem build_entity_requires_vm module s :
  p_vm (params module) = VNone →
  build_vm (p_vm (params module)) s = (Raise AttributeError, s) ∧
  ∃ e, build_entity module s = (Raise e, s).
Proof.
  intros Hvm. split.
  - rewrite Hvm. apply build_vm_None.
  - rewrite (build_entity_vm_None _ _ Hvm). eauto.
Qed.

Lemma search_entity_absent module s :
  p_id (params module) = None →
  Forall (λ pool, vp_name pool ≠ Some (p_name (params module)))
         (vm_pools (engine s)) →
  search_entity module s = (Ok None, s).
Proof.
  intros Hid Hno. unfold search_entity, bind, gets, ret. rewrite Hid.
  do 2 f_equal. induction Hno as [|pool l Hp _ IH]; [done|]. simpl.
  by rewrite bool_decide_eq_false_2.
Qed.

(** A run that has to create the pool, or to update it, fails when no [vm]
    is given. *)
Lemma create_requires_vm module s :
  p_vm (params module) = VNone →
  (search_entity module s = (Ok None, s) ∨
   ∃ entity, search_entity module s = (Ok (Some entity), s) ∧
             update_check module entity s = (Ok false, s)) →
  create module s =
    (Raise (if type_is_valid module then AttributeError else ValueError), s).
Proof.
  intros Hvm [Hs|(entity & Hs & Hu)]; unfold create;
    rewrite (bind_Ok _ _ _ _ _ Hs).
  - by rewrite (bind_Raise _ _ _ _ _ (build_entity_vm_None _ _ Hvm)).
  - rewrite (bind_Ok _ _ _ _ _ Hu).
    by rewrite (bind_Raise _ _ _ _ _ (build_entity_vm_None _ _ Hvm)).
Qed.

(** C2, where the code departs from it: with the parameters of scenario A
    (no [vm]) and no pool of that name in the engine, [create] raises
    AttributeError: nothing is created and [changed] is not set. *)
Theorem create_scenario_A check s :
  Forall (λ pool, vp_name pool ≠ Some "pool1") (vm_pools (engine s)) →
  create {| params := scenario_A; check_mode := check |} s
  = (Raise AttributeError, s).
Proof.
  intros Hno.
  apply (create_requires_vm {| params := scenario_A; check_mode := check |});
    [done|]. left. by apply search_entity_absent.
Qed.

End BuildEntity.

Lemma build_entity_requires_vm_witness :
  let module := {| params := scenario_A; check_mode := false |} in
  let s := start ∅ empty_engine in
  p_vm (params module) = VNone ∧
  build_vm (p_vm (params module)) s = (Raise AttributeError, s) ∧
  ∃ e, build_entity module s = (Raise e, s).
Proof.
  split; [reflexivity|].
  apply (build_entity_requires_vm
           {| params := scenario_A; check_mode := false |} (start ∅ empty_engine)).
  reflexivity.
Defined.

Lemma create_scenario_A_witness :
  let s := start ∅ empty_engine in
  Forall (λ pool, vp_name pool ≠ Some "pool1") (vm_pools (engine s)) ∧
  create {| params := scenario_A; check_mode := false |} s
  = (Raise AttributeError, s).
Proof.
  split; [constructor|].
  apply (create_scenario_A false (start ∅ empty_engine)). constructor.
Defined.

(** ** What a computation leaves untouched *)

Section Frames.
Context `{Collaborators}.
Context {B : Type} (f : state → B).

Lemma preserves_ret {A} (a : A) : preserves f (ret a).
Proof. by intros s r s' [= <- <-]. Qed.

Lemma preserves_raise {A} e : preserves f (@raise A e).
Proof. by intros s r s' [= <- <-]. Qed.

Lemma preserves_gets {A} (g : state → A) : preserves f (gets g).
Proof. by intros s r s' [= <- <-]. Qed.

Lemma preserves_lift {A} (x : result A) : preserves f (lift x).
Proof. by intros s r s' [= <- <-]. Qed.

Lemma preserves_modify g : (∀ s, f (g s) = f s) → preserves f (modify g).
Proof. intros Hg s r s' [= <- <-]. apply Hg. Qed.

Lemma preserves_bind {A C} (m : M A) (k : A → M C) :
  preserves f m → (∀ a, preserves f (k a)) → preserves f (bind m k).
Proof.
  intros Hm Hk s r s'. unfold bind.
  destruct (m s) as [[a|e] s1] eqn:E.
  - intros E'. rewrite <- (Hm _ _ _ E). by eapply Hk.
  - intros [= <- <-]. by eapply Hm.
Qed.

Lemma preserves_forM_ {A} (g : A → M unit) l :
  (∀ a, preserves f (g a)) → preserves f (forM_ g l).
Proof.
  intros Hg. induction l as [|a l IH]; simpl.
  - apply preserves_ret.
  - apply preserves_bind; [apply Hg | by intros _].
Qed.

Lemma preserves_filterM {A} (g : A → M bool) l :
  (∀ a, preserves f (g a)) → preserves f (filterM g l).
Proof.
  intros Hg. induction l as [|a l IH]; simpl.
  - apply preserves_ret.
  - apply preserves_bind; [apply Hg|]. intros b.
    apply preserves_bind; [apply IH|]. intros r. apply preserves_ret.
Qed.

(** Reads of the store. *)
Lemma preserves_truthy v : preserves f (truthy v).
Proof.
  intros s r s'. unfold truthy.
  destruct v; try by intros [= <- <-].
  destruct (heap s !! l) as [[]|]; by intros [= <- <-].
Qed.

Lemma preserves_py_get_default o k dflt : preserves f (py_get_default o k dflt).
Proof.
  intros s r s'. unfold py_get_default.
  destruct o; try by intros [= <- <-].
  destruct (heap s !! l) as [[]|]; by intros [= <- <-].
Qed.

Lemma preserves_py_get o k : preserves f (py_get o k).
Proof. apply preserves_py_get_default. Qed.

Lemma preserves_py_iter v : preserves f (py_iter v).
Proof.
  intros s r s'. unfold py_iter.
  destruct v; try by intros [= <- <-].
  destruct (heap s !! l) as [[]|]; by intros [= <- <-].
Qed.

Lemma preserves_py_mapping v : preserves f (py_mapping v).
Proof.
  intros s r s'. unfold py_mapping.
  destruct v; try by intros [= <- <-].
  destruct (heap s !! l) as [[]|]; by intros [= <- <-].
Qed.

(** Updates of the store, for what does not depend on the store. *)
Hypothesis f_heap : ∀ h s, f (set_heap h s) = f s.

Lemma preserves_py_pop_default o k dflt : preserves f (py_pop_default o k dflt).
Proof.
  intros s r s'. unfold py_pop_default.
  destruct o; try by intros [= <- <-].
  destruct (heap s !! l) as [[]|]; try by intros [= <- <-].
  destruct (d !! k); by intros [= <- <-].
Qed.

Lemma preserves_py_pop o k : preserves f (py_pop o k).
Proof.
  intros s r s'. unfold py_pop.
  destruct o; try by intros [= <- <-].
  destruct (heap s !! l) as [[]|]; try by intros [= <- <-].
  destruct (d !! k); by intros [= <- <-].
Qed.

Lemma preserves_new_list : preserves f new_list.
Proof. by intros s r s' [= <- <-]. Qed.

Lemma preserves_list_append l x : preserves f (list_append l x).
Proof.
  intros s r s'. unfold list_append.
  destruct l as [| | | |l]; try by intros [= <- <-].
  destruct (heap s !! l) as [[]|]; by intros [= <- <-].
Qed.
End Frames.

Create HintDb frame.
#[export] Hint Resolve preserves_ret preserves_raise preserves_gets preserves_lift
  preserves_truthy preserves_py_get_default preserves_py_get preserves_py_iter
  preserves_py_mapping preserves_py_pop_default preserves_py_pop preserves_new_list
  preserves_list_append : frame.

Ltac frame :=
  repeat first
    [ progress eauto 2 with frame
    | apply preserves_bind; [|intros ?]
    | apply preserves_forM_; intros ?
    | apply preserves_filterM; intros ?
    | apply preserves_modify; intros ?; reflexivity
    | match goal with
      | |- preserves _ (if ?b then _ else _) => destruct b
      | |- preserves _ (match ?x with _ => _ end) => destruct x
      end ].

(** The module polls no virtual machine and lets no time pass before [main]
    waits. *)

Section FrameModule.
Context `{Collaborators}.

Lemma reads_get_vnic_profile_id module nic : preserves id (get_vnic_profile_id module nic).
Proof. unfold get_vnic_profile_id, search_by_name_cluster. frame. Qed.

Lemma waited_build_nic_configurations nics :
  preserves waited (build_nic_configurations nics).
Proof.
  induction nics as [|nic rest IH]; simpl.
  - frame.
  - unfold nic_is_configured, build_nic_configuration, nic_boot_protocol, nic_ip,
      nic_has_ip, or_else, is_not_None, py_lower, BootProtocol_new.
    frame.
Qed.

Lemma waited_get_initialization vm : preserves waited (get_initialization vm).
Proof.
  pose proof waited_build_nic_configurations.
  unfold get_initialization, initialize, or_else, Initialization_new,
    Initialization_of_mapping.
  frame.
Qed.

Lemma waited_build_entity module : preserves waited (build_entity module).
Proof.
  pose proof waited_get_initialization.
  unfold build_entity, build_vm, VmPoolType_new, or_else. frame.
Qed.

Lemma waited_attach_nics module vm vm_param :
  preserves waited (attach_nics module vm vm_param).
Proof.
  unfold attach_nics, attach_nic, search_by_name_nic, nics_service_add,
    nics_service_list, NicInterface_new, get_vnic_profile_id, search_by_name_cluster.
  frame.
Qed.

Lemma waited_post_create module entity : preserves waited (post_create module entity).
Proof.
  pose proof waited_attach_nics.
  unfold post_create, get_vms. frame.
Qed.

Lemma waited_create module : preserves waited (create module).
Proof.
  pose proof waited_post_create. pose proof waited_build_entity.
  unfold create, search_entity, update_check, request. frame.
Qed.

Lemma waited_remove module : preserves waited (remove module).
Proof. unfold remove, search_entity. frame. Qed.
End FrameModule.

(** ** Waiting for the virtual machines of the pool *)

Section Wait.
Context `{Collaborators}.

Lemma poll_vm vm_id vm s :
  find_vm vm_id s = Some vm →
  poll vm_id s = (Ok (evm_status vm (clock s)), set_polled (polled s ++ [vm_id]) s).
Proof.
  intros E. unfold poll, bind, gets, modify, ret. unfold find_vm in E.
  cbn. by rewrite E.
Qed.

Lemma wait_ready vm_id vm timeout : ∀ k s,
  find_vm vm_id s = Some vm →
  (k < timeout)%nat →
  ready_at vm (clock s + k) →
  (∀ j, (j < k)%nat → ¬ ready_at vm (clock s + j)) →
  wait vm_id condition timeout s = (Ok tt, after_polls vm_id (S k) k s).
Proof.
  induction timeout as [|t IH]; intros k s E Hk Hr Hn; [lia|].
  simpl. rewrite (bind_Ok _ _ _ _ _ (poll_vm _ _ _ E)).
  destruct k as [|k].
  - rewrite Nat.add_0_r in Hr. unfold ready_at in Hr. rewrite Hr.
    unfold ret, after_polls. rewrite Nat.add_0_r. by destruct s.
  - assert (condition (evm_status vm (clock s)) = false) as ->.
    { apply not_true_is_false. intros Hc. apply (Hn 0%nat); [lia|].
      by rewrite Nat.add_0_r. }
    unfold bind at 1, modify.
    rewrite (IH k); cbn [clock set_clock set_polled polled].
    + f_equal. unfold after_polls, set_clock, set_polled. destruct s; cbn.
      f_equal; [lia | by rewrite <- app_assoc].
    + done.
    + lia.
    + by rewrite Nat.add_succ_comm.
    + intros j Hj. rewrite Nat.add_succ_comm. apply Hn. lia.
Qed.

Lemma wait_expires vm_id vm timeout : ∀ s,
  find_vm vm_id s = Some vm →
  (∀ j, (j < timeout)%nat → ¬ ready_at vm (clock s + j)) →
  wait vm_id condition timeout s
  = (Raise TimeoutError, after_polls vm_id timeout timeout s).
Proof.
  induction timeout as [|t IH]; intros s E Hn.
  - simpl. unfold raise, after_polls. simpl. rewrite Nat.add_0_r, app_nil_r.
    by destruct s.
  - simpl. rewrite (bind_Ok _ _ _ _ _ (poll_vm _ _ _ E)).
    assert (condition (evm_status vm (clock s)) = false) as ->.
    { apply not_true_is_false. intros Hc. apply (Hn 0%nat); [lia|].
      by rewrite Nat.add_0_r. }
    unfold bind at 1, modify.
    rewrite IH; cbn [clock set_clock set_polled polled].
    + f_equal. unfold after_polls, set_clock, set_polled. destruct s; cbn.
      f_equal; [lia | by rewrite <- app_assoc].
    + done.
    + intros j Hj. rewrite Nat.add_succ_comm. apply Hn. lia.
Qed.
End Wait.

Section Main.
Context `{Collaborators}.

Lemma poll_polled vm_id s r s0 :
  poll vm_id s = (r, s0) → polled s0 = polled s ++ [vm_id].
Proof.
  unfold poll, bind, gets, modify, ret, raise. cbn.
  destruct (List.find _ _); by intros [= <- <-].
Qed.

Lemma wait_polled vm_id cond timeout : ∀ s r s',
  wait vm_id cond timeout s = (r, s') →
  ∃ n, polled s' = polled s ++ replicate n vm_id.
Proof.
  induction timeout as [|t IH]; intros s r s'; simpl.
  - intros [= <- <-]. exists 0%nat. by rewrite app_nil_r.
  - unfold bind at 1.
    destruct (poll vm_id s) as [[st|e] s0] eqn:Ep;
      apply poll_polled in Ep as Hp.
    + destruct (cond st).
      * intros [= <- <-]. by exists 1%nat.
      * unfold bind, modify. intros E. apply IH in E as [n E]. cbn in E.
        exists (S n). rewrite E, Hp. by rewrite <- app_assoc.
    + intros [= <- <-]. by exists 1%nat.
Qed.

Lemma wait_all_polled cond timeout (l : list EngineVm) : ∀ s r s',
  forM_ (λ vm, wait (evm_id vm) cond timeout) l s = (r, s') →
  ∃ ids, polled s' = polled s ++ ids ∧ Forall (λ id, id ∈ evm_id <$> l) ids.
Proof.
  induction l as [|vm l IH]; intros s r s'; simpl.
  - intros [= <- <-]. exists []. by rewrite app_nil_r.
  - unfold bind at 1.
    destruct (wait (evm_id vm) cond timeout s) as [[[]|e] s0] eqn:Ew;
      apply wait_polled in Ew as [n Hn].
    + intros E. apply IH in E as (ids & Hids & Hall).
      exists (replicate n (evm_id vm) ++ ids). split.
      * by rewrite Hids, Hn, <- app_assoc.
      * apply Forall_app. split.
        -- apply Forall_replicate. by left.
        -- eapply Forall_impl; [exact Hall|]. intros id Hid. by right.
    + intros [= <- <-]. exists (replicate n (evm_id vm)). split; [done|].
      apply Forall_replicate. by left.
Qed.

Lemma condition_DOWN_UP status : condition status = true ↔ status = DOWN ∨ status = UP.
Proof.
  unfold condition. rewrite bool_decide_eq_true, !elem_of_cons, elem_of_nil. tauto.
Qed.

(** C8: [main] polls no virtual machine and lets no time pass when the state
    is absent or [wait] is not set.  With state present and [wait] set it
    waits, one after the other, for the virtual machines that the engine
    lists as members of the pool when [create] has returned, and polls no
    other; each wait returns at the first poll that sees the status DOWN or
    UP, if it comes before [timeout] intervals have passed, and raises
    TimeoutError after [timeout] intervals otherwise. *)
Theorem main_waits_for_pool_vms module s :
  let p := params module in
  (p_state p = absent ∨ p_wait p = false → waited (main module s).2 = waited s) ∧
  (p_state p = present → p_wait p = true →
   ∀ entity s1, create module s = (Ok entity, s1) →
     main module s =
       forM_ (λ vm, wait (evm_id vm) condition (p_timeout p))
             (pool_vms (p_name p) (engine s1)) s1 ∧
     ∃ ids, polled (main module s).2 = polled s ++ ids ∧
            Forall (λ id, id ∈ evm_id <$> pool_vms (p_name p) (engine s1)) ids) ∧
  (∀ vm_id vm s0, find_vm vm_id s0 = Some vm →
     (∀ k, (k < p_timeout p)%nat →
           ready_at vm (clock s0 + k) →
           (∀ j, (j < k)%nat → ¬ ready_at vm (clock s0 + j)) →
           wait vm_id condition (p_timeout p) s0
           = (Ok tt, after_polls vm_id (S k) k s0)) ∧
     ((∀ j, (j < p_timeout p)%nat → ¬ ready_at vm (clock s0 + j)) →
      wait vm_id condition (p_timeout p) s0
      = (Raise TimeoutError, after_polls vm_id (p_timeout p) (p_timeout p) s0))) ∧
  (∀ vm t, ready_at vm t ↔ evm_status vm t = DOWN ∨ evm_status vm t = UP).
Proof.
  intros p. split; [|split; [|split]].
  - intros Hno. unfold main. fold p.
    destruct (p_state p) eqn:Es.
    + destruct Hno as [|Hw]; [done|]. rewrite Hw.
      destruct (bind (create module) (λ _, ret tt) s) as [r s'] eqn:E.
      cbn. revert E. apply preserves_bind; [apply waited_create|].
      intros ?. apply preserves_ret.
    + destruct (remove module s) as [r s'] eqn:E. cbn.
      by apply waited_remove in E.
  - intros Es Hw entity s1 Ec. unfold main. fold p. rewrite Es, Hw.
    rewrite (bind_Ok _ _ _ _ _ Ec). unfold vms_service_list_pool.
    rewrite (bind_Ok _ _ s1 (pool_vms (p_name p) (engine s1)) s1) by done.
    split; [done|].
    destruct (forM_ _ _ s1) as [r s'] eqn:E. cbn.
    apply wait_all_polled in E as (ids & Hids & Hall).
    exists ids. split; [|done]. rewrite Hids. f_equal.
    apply waited_create in Ec. by injection Ec.
  - intros vm_id vm s0 E. split.
    + intros k Hk Hr Hn. by apply (wait_ready _ vm).
    + intros Hn. by apply (wait_expires _ vm).
  - intros vm t. apply condition_DOWN_UP.
Qed.
End Main.

Lemma main_waits_for_pool_vms_witness :
  let s := start ∅ sample_engine in
  let vm := {| evm_id := "vm1"; evm_vm_pool := Some "p1";
               evm_status := λ t, if (t <? 2)%nat then IMAGE_LOCKED else DOWN;
               evm_nics := [] |} in
  (find_vm "vm1" s = Some vm ∧
   (2 < p_timeout (params sample_module))%nat ∧
   ready_at vm (clock s + 2) ∧
   (∀ j, (j < 2)%nat → ¬ ready_at vm (clock s + j))) ∧
  wait "vm1" condition (p_timeout (params sample_module)) s
  = (Ok tt, after_polls "vm1" 3 2 s) ∧
  main sample_module s
  = forM_ (λ vm, wait (evm_id vm) condition (p_timeout (params sample_module)))
          [vm] s.
Proof.
  intros s vm.
  assert (∀ j, (j < 2)%nat → ¬ ready_at vm (clock s + j)) as Hn.
  { intros [|[|j]] Hj; [discriminate..|lia]. }
  assert (2 < p_timeout (params sample_module))%nat as Ht by (cbn; lia).
  destruct (main_waits_for_pool_vms sample_module s) as (_ & Hmain & Hwait & _).
  split; [by repeat split|]. split.
  - by apply (proj1 (Hwait "vm1" vm s eq_refl) 2%nat).
  - apply (Hmain eq_refl eq_refl
             {| vp_id := Some "p1"; vp_name := Some "pool1"; vp_description := None;
                vp_comment := None;
                vp_cluster := Some {| cl_id := Some "c1-id"; cl_name := None |};
                vp_template := None; vp_max_user_vms := Some 1;
                vp_prestarted_vms := Some 2; vp_size := Some 2;
                vp_type := None; vp_vm := None |} s).
    reflexivity.
Defined.

(** [main] on the pool of scenario A, already there: the virtual machine is
    polled three times and is ready after two intervals; with a timeout of two
    intervals the wait expires. *)
Lemma main_waits_example :
  let r := main sample_module (start ∅ sample_engine) in
  r.1 = Ok tt ∧ clock r.2 = 2%nat ∧ polled r.2 = ["vm1"; "vm1"; "vm1"] ∧
  changed r.2 = false.
Proof. vm_compute. repeat split. Qed.

Lemma main_times_out_example :
  let p := {| p_id := None; p_state := present; p_name := "pool1";
              p_template := None; p_cluster := None; p_description := None;
              p_vm := VNone; p_comment := None; p_vm_per_user := None;
              p_prestarted := None; p_vm_count := None; p_type := None;
              p_wait := true; p_timeout := 2 |} in
  let r := main {| params := p; check_mode := false |} (start ∅ sample_engine) in
  r.1 = Raise TimeoutError ∧ clock r.2 = 2%nat.
Proof. vm_compute. repeat split. Qed.

Lemma main_without_wait_example :
  let p := {| p_id := None; p_state := present; p_name := "pool1";
              p_template := None; p_cluster := None; p_description := None;
              p_vm := VNone; p_comment := None; p_vm_per_user := None;
              p_prestarted := None; p_vm_count := None; p_type := None;
              p_wait := false; p_timeout := 2 |} in
  let r := main {| params := p; check_mode := false |} (start ∅ sample_engine) in
  r.1 = Ok tt ∧ clock r.2 = 0%nat ∧ polled r.2 = [].
Proof. vm_compute. repeat split. Qed.

(** ** [__get_vnic_profile_id] *)

Section Profiles.
Context `{Collaborators}.

Lemma filterM_by_name nic_l d s (l : list VnicProfile) :
  heap s !! nic_l = Some (ODict d) →
  filterM (λ profile, bind (py_get (VRef nic_l) "profile_name")
             (λ name, ret (bool_decide (VStr (prof_name profile) = name)))) l s
  = (Ok (List.filter (λ profile, bool_decide (VStr (prof_name profile)
                                               = field d "profile_name")) l), s).
Proof.
  intros E. induction l as [|p l IH]; [done|]. simpl.
  rewrite (bind_Ok _ _ s (bool_decide (VStr (prof_name p) = field d "profile_name")) s).
  2:{ by rewrite (bind_Ok _ _ _ _ _ (py_get_dict _ _ _ _ E)). }
  rewrite (bind_Ok _ _ _ _ _ IH). unfold ret.
  by destruct (bool_decide _).
Qed.

Lemma find_filter {A} (f g : A → bool) (l : list A) :
  List.find g (List.filter f l) = List.find (λ x, f x && g x) l.
Proof.
  induction l as [|x l IH]; [done|]. simpl.
  destruct (f x); simpl; [|done]. by destruct (g x).
Qed.

Lemma get_vnic_profile_id_find module l d c s :
  heap s !! l = Some (ODict d) →
  find_cluster (p_cluster (params module)) s = Some c →
  get_vnic_profile_id module (VRef l) s =
    match List.find (qualifies (field d "profile_name") c)
                    (vnic_profiles (engine s)) with
    | Some profile => (Ok (prof_id profile), s)
    | None => (Raise (ProfileNotFound (field d "profile_name")
                                      (p_cluster (params module))), s)
    end.
Proof.
  intros E Ec. unfold get_vnic_profile_id.
  rewrite (bind_Ok _ _ s (engine s) s) by done.
  rewrite (bind_Ok _ _ s (Some c) s).
  2:{ unfold search_by_name_cluster, bind, gets, ret. unfold find_cluster in Ec.
      by rewrite Ec. }
  rewrite (bind_Ok _ _ _ _ _ (filterM_by_name _ _ _ _ E)).
  rewrite (bind_Ok _ _ s (ec_networks c) s) by done.
  rewrite find_filter. fold (qualifies (field d "profile_name") c).
  destruct (List.find _ _); [done|].
  by rewrite (bind_Ok _ _ _ _ _ (py_get_dict _ _ _ _ E)).
Qed.

Lemma find_None_Forall {A} (f : A → bool) (l : list A) :
  List.find f l = None ↔ Forall (λ x, f x = false) l.
Proof.
  induction l as [|x l IH]; simpl.
  - split; [constructor | done].
  - destruct (f x) eqn:Ef.
    + split; [done|]. intros Hall. apply Forall_cons in Hall as [? _]. congruence.
    + rewrite IH. split; [by constructor|]. by intros [_ ?]%Forall_cons.
Qed.

Lemma find_first {A} (f : A → bool) (l : list A) x :
  List.find f l = Some x ↔
  ∃ before after, l = before ++ x :: after ∧ f x = true ∧
                  Forall (λ y, f y = false) before.
Proof.
  induction l as [|y l IH]; simpl.
  - split; [done|]. intros (b & a & E & _). by destruct b.
  - destruct (f y) eqn:Ef.
    + split.
      * intros [= ->]. exists [], l. by repeat split.
      * intros ([|z b] & a & E & Hx & Hb).
        -- by injection E as ->.
        -- injection E as -> _. apply Forall_cons in Hb as [? _]. congruence.
    + rewrite IH. split.
      * intros (b & a & -> & Hx & Hb). exists (y :: b), a.
        repeat split; [done|]. by constructor.
      * intros ([|z b] & a & E & Hx & Hb).
        -- injection E as -> _. congruence.
        -- injection E as -> ->. apply Forall_cons in Hb as [_ Hb].
           by exists b, a.
Qed.

(** C6: for a cluster that the engine knows by the [cluster] parameter,
    [__get_vnic_profile_id] returns the id of the first profile, in the
    order the engine lists them, that has the requested name and whose
    network is attached to the cluster; it raises the "profile not found"
    exception exactly when no listed profile has both, and fails in no other
    case; the state is left as it was. *)
Theorem get_vnic_profile_id_resolves module l d c s :
  heap s !! l = Some (ODict d) →
  find_cluster (p_cluster (params module)) s = Some c →
  let name := field d "profile_name" in
  let profiles := vnic_profiles (engine s) in
  (∀ id, get_vnic_profile_id module (VRef l) s = (Ok id, s) ↔
         ∃ before profile after,
           profiles = before ++ profile :: after ∧
           qualifies name c profile = true ∧
           Forall (λ other, qualifies name c other = false) before ∧
           id = prof_id profile) ∧
  (get_vnic_profile_id module (VRef l) s
     = (Raise (ProfileNotFound name (p_cluster (params module))), s) ↔
   Forall (λ profile, qualifies name c profile = false) profiles) ∧
  (is_Ok (get_vnic_profile_id module (VRef l) s).1 = false ↔
   Forall (λ profile, qualifies name c profile = false) profiles).
Proof.
  intros E Ec name profiles.
  rewrite (get_vnic_profile_id_find _ _ _ _ _ E Ec). fold name profiles.
  destruct (List.find (qualifies name c) profiles) as [p|] eqn:Ef.
  - assert (¬ Forall (λ profile, qualifies name c profile = false) profiles) as Hn.
    { rewrite <- find_None_Forall. congruence. }
    split; [|split].
    + intros id. split.
      * intros [= <-]. apply find_first in Ef as (b & a & ? & ? & ?).
        by exists b, p, a.
      * intros (b & p' & a & Hl & Hq & Hb & ->).
        assert (List.find (qualifies name c) profiles = Some p') as Ef'
          by (apply find_first; by exists b, a).
        congruence.
    + split; [done | by intros ?%Hn].
    + split; [done | by intros ?%Hn].
  - apply find_None_Forall in Ef as Hall. split; [|split].
    + intros id. split; [done|].
      intros (b & p' & a & Hl & Hq & _). rewrite Hl in Hall.
      apply Forall_app in Hall as [_ [? _]%Forall_cons]. congruence.
    + done.
    + done.
Qed.
End Profiles.

Lemma get_vnic_profile_id_resolves_witness :
  let s := start one_nic sample_engine in
  let d : gmap string val :=
    {[ "name" := VStr "nic1"; "profile_name" := VStr "ovirtmgmt" ]} in
  let c := {| ec_id := "c1-id"; ec_name := "c1"; ec_networks := ["net1"] |} in
  (heap s !! 2%nat = Some (ODict d) ∧
   find_cluster (p_cluster (params sample_module)) s = Some c) ∧
  get_vnic_profile_id sample_module (VRef 2%nat) s = (Ok "prof1", s).
Proof.
  split; [split; reflexivity|].
  apply (proj1 (get_vnic_profile_id_resolves sample_module 2%nat
                  {[ "name" := VStr "nic1"; "profile_name" := VStr "ovirtmgmt" ]}
                  {| ec_id := "c1-id"; ec_name := "c1"; ec_networks := ["net1"] |}
                  (start one_nic sample_engine) eq_refl eq_refl)).
  exists [ {| prof_id := "prof0"; prof_name := "ovirtmgmt"; prof_network := "net0" |} ],
         {| prof_id := "prof1"; prof_name := "ovirtmgmt"; prof_network := "net1" |},
         [ {| prof_id := "prof2"; prof_name := "ovirtmgmt"; prof_network := "net1" |} ].
  repeat split. repeat constructor.
Defined.

(** A profile name that exists only outside the cluster is not found. *)
Lemma get_vnic_profile_id_outside_cluster :
  let e := {| vm_pools := []; vms := [];
              vnic_profiles :=
                [ {| prof_id := "prof0"; prof_name := "ovirtmgmt";
                     prof_network := "net0" |} ];
              clusters :=
                [ {| ec_id := "c1-id"; ec_name := "c1"; ec_networks := ["net1"] |} ] |} in
  (get_vnic_profile_id sample_module (VRef 2%nat) (start one_nic e)).1
  = Raise (ProfileNotFound (VStr "ovirtmgmt") (Some "c1")).
Proof. reflexivity. Qed.

(** ** [__attach_nics] *)

Section Attach.
Context `{Collaborators}.

Lemma truthy_field d k s :
  scalars d → truthy (field d k) s = (Ok (scalar_truthy (field d k)), s).
Proof.
  intros Hd. apply truthy_scalar. intros l E. unfold field in E.
  destruct (d !! k) as [v|] eqn:Ek; [|done]. simpl in E. subst v. by apply (Hd k l).
Qed.

Lemma nics_service_list_vm vm_id s ns :
  vm_nics vm_id s = Some ns → nics_service_list vm_id s = (Ok ns, s).
Proof.
  unfold vm_nics, find_vm, nics_service_list, bind, gets, ret.
  destruct (List.find _ _); [|done]. by intros [= <-].
Qed.

Lemma search_by_name_nic_vm vm_id name s ns :
  vm_nics vm_id s = Some ns →
  search_by_name_nic vm_id name s = (Ok (find_nic name ns), s).
Proof.
  intros E. unfold search_by_name_nic.
  by rewrite (bind_Ok _ _ _ _ _ (nics_service_list_vm _ _ _ E)).
Qed.

Lemma nics_service_add_vm vm_id nic s ns :
  vm_nics vm_id s = Some ns →
  nics_service_add vm_id nic s = (Ok tt, with_nic vm_id nic s).
Proof.
  intros E. unfold nics_service_add.
  by rewrite (bind_Ok _ _ _ _ _ (nics_service_list_vm _ _ _ E)).
Qed.

Lemma attach_nic_present module vm_id l d s ns n :
  heap s !! l = Some (ODict d) →
  vm_nics vm_id s = Some ns →
  find_nic (field d "name") ns = Some n →
  attach_nic module vm_id (VRef l) s = (Ok tt, s).
Proof.
  intros E Ens Ef. unfold attach_nic.
  rewrite (bind_Ok _ _ _ _ _ (py_get_dict _ _ _ _ E)).
  rewrite (bind_Ok _ _ _ _ _ (search_by_name_nic_vm _ _ _ _ Ens)).
  by rewrite Ef.
Qed.

Lemma attach_nic_check_mode module vm_id l d s ns :
  heap s !! l = Some (ODict d) →
  vm_nics vm_id s = Some ns →
  find_nic (field d "name") ns = None →
  check_mode module = true →
  attach_nic module vm_id (VRef l) s = (Ok tt, set_changed true s).
Proof.
  intros E Ens Ef Hc. unfold attach_nic.
  rewrite (bind_Ok _ _ _ _ _ (py_get_dict _ _ _ _ E)).
  rewrite (bind_Ok _ _ _ _ _ (search_by_name_nic_vm _ _ _ _ Ens)).
  rewrite Ef, Hc. done.
Qed.

Lemma attach_nic_absent module vm_id l d s ns i profile :
  heap s !! l = Some (ODict d) →
  vm_nics vm_id s = Some ns →
  find_nic (field d "name") ns = None →
  check_mode module = false →
  scalars d →
  default (VStr "virtio") (d !! "interface") = VStr i →
  is_NicInterface i = true →
  profile_resolved module l d s profile →
  attach_nic module vm_id (VRef l) s
  = (Ok tt, set_changed true (with_nic vm_id (requested_nic d i profile) s)).
Proof.
  intros E Ens Ef Hc Hd Hi Hvalid Hp. unfold attach_nic.
  rewrite (bind_Ok _ _ _ _ _ (py_get_dict _ _ _ _ E)).
  rewrite (bind_Ok _ _ _ _ _ (search_by_name_nic_vm _ _ _ _ Ens)).
  rewrite Ef, Hc. cbn [negb].
  rewrite (bind_Ok _ _ s tt (with_nic vm_id (requested_nic d i profile) s)); [done|].
  rewrite (bind_Ok _ _ _ _ _ (py_get_dict _ _ _ _ E)).
  rewrite (bind_Ok _ _ s (VStr i) s).
  2:{ unfold py_get_default. by rewrite E, Hi. }
  rewrite (bind_Ok _ _ s (NicInterface_of i) s).
  2:{ unfold NicInterface_new. by rewrite Hvalid. }
  rewrite (bind_Ok _ _ _ _ _ (py_get_dict _ _ _ _ E)).
  rewrite (bind_Ok _ _ _ _ _ (truthy_field _ _ _ Hd)).
  rewrite (bind_Ok _ _ s profile s).
  2:{ unfold profile_resolved in Hp.
      destruct (scalar_truthy (field d "profile_name")); [|by subst].
      destruct Hp as (id & Eid & ->). by rewrite (bind_Ok _ _ _ _ _ Eid). }
  rewrite (bind_Ok _ _ _ _ _ (py_get_dict _ _ _ _ E)).
  rewrite (bind_Ok _ _ _ _ _ (truthy_field _ _ _ Hd)).
  rewrite (bind_Ok _ _ s (nic_mac (requested_nic d i profile)) s).
  2:{ cbn. destruct (scalar_truthy (field d "mac_address")); [|done].
      by rewrite (bind_Ok _ _ _ _ _ (py_get_dict _ _ _ _ E)). }
  by rewrite (nics_service_add_vm _ _ _ _ Ens).
Qed.
End Attach.

Section TwoPasses.
Context `{Collaborators}.

Lemma bind_Ok_inv_reads {A B} (m : M A) (k : A → M B) s b s2 :
  preserves id m → bind m k s = (Ok b, s2) →
  ∃ a, m s = (Ok a, s) ∧ k a s = (Ok b, s2).
Proof.
  intros Hm E. apply bind_Ok_inv in E as (a & s1 & E1 & E2).
  pose proof (Hm _ _ _ E1) as Hs. simpl in Hs. subst s1. eauto.
Qed.

Lemma reads_nics_service_list vm_id : preserves id (nics_service_list vm_id).
Proof. unfold nics_service_list. frame. Qed.

Lemma reads_search_by_name_nic vm_id name : preserves id (search_by_name_nic vm_id name).
Proof. pose proof reads_nics_service_list. unfold search_by_name_nic. frame. Qed.

Lemma reads_NicInterface_new v : preserves id (NicInterface_new v).
Proof. unfold NicInterface_new. frame. Qed.

Lemma nics_service_list_inv vm_id s ns s' :
  nics_service_list vm_id s = (Ok ns, s') → vm_nics vm_id s = Some ns ∧ s' = s.
Proof.
  unfold nics_service_list, vm_nics, find_vm, bind, gets, ret, raise.
  destruct (List.find _ _); [|done]. by intros [= <- <-].
Qed.

Lemma find_nic_app_l name ns n extra :
  find_nic name ns = Some n → find_nic name (ns ++ extra) = Some n.
Proof.
  unfold find_nic. induction ns as [|x ns IH]; [done|]. simpl.
  by destruct (bool_decide _).
Qed.

Lemma find_nic_app_r name ns nic :
  find_nic name ns = None → nic_name nic = name →
  find_nic name (ns ++ [nic]) = Some nic.
Proof.
  unfold find_nic. intros Hn Hname. induction ns as [|x ns IH]; simpl in *.
  - by rewrite bool_decide_eq_true_2.
  - destruct (bool_decide _); [done|]. by apply IH.
Qed.

Lemma evm_id_add_nic vm_id nic vm : evm_id (add_nic vm_id nic vm) = evm_id vm.
Proof. unfold add_nic. by destruct (bool_decide _). Qed.

Lemma vm_nics_with_nic vm_id nic s :
  vm_nics vm_id (with_nic vm_id nic s) = (λ ns, ns ++ [nic]) <$> vm_nics vm_id s.
Proof.
  unfold vm_nics, find_vm, with_nic. cbn [engine set_engine vms set_vms].
  induction (vms (engine s)) as [|vm l IH]; [done|].
  rewrite fmap_cons. cbn [List.find]. rewrite evm_id_add_nic.
  destruct (bool_decide (evm_id vm = vm_id)) eqn:Ev; [|done].
  unfold add_nic. by rewrite Ev.
Qed.

Lemma has_nic_with_nic vm_id nic name s :
  has_nic vm_id name s → has_nic vm_id name (with_nic vm_id nic s).
Proof.
  intros (ns & n & Ens & Ef). exists (ns ++ [nic]), n. split.
  - by rewrite vm_nics_with_nic, Ens.
  - by apply find_nic_app_l.
Qed.

Lemma has_nic_added vm_id nic name s ns :
  vm_nics vm_id s = Some ns → find_nic name ns = None → nic_name nic = name →
  has_nic vm_id name (with_nic vm_id nic s).
Proof.
  intros Ens Ef Hname. exists (ns ++ [nic]), nic. split.
  - by rewrite vm_nics_with_nic, Ens.
  - by apply find_nic_app_r.
Qed.

(** What a successful step of the loop leaves behind, outside check mode:
    the store is as before, the NICs the virtual machine had are still
    there, and it has one of the declared name. *)
Lemma attach_nic_post module vm_id nic s s1 :
  check_mode module = false →
  attach_nic module vm_id nic s = (Ok tt, s1) →
  heap s1 = heap s ∧
  (∀ name, has_nic vm_id name s → has_nic vm_id name s1) ∧
  ∃ name, py_get nic "name" s = (Ok name, s) ∧ has_nic vm_id name s1.
Proof.
  intros Hc E. unfold attach_nic in E.
  apply bind_Ok_inv_reads in E as (wanted & Ew & E); [|apply preserves_py_get].
  apply bind_Ok_inv_reads in E as (found & Ef & E);
    [|apply reads_search_by_name_nic].
  unfold search_by_name_nic in Ef.
  apply bind_Ok_inv in Ef as (ns & s0 & El & Ef).
  apply nics_service_list_inv in El as [Ens ->].
  unfold ret in Ef. injection Ef as <-.
  fold (find_nic wanted ns) in E.
  destruct (find_nic wanted ns) as [n|] eqn:Efind.
  - unfold ret in E. injection E as <-. split; [done|]. split; [done|].
    exists wanted. split; [done|]. by exists ns, n.
  - rewrite Hc in E. cbn [negb] in E.
    apply bind_Ok_inv in E as ([] & s2 & E & Em).
    unfold modify in Em. injection Em as <-.
    apply bind_Ok_inv_reads in E as (name & En & E); [|apply preserves_py_get].
    assert (name = wanted) as -> by congruence.
    apply bind_Ok_inv_reads in E as (i & _ & E); [|apply preserves_py_get_default].
    apply bind_Ok_inv_reads in E as (interface & _ & E); [|apply reads_NicInterface_new].
    apply bind_Ok_inv_reads in E as (pn & _ & E); [|apply preserves_py_get].
    apply bind_Ok_inv_reads in E as (has_profile & _ & E); [|apply preserves_truthy].
    apply bind_Ok_inv_reads in E as (profile & _ & E).
    2:{ pose proof reads_get_vnic_profile_id. destruct has_profile; frame. }
    apply bind_Ok_inv_reads in E as (ma & _ & E); [|apply preserves_py_get].
    apply bind_Ok_inv_reads in E as (has_mac & _ & E); [|apply preserves_truthy].
    apply bind_Ok_inv_reads in E as (mac & _ & E).
    2:{ destruct has_mac; frame. }
    rewrite (nics_service_add_vm _ _ _ _ Ens) in E. injection E as <-.
    split; [done|]. split.
    + intros nm Hnm. by apply (has_nic_with_nic _ _ _ _ Hnm).
    + exists wanted. split; [done|].
      by apply (has_nic_added _ _ _ _ _ Ens Efind).
Qed.
End TwoPasses.

Section Idempotence.
Context `{Collaborators}.

Lemma py_get_heap nic k s s' v :
  heap s' = heap s → py_get nic k s = (Ok v, s) → py_get nic k s' = (Ok v, s').
Proof.
  intros Hh. unfold py_get, py_get_default. rewrite Hh.
  destruct nic; try done. destruct (heap s !! l) as [[]|]; try done.
  by intros [= ->].
Qed.

Lemma py_iter_heap v s s' xs :
  heap s' = heap s → py_iter v s = (Ok xs, s) → py_iter v s' = (Ok xs, s').
Proof.
  intros Hh. unfold py_iter. rewrite Hh.
  destruct v; try done; [by intros [= ->]|].
  destruct (heap s !! l) as [[]|]; try done; by intros [= ->].
Qed.

Lemma attach_nic_found module vm_id nic name s :
  py_get nic "name" s = (Ok name, s) → has_nic vm_id name s →
  attach_nic module vm_id nic s = (Ok tt, s).
Proof.
  intros En (ns & n & Ens & Ef). unfold attach_nic.
  rewrite (bind_Ok _ _ _ _ _ En).
  rewrite (bind_Ok _ _ _ _ _ (search_by_name_nic_vm _ _ _ _ Ens)).
  by rewrite Ef.
Qed.

Lemma attach_loop_post module vm_id nics : ∀ s s1,
  check_mode module = false →
  forM_ (attach_nic module vm_id) nics s = (Ok tt, s1) →
  heap s1 = heap s ∧
  (∀ name, has_nic vm_id name s → has_nic vm_id name s1) ∧
  Forall (declared_present vm_id s1 s) nics.
Proof.
  induction nics as [|nic rest IH]; intros s s1 Hc E; simpl in E.
  - unfold ret in E. injection E as <-. by repeat split.
  - apply bind_Ok_inv in E as ([] & s0 & E0 & E).
    apply (attach_nic_post _ _ _ _ _ Hc) in E0 as (Hh0 & Hm0 & name & En & Hn).
    apply (IH _ _ Hc) in E as (Hh & Hm & Hall).
    split; [congruence|]. split; [eauto|].
    constructor.
    + exists name. eauto.
    + eapply Forall_impl; [exact Hall|].
      intros nic' (name' & En' & Hn'). exists name'. split; [|done].
      by apply (py_get_heap _ _ s0 s). 
Qed.

Lemma attach_loop_noop module vm_id nics s :
  Forall (declared_present vm_id s s) nics →
  forM_ (attach_nic module vm_id) nics s = (Ok tt, s).
Proof.
  induction 1 as [|nic rest (name & En & Hn) _ IH]; [done|]. simpl.
  by rewrite (bind_Ok _ _ _ _ _ (attach_nic_found _ _ _ _ _ En Hn)).
Qed.

Lemma attach_nics_twice module entity vm_param s s1 :
  check_mode module = false →
  attach_nics module entity vm_param s = (Ok tt, s1) →
  attach_nics module entity vm_param (set_changed false s1)
  = (Ok tt, set_changed false s1).
Proof.
  intros Hc E. unfold attach_nics in *.
  apply bind_Ok_inv_reads in E as (declared & Ed & E); [|apply preserves_py_get].
  apply bind_Ok_inv_reads in E as (nics & Ei & E); [|apply preserves_py_iter].
  apply (attach_loop_post _ _ _ _ _ Hc) in E as (Hh & _ & Hall).
  set (s2 := set_changed false s1).
  assert (heap s2 = heap s) as Hh2 by done.
  rewrite (bind_Ok _ _ _ _ _ (py_get_heap _ _ _ _ _ Hh2 Ed)).
  rewrite (bind_Ok _ _ _ _ _ (py_iter_heap _ _ _ _ Hh2 Ei)).
  apply attach_loop_noop.
  eapply Forall_impl; [exact Hall|].
  intros nic (name & En & Hn). exists name. split; [|done].
  by apply (py_get_heap _ _ s s2).
Qed.
(** *** A whole pass *)

Lemma get_vnic_profile_id_dict module l d s :
  heap s !! l = Some (ODict d) →
  get_vnic_profile_id module (VRef l) s =
    match find_cluster (p_cluster (params module)) s with
    | Some c =>
        match List.find (qualifies (field d "profile_name") c)
                        (vnic_profiles (engine s)) with
        | Some profile => (Ok (prof_id profile), s)
        | None => (Raise (ProfileNotFound (field d "profile_name")
                                          (p_cluster (params module))), s)
        end
    | None => (Raise AttributeError, s)
    end.
Proof.
  intros E. destruct (find_cluster _ s) as [c|] eqn:Ec.
  - by apply get_vnic_profile_id_find.
  - unfold get_vnic_profile_id.
    rewrite (bind_Ok _ _ s (engine s) s) by done.
    rewrite (bind_Ok _ _ s None s).
    2:{ unfold search_by_name_cluster, bind, gets, ret. unfold find_cluster in Ec.
        by rewrite Ec. }
    by rewrite (bind_Ok _ _ _ _ _ (filterM_by_name _ _ _ _ E)).
Qed.

(** The profile of a declaration depends on the store, the profiles and the
    clusters only. *)
Lemma profile_resolved_engine module l d s0 s profile :
  heap s0 !! l = Some (ODict d) →
  heap s = heap s0 →
  vnic_profiles (engine s) = vnic_profiles (engine s0) →
  clusters (engine s) = clusters (engine s0) →
  profile_resolved module l d s0 profile → profile_resolved module l d s profile.
Proof.
  intros E Hh Hv Hc. unfold profile_resolved.
  destruct (scalar_truthy (field d "profile_name")); [|done].
  intros (id & Eid & ->). exists id. split; [|done].
  assert (heap s !! l = Some (ODict d)) as E' by (by rewrite Hh).
  rewrite (get_vnic_profile_id_dict _ _ _ _ E) in Eid.
  rewrite (get_vnic_profile_id_dict _ _ _ _ E').
  unfold find_cluster in *. rewrite Hc, Hv.
  destruct (List.find _ (clusters (engine s0))) as [c|]; [|done].
  destruct (List.find _ (vnic_profiles (engine s0))) as [p|]; [|done].
  by injection Eid as ->.
Qed.

Lemma with_nics_set_changed vm_id added : ∀ b s,
  with_nics vm_id added (set_changed b s) = set_changed b (with_nics vm_id added s).
Proof.
  induction added as [|nic added IH]; intros b s; [done|].
  cbn. apply (IH b (with_nic vm_id nic s)).
Qed.

Lemma after_attach_cons vm_id nic added s :
  after_attach vm_id added (set_changed true (with_nic vm_id nic s))
  = after_attach vm_id (nic :: added) s.
Proof.
  unfold after_attach. rewrite (bool_decide_eq_false_2 (nic :: added = [])) by done.
  destruct (bool_decide (added = [])) eqn:Ea.
  - apply bool_decide_eq_true in Ea as ->. done.
  - by rewrite with_nics_set_changed.
Qed.

Lemma vm_nics_with_nics vm_id added : ∀ s ns,
  vm_nics vm_id s = Some ns → vm_nics vm_id (with_nics vm_id added s) = Some (ns ++ added).
Proof.
  induction added as [|nic added IH]; intros s ns E.
  - by rewrite app_nil_r.
  - change (with_nics vm_id (nic :: added) s)
      with (with_nics vm_id added (with_nic vm_id nic s)).
    rewrite (IH _ (ns ++ [nic])); [by rewrite <- app_assoc|].
    by rewrite vm_nics_with_nic, E.
Qed.

Lemma vm_nics_after_attach vm_id added s ns :
  vm_nics vm_id s = Some ns →
  vm_nics vm_id (after_attach vm_id added s) = Some (ns ++ added).
Proof.
  intros E. unfold after_attach. destruct (bool_decide (added = [])) eqn:Ea.
  - apply bool_decide_eq_true in Ea as ->. by rewrite app_nil_r.
  - by apply (vm_nics_with_nics vm_id added s ns).
Qed.

Lemma find_nic_app_None name ns extra :
  find_nic name (ns ++ extra) = None →
  find_nic name ns = None ∧ find_nic name extra = None.
Proof.
  unfold find_nic. induction ns as [|x ns IH]; [done|]. simpl.
  by destruct (bool_decide _).
Qed.

Lemma find_nic_singleton_None name nic :
  find_nic name [nic] = None → nic_name nic ≠ name.
Proof.
  unfold find_nic. simpl. destruct (bool_decide (nic_name nic = name)) eqn:E; [done|].
  intros _. by apply bool_decide_eq_false in E.
Qed.

Lemma declared_on_app ns extra f :
  declared_on ns f = true → declared_on (ns ++ extra) f = true.
Proof.
  unfold declared_on. rewrite !bool_decide_eq_true. intros [n E].
  exists n. by apply find_nic_app_l.
Qed.

Lemma declared_on_None ns f :
  declared_on ns f = false ↔ find_nic (field f.2 "name") ns = None.
Proof.
  unfold declared_on. rewrite bool_decide_eq_false.
  destruct (find_nic _ ns) as [n|]; split; try done.
  all: try (intros Hn; destruct Hn; eauto); try (by intros _ [? ?]).
Qed.

(** The loop outside check mode, on declarations of which those that the
    virtual machine lacks can be requested: it returns, having created one
    NIC for each declaration whose name neither the virtual machine nor an
    earlier declaration has. *)
Lemma attach_loop_run module vm_id s0 : ∀ (decls : list (loc * gmap string val)) s ns,
  check_mode module = false →
  heap s = heap s0 →
  vnic_profiles (engine s) = vnic_profiles (engine s0) →
  clusters (engine s) = clusters (engine s0) →
  vm_nics vm_id s = Some ns →
  Forall (λ f, heap s0 !! f.1 = Some (ODict f.2)) decls →
  Forall (λ f, declared_on ns f = false → ∃ nic, creation_request module s0 f nic) decls →
  ∃ added,
    forM_ (attach_nic module vm_id) (VRef <$> decls.*1) s
      = (Ok tt, after_attach vm_id added s) ∧
    Forall (λ f, declared_on (ns ++ added) f = true) decls ∧
    NoDup (nic_name <$> added) ∧
    Forall (λ nic, find_nic (nic_name nic) ns = None ∧
                   ∃ f, f ∈ decls ∧ creation_request module s0 f nic) added ∧
    (added = [] ↔ Forall (λ f, declared_on ns f = true) decls).
Proof.
  induction decls as [|[l d] rest IH]; intros s ns Hc Hh Hv Hcl Ens Hd Hreq.
  - exists []. split; [done|]. split; [constructor|]. split; [constructor|].
    split; [constructor|]. split; [constructor | done].
  - apply Forall_cons in Hd as [E Hd]. apply Forall_cons in Hreq as [Hreq0 Hreq].
    cbn [fst snd] in *.
    assert (heap s !! l = Some (ODict d)) as E' by (by rewrite Hh).
    rewrite !fmap_cons. cbn [fst forM_].
    destruct (declared_on ns (l, d)) eqn:Hon.
    + (* the virtual machine has it *)
      apply bool_decide_eq_true in Hon as Hfound. destruct Hfound as [n Ef].
      cbn [snd] in Ef.
      rewrite (bind_Ok _ _ _ _ _ (attach_nic_present _ _ _ _ _ _ _ E' Ens Ef)).
      destruct (IH s ns Hc Hh Hv Hcl Ens Hd Hreq)
        as (added & Erun & Hall & Hnd & Hadded & Hnone).
      exists added. split; [done|]. split; [|split; [done|split]].
      * constructor; [|done]. by apply declared_on_app.
      * eapply Forall_impl; [exact Hadded|].
        intros nic (? & f & Hf & ?). split; [done|]. exists f. split; [by right|done].
      * rewrite Hnone. split; [by constructor|]. by intros [_ ?]%Forall_cons.
    + (* it lacks it: a request *)
      apply declared_on_None in Hon as Ef. cbn [snd] in Ef.
      destruct (Hreq0 eq_refl) as (nic & Hsc & i & profile & Hi & Hvalid & Hp & ->).
      cbn [fst snd] in *.
      pose proof (profile_resolved_engine _ _ _ _ _ _ E Hh Hv Hcl Hp) as Hp'.
      set (nic := requested_nic d i profile) in *.
      rewrite (bind_Ok _ _ _ _ _
        (attach_nic_absent _ _ _ _ _ _ _ _ E' Ens Ef Hc Hsc Hi Hvalid Hp')).
      fold nic.
      set (s' := set_changed true (with_nic vm_id nic s)).
      assert (vm_nics vm_id s' = Some (ns ++ [nic])) as Ens'.
      { unfold s'. change (vm_nics vm_id (set_changed true (with_nic vm_id nic s)))
          with (vm_nics vm_id (with_nic vm_id nic s)).
        by rewrite vm_nics_with_nic, Ens. }
      destruct (IH s' (ns ++ [nic]) Hc Hh Hv Hcl Ens' Hd)
        as (added & Erun & Hall & Hnd & Hadded & Hnone).
      { eapply Forall_impl; [exact Hreq|]. intros f Hf Hoff. apply Hf.
        destruct (declared_on ns f) eqn:Hon'; [|done].
        by rewrite (declared_on_app _ [nic] _ Hon') in Hoff. }
      exists (nic :: added). rewrite Erun. unfold s'. rewrite after_attach_cons.
      split; [done|]. split; [|split; [|split; [|split]]].
      * constructor.
        -- unfold declared_on. apply bool_decide_eq_true. cbn [snd].
           exists nic. change (nic :: added) with ([nic] ++ added).
           rewrite app_assoc. apply find_nic_app_l. by apply find_nic_app_r.
        -- eapply Forall_impl; [exact Hall|]. intros f Hf.
           by rewrite <- app_assoc in Hf.
      * rewrite fmap_cons. apply NoDup_cons. split; [|done].
        intros (n & Hname & Hin)%list_elem_of_fmap.
        rewrite Forall_forall in Hadded. destruct (Hadded n Hin) as [Hn _].
        apply find_nic_app_None in Hn as [_ Hn].
        apply find_nic_singleton_None in Hn. congruence.
      * constructor.
        -- split; [done|]. exists (l, d). split; [by left|].
           split; [done|]. by exists i, profile.
        -- eapply Forall_impl; [exact Hadded|].
           intros n (Hn & f & Hf & Hr). split.
           ++ by apply find_nic_app_None in Hn as [? _].
           ++ exists f. split; [by right|done].
      * done.
      * intros [Hhead _]%Forall_cons. congruence.
Qed.

(** The loop in check mode: nothing is sent, and [changed] is set when the
    virtual machine lacks a declared NIC. *)
Lemma attach_loop_check_mode module vm_id ns : ∀ (decls : list (loc * gmap string val)) s,
  check_mode module = true →
  vm_nics vm_id s = Some ns →
  Forall (λ f, heap s !! f.1 = Some (ODict f.2)) decls →
  forM_ (attach_nic module vm_id) (VRef <$> decls.*1) s
    = (Ok tt, if forallb (declared_on ns) decls then s else set_changed true s).
Proof.
  induction decls as [|[l d] rest IH]; intros s Hc Ens Hd; [done|].
  apply Forall_cons in Hd as [E Hd]. cbn [fst snd] in *.
  rewrite !fmap_cons. cbn [fst forM_ forallb].
  destruct (declared_on ns (l, d)) eqn:Hon.
  - apply bool_decide_eq_true in Hon as [n Ef]. cbn [snd] in Ef.
    rewrite (bind_Ok _ _ _ _ _ (attach_nic_present _ _ _ _ _ _ _ E Ens Ef)).
    cbn [andb]. by apply IH.
  - apply declared_on_None in Hon as Ef. cbn [snd] in Ef.
    rewrite (bind_Ok _ _ _ _ _ (attach_nic_check_mode _ _ _ _ _ _ E Ens Ef Hc)).
    rewrite (IH (set_changed true s) Hc Ens Hd). cbn [andb].
    by destruct (forallb _ rest).
Qed.

Lemma attach_nics_declared module entity vm_param s decls :
  nics_declared s vm_param decls →
  attach_nics module entity vm_param s
  = forM_ (attach_nic module (evm_id entity)) (VRef <$> decls.*1) s.
Proof.
  intros (lp & dp & ll & -> & Hlp & Hn & Hll & _). unfold attach_nics.
  rewrite (bind_Ok _ _ _ _ _ (py_get_dict _ _ _ _ Hlp)). rewrite Hn.
  by rewrite (bind_Ok _ _ _ _ _ (py_iter_list _ _ _ Hll)).
Qed.

(** C5: for a declared NIC, one step of the loop of [__attach_nics] (i) does
    nothing, and does not set [changed], when the virtual machine has a NIC
    of that name; (ii) in check mode, when it has none, sets [changed] and
    sends nothing to the engine; (iii) otherwise, when it has none, sends a
    creation request with the name, the interface (virtio unless given), the
    id of the resolved profile if a profile name is given, and the MAC
    address if given, and sets [changed].  A whole pass over the declared
    list, (iv) outside check mode and when every declaration the virtual
    machine lacks can be requested, returns and has handled every
    declaration: the virtual machine has the NICs it had followed by the
    created ones, every declared name is among them, one NIC was created
    for each declared name it lacked and none twice, each as its
    declaration requests, and the state is otherwise as before, with
    [changed] set exactly when a NIC was created, which is exactly when
    the virtual machine lacked a declared name; (v) in check mode returns
    with nothing sent and [changed] set exactly when the virtual machine
    lacks a declared name; (vi) when a pass outside check mode has gone
    through, a second pass over the same declarations changes neither the
    engine nor [changed]. *)
Theorem attach_nics_idempotent module entity :
  (∀ l d s ns n,
     heap s !! l = Some (ODict d) →
     vm_nics (evm_id entity) s = Some ns →
     find_nic (field d "name") ns = Some n →
     attach_nic module (evm_id entity) (VRef l) s = (Ok tt, s)) ∧
  (∀ l d s ns,
     heap s !! l = Some (ODict d) →
     vm_nics (evm_id entity) s = Some ns →
     find_nic (field d "name") ns = None →
     check_mode module = true →
     attach_nic module (evm_id entity) (VRef l) s = (Ok tt, set_changed true s)) ∧
  (∀ l d s ns i profile,
     heap s !! l = Some (ODict d) →
     vm_nics (evm_id entity) s = Some ns →
     find_nic (field d "name") ns = None →
     check_mode module = false →
     scalars d →
     default (VStr "virtio") (d !! "interface") = VStr i →
     is_NicInterface i = true →
     profile_resolved module l d s profile →
     attach_nic module (evm_id entity) (VRef l) s
     = (Ok tt, set_changed true
                 (with_nic (evm_id entity) (requested_nic d i profile) s))) ∧
  (∀ vm_param s decls ns,
     nics_declared s vm_param decls →
     vm_nics (evm_id entity) s = Some ns →
     check_mode module = false →
     Forall (λ f, declared_on ns f = false → ∃ nic, creation_request module s f nic) decls →
     ∃ added,
       attach_nics module entity vm_param s
         = (Ok tt, after_attach (evm_id entity) added s) ∧
       vm_nics (evm_id entity) (after_attach (evm_id entity) added s)
         = Some (ns ++ added) ∧
       Forall (λ f, declared_on (ns ++ added) f = true) decls ∧
       NoDup (nic_name <$> added) ∧
       Forall (λ nic, find_nic (nic_name nic) ns = None ∧
                      ∃ f, f ∈ decls ∧ creation_request module s f nic) added ∧
       (added = [] ↔ Forall (λ f, declared_on ns f = true) decls)) ∧
  (∀ vm_param s decls ns,
     nics_declared s vm_param decls →
     vm_nics (evm_id entity) s = Some ns →
     check_mode module = true →
     attach_nics module entity vm_param s
     = (Ok tt, if forallb (declared_on ns) decls then s else set_changed true s)) ∧
  (∀ vm_param s s1,
     check_mode module = false →
     attach_nics module entity vm_param s = (Ok tt, s1) →
     attach_nics module entity vm_param (set_changed false s1)
     = (Ok tt, set_changed false s1)).
Proof.
  split; [|split; [|split; [|split; [|split]]]].
  - intros l d s ns n. apply attach_nic_present.
  - intros l d s ns. apply attach_nic_check_mode.
  - intros l d s ns i profile. apply attach_nic_absent.
  - intros vm_param s decls ns Hdecl Ens Hc Hreq.
    rewrite (attach_nics_declared _ _ _ _ _ Hdecl).
    destruct Hdecl as (_ & _ & _ & _ & _ & _ & _ & Hd).
    destruct (attach_loop_run module (evm_id entity) s decls s ns
                Hc eq_refl eq_refl eq_refl Ens Hd Hreq)
      as (added & Erun & Hall & Hnd & Hadded & Hnone).
    exists added. split; [done|]. split; [by apply vm_nics_after_attach|].
    done.
  - intros vm_param s decls ns Hdecl Ens Hc.
    rewrite (attach_nics_declared _ _ _ _ _ Hdecl).
    destruct Hdecl as (_ & _ & _ & _ & _ & _ & _ & Hd).
    by apply attach_loop_check_mode.
  - intros vm_param s s1. apply attach_nics_twice.
Qed.

End Idempotence.

Lemma attach_nics_idempotent_witness :
  let vm := {| evm_id := "vm1"; evm_vm_pool := Some "p1";
               evm_status := λ _, DOWN; evm_nics := [] |} in
  let s := start one_nic sample_engine in
  let d : gmap string val :=
    {[ "name" := VStr "nic1"; "profile_name" := VStr "ovirtmgmt" ]} in
  let nic := requested_nic d "virtio" (Some "prof1") in
  let created := set_changed true (with_nic "vm1" nic s) in
  (nics_declared s (VRef 0%nat) [(2%nat, d)] ∧
   vm_nics "vm1" s = Some [] ∧
   check_mode sample_module = false ∧
   Forall (λ f, declared_on [] f = false → ∃ nic, creation_request sample_module s f nic)
          [(2%nat, d)]) ∧
  attach_nics sample_module vm (VRef 0%nat) s = (Ok tt, created) ∧
  vm_nics "vm1" created = Some [nic] ∧
  (∃ added,
     attach_nics sample_module vm (VRef 0%nat) s
       = (Ok tt, after_attach "vm1" added s) ∧
     vm_nics "vm1" (after_attach "vm1" added s) = Some added ∧
     Forall (λ f, declared_on added f = true) [(2%nat, d)] ∧
     NoDup (nic_name <$> added)) ∧
  attach_nics sample_module vm (VRef 0%nat) (set_changed false created)
  = (Ok tt, set_changed false created).
Proof.
  intros vm s d nic created.
  assert (scalars d) as Hd.
  { intros k l E. apply lookup_insert_Some in E as [[_ [=]]|[_ E]].
    by apply lookup_singleton_Some in E as [_ [=]]. }
  assert (nics_declared s (VRef 0%nat) [(2%nat, d)]) as Hdecl.
  { exists 0%nat, {[ "nics" := VRef 1%nat ]}, 1%nat. repeat split.
    by apply Forall_singleton. }
  assert (Forall (λ f, declared_on [] f = false → ∃ nic, creation_request sample_module s f nic)
                 [(2%nat, d)]) as Hreq.
  { apply Forall_singleton. intros _. exists nic. split; [done|].
    exists "virtio", (Some "prof1"). repeat split. by exists "prof1". }
  destruct (attach_nics_idempotent sample_module vm)
    as (_ & _ & _ & Hpass & _ & Htwice).
  split; [by repeat split|].
  assert (attach_nics sample_module vm (VRef 0%nat) s = (Ok tt, created)) as Efirst
    by reflexivity.
  split; [done|]. split; [reflexivity|]. split.
  - destruct (Hpass (VRef 0%nat) s [(2%nat, d)] [] Hdecl eq_refl eq_refl Hreq)
      as (added & Erun & Ens & Hall & Hnd & _).
    exists added. split; [exact Erun|]. split; [exact Ens|]. split; [exact Hall|].
    exact Hnd.
  - by apply (Htwice (VRef 0%nat) s created).
Defined.

(** Two passes over one declared NIC: the first creates it, with the profile
    of the cluster, and sets [changed]; the second does nothing. *)
Lemma attach_nics_two_passes :
  let vm := {| evm_id := "vm1"; evm_vm_pool := Some "p1";
               evm_status := λ _, DOWN; evm_nics := [] |} in
  let s := start one_nic sample_engine in
  let first := attach_nics sample_module vm (VRef 0%nat) s in
  let second := attach_nics sample_module vm (VRef 0%nat) (set_changed false first.2) in
  first.1 = Ok tt ∧ changed first.2 = true ∧
  vm_nics "vm1" first.2
  = Some [ {| nic_name := VStr "nic1"; nic_interface := NicInterface_of "virtio";
              nic_vnic_profile := Some "prof1"; nic_mac := None |} ] ∧
  second.1 = Ok tt ∧ changed second.2 = false ∧
  vm_nics "vm1" second.2 = vm_nics "vm1" first.2.
Proof. vm_compute. repeat split. Qed.

(** In check mode the NIC is counted and not created. *)
Lemma attach_nics_check_mode :
  let vm := {| evm_id := "vm1"; evm_vm_pool := Some "p1";
               evm_status := λ _, DOWN; evm_nics := [] |} in
  let s := start one_nic sample_engine in
  let module := {| params := scenario_A; check_mode := true |} in
  let r := attach_nics module vm (VRef 0%nat) s in
  r.1 = Ok tt ∧ changed r.2 = true ∧ vm_nics "vm1" r.2 = Some [].
Proof. vm_compute. repeat split. Qed.

(** * Further properties *)

(** ** Computations that go along a relation *)

Section Keeps.
Context (R : state → state → Prop).
Hypothesis R_refl : ∀ s, R s s.
Hypothesis R_trans : ∀ s1 s2 s3, R s1 s2 → R s2 s3 → R s1 s3.

Lemma keeps_reads {A} (m : M A) : preserves id m → keeps R m.
Proof. intros Hm s r s' E. apply Hm in E. simpl in E. by subst s'. Qed.

Lemma keeps_ret {A} (a : A) : keeps R (ret a).
Proof. intros s r s' [= <- <-]. apply R_refl. Qed.

Lemma keeps_bind {A C} (m : M A) (k : A → M C) :
  keeps R m → (∀ a, keeps R (k a)) → keeps R (bind m k).
Proof.
  intros Hm Hk s r s'. unfold bind.
  destruct (m s) as [[a|e] s1] eqn:E.
  - intros E'. eapply R_trans; [by eapply Hm | by eapply Hk].
  - intros [= <- <-]. by eapply Hm.
Qed.

Lemma keeps_forM_ {A} (g : A → M unit) (l : list A) :
  (∀ a, a ∈ l → keeps R (g a)) → keeps R (forM_ g l).
Proof.
  induction l as [|a l IH]; intros Hg; simpl.
  - apply keeps_ret.
  - apply keeps_bind; [apply Hg; by left|]. intros _. apply IH.
    intros b Hb. apply Hg. by right.
Qed.
End Keeps.

Section Inversion.
Context `{Collaborators}.

Lemma bind_inv_reads {A B} (m : M A) (k : A → M B) s r s' :
  preserves id m → bind m k s = (r, s') →
  (∃ a, m s = (Ok a, s) ∧ k a s = (r, s')) ∨
  (∃ e, m s = (Raise e, s) ∧ r = Raise e ∧ s' = s).
Proof.
  intros Hm. unfold bind. destruct (m s) as [[a|e] s1] eqn:E.
  - pose proof (Hm _ _ _ E) as Hs. simpl in Hs. subst s1. intros E'. left. eauto.
  - pose proof (Hm _ _ _ E) as Hs. simpl in Hs. subst s1.
    intros [= <- <-]. right. eauto.
Qed.

End Inversion.

(** ** [get_initialization] without cloud-init data *)

Section Sysprep.
Context `{Collaborators}.

(** Lines 207-211 when no [cloud_init] mapping and no fragment is given: a
    new, empty list is made and nothing is appended to it. *)
Lemma no_cloud_init_run s lv dv :
  _initialization s = None →
  heap s !! lv = Some (ODict dv) →
  field dv "cloud_init" = VNone →
  fragments_given s (field dv "cloud_init_nics") [] →
  let l' := fresh (dom (heap s)) in
  let s1 := set_heap (<[l' := OList []]> (heap s)) s in
  heap s !! l' = None ∧
  get_initialization (VRef lv) s =
    bind (initialize (field dv "sysprep") VNone (VRef l'))
         (λ _, gets _initialization) s1.
Proof.
  intros Hi Hlv Hci Hg l' s1.
  assert (heap s !! l' = None) as Hfresh by (apply not_elem_of_dom, is_fresh).
  split; [done|]. unfold get_initialization.
  rewrite (bind_Ok _ _ s None s) by (unfold gets; by rewrite Hi).
  rewrite (bind_Ok _ _ _ _ _ (py_get_dict _ _ _ _ Hlv)).
  rewrite (bind_Ok _ _ _ _ _ (py_get_dict _ _ _ _ Hlv)).
  rewrite (bind_Ok _ _ _ _ _ (py_get_dict _ _ _ _ Hlv)).
  rewrite Hci. cbv beta iota.
  rewrite (bind_Ok _ _ s false s).
  2:{ unfold fragments_given in Hg.
      destruct (field dv "cloud_init_nics") as [| | | |ll]; try done.
      by rewrite (truthy_list _ _ _ Hg). }
  rewrite (bind_Ok _ _ s (VRef l') s1) by done.
  change (negb (is_None VNone)) with false. cbv beta iota.
  by rewrite (bind_Ok _ _ s1 tt s1).
Qed.

Lemma objects_kept_alloc s l o :
  heap s !! l = None → objects_kept s (set_heap (<[l := o]> (heap s)) s).
Proof.
  intros Hl l0 o0 E. cbn. rewrite lookup_insert_ne; [done|]. congruence.
Qed.

Lemma no_cloud_init_condition l' s :
  heap s !! l' = Some (OList []) →
  or_else (truthy VNone) (truthy (VRef l')) s = (Ok false, s).
Proof.
  intros Hl'. rewrite (or_else_Ok _ _ _ false) by done.
  by rewrite (truthy_list _ _ _ Hl').
Qed.


Lemma initialize_nothing l' v s :
  heap s !! l' = Some (OList []) →
  no_mapping s v →
  initialize v VNone (VRef l') s = (Ok tt, s).
Proof.
  intros Hl' Hv. unfold initialize.
  rewrite (bind_Ok _ _ _ _ _ (no_cloud_init_condition _ _ Hl')).
  rewrite (bind_Ok _ _ s false s); [done|].
  destruct Hv as [->|(l & -> & Hl)]; [done|].
  by rewrite (truthy_dict _ _ _ Hl).
Qed.


(** X2: with no [cloud_init] mapping, no fragment and no (or an empty)
    [sysprep] mapping the result is None, nothing is cached, and no object
    of the store is changed. *)
Theorem get_initialization_nothing s lv dv :
  _initialization s = None →
  heap s !! lv = Some (ODict dv) →
  field dv "cloud_init" = VNone →
  fragments_given s (field dv "cloud_init_nics") [] →
  no_mapping s (field dv "sysprep") →
  ∃ s',
    get_initialization (VRef lv) s = (Ok None, s') ∧
    _initialization s' = None ∧
    objects_kept s s'.
Proof.
  intros Hi Hlv Hci Hg Hsp.
  destruct (no_cloud_init_run s lv dv Hi Hlv Hci Hg) as (Hfresh & ->).
  set (l' := fresh (dom (heap s))) in *.
  set (s1 := set_heap (<[l' := OList []]> (heap s)) s).
  assert (heap s1 !! l' = Some (OList [])) as Hl' by apply lookup_insert_eq.
  assert (no_mapping s1 (field dv "sysprep")) as Hsp1.
  { destruct Hsp as [?|(l & ? & Hl)]; [by left|]. right. exists l. split; [done|].
    cbn. rewrite lookup_insert_ne; [done|]. congruence. }
  unfold bind. rewrite (initialize_nothing _ _ _ Hl' Hsp1).
  exists s1. split; [|split]; [by unfold gets; cbn; rewrite Hi | done |].
  by apply objects_kept_alloc.
Qed.
End Sysprep.


Lemma get_initialization_nothing_witness :
  let s := start two_vms empty_engine in
  (_initialization s = None ∧
   heap s !! 0%nat = Some (ODict ∅) ∧
   field ∅ "cloud_init" = VNone ∧
   fragments_given s (field ∅ "cloud_init_nics") [] ∧
   no_mapping s (field ∅ "sysprep")) ∧
  ∃ s',
    get_initialization (VRef 0%nat) s = (Ok None, s') ∧
    _initialization s' = None ∧
    objects_kept s s'.
Proof.
  intros s.
  assert (no_mapping s (field ∅ "sysprep")) as Hno by (by left).
  split; [by repeat split|].
  apply (get_initialization_nothing s 0%nat ∅); done.
Defined.

(** A sysprep mapping that gives [configuration], an attribute of a struct
    type, a string is refused by its setter. *)
Lemma get_initialization_sysprep_struct_value :
  (get_initialization (VRef 0%nat) (start struct_as_string empty_engine)).1
  = Raise TypeError.
Proof. reflexivity. Qed.

(** ** [get_initialization] on a [cloud_init] mapping: errors and what is consumed *)

Section Initialization.
Context `{Collaborators}.

(** The list that lines 209-211 hand to the conditional when a [cloud_init]
    mapping is given: the given list, or a new one, with the mapping
    appended. *)
Lemma cloud_init_fragments s dv lc dc (frags : list (loc * gmap string val)) :
  let all := frags ++ [(lc, dc)] in
  fragments_given s (field dv "cloud_init_nics") frags →
  ∃ ll,
    (∀ d, heap s !! ll ≠ Some (ODict d)) ∧
    (frags ≠ [] → field dv "cloud_init_nics" = VRef ll) ∧
    ∀ A (k : val → M A),
      bind (truthy (field dv "cloud_init_nics"))
        (λ has_nics,
           bind (if has_nics then ret (field dv "cloud_init_nics") else new_list)
             (λ cloud_init_nics,
                bind (list_append cloud_init_nics (VRef lc))
                  (λ _, k cloud_init_nics))) s
      = k (VRef ll) (set_heap (<[ll := OList (VRef <$> all.*1)]> (heap s)) s).
Proof.
  intros all Hgiven. unfold fragments_given in Hgiven.
  assert (∀ A (k : val → M A),
    bind new_list
      (λ cloud_init_nics,
         bind (list_append cloud_init_nics (VRef lc)) (λ _, k cloud_init_nics)) s
    = k (VRef (fresh (dom (heap s))))
        (set_heap (<[fresh (dom (heap s)) := OList [VRef lc]]> (heap s)) s)) as Hnew.
  { intros A k. unfold bind, new_list, list_append. cbn.
    rewrite lookup_insert_eq. cbn. by rewrite insert_insert_eq. }
  assert (heap s !! fresh (dom (heap s)) = None) as Hfresh
    by (apply not_elem_of_dom, is_fresh).
  destruct (field dv "cloud_init_nics") as [| | | |ll] eqn:Eg; try done.
  - subst frags. exists (fresh (dom (heap s))). split; [by rewrite Hfresh|].
    split; [done|].
    intros A k. rewrite (bind_Ok _ _ s false s) by done. apply Hnew.
  - destruct (decide (frags = [])) as [->|Hne].
    + exists (fresh (dom (heap s))). split; [by rewrite Hfresh|].
      split; [done|].
      intros A k. rewrite (bind_Ok _ _ s false s).
      2:{ by rewrite (truthy_list _ _ _ Hgiven). }
      apply Hnew.
    + exists ll. split; [by rewrite Hgiven|]. split; [done|].
      intros A k. rewrite (bind_Ok _ _ s true s).
      2:{ rewrite (truthy_list _ _ _ Hgiven).
          rewrite bool_decide_eq_false_2; [done|]. by destruct frags. }
      unfold bind, list_append, ret. rewrite Hgiven.
      subst all. by rewrite !fmap_app.
Qed.

(** The cloud-init branch of the conditional, up to the call of the
    constructor. *)
Lemma initialize_cloud_init_run sysprep lc dc ll
    (frags : list (loc * gmap string val)) s :
  let all := frags ++ [(lc, dc)] in
  heap s !! ll = Some (OList (VRef <$> all.*1)) →
  NoDup all.*1 →
  Forall (λ f, heap s !! f.1 = Some (ODict f.2)) all →
  Forall (λ f, boot_protocol_ok f.2 = true) all →
  initialize sysprep (VRef lc) (VRef ll) s =
    bind (Initialization_new
            (Some (nic_configuration_of <$> List.filter is_configured all.*2))
            (leftover dc))
         (λ i, modify (set__initialization (Some i)))
         (consume_all all s).
Proof.
  intros all Hll Hnd Hh Hbp. unfold initialize.
  assert (heap s !! lc = Some (ODict dc)) as Hlc.
  { rewrite Forall_forall in Hh. apply (Hh (lc, dc)). subst all.
    apply elem_of_app. right. by left. }
  assert (truthy (VRef ll) s = (Ok true, s)) as Htl.
  { rewrite (truthy_list _ _ _ Hll). subst all.
    rewrite fmap_app, fmap_app. simpl. by destruct (VRef <$> frags.*1). }
  rewrite (bind_Ok _ _ _ _ _ (or_else_true _ _ _
    (or_intror (conj (ex_intro _ _ (truthy_dict _ _ _ Hlc)) Htl)))).
  rewrite (bind_Ok _ _ _ _ _ Htl). cbv beta iota.
  rewrite (bind_Ok _ _ s
    (Some (nic_configuration_of <$> List.filter is_configured all.*2))
    (consume_all all s)).
  2:{ rewrite (bind_Ok _ _ _ _ _ (py_iter_list _ _ _ Hll)).
      by rewrite (bind_Ok _ _ _ _ _ (build_nic_configurations_dicts _ _ Hnd Hh Hbp)). }
  assert (heap (consume_all all s) !! lc = Some (ODict (leftover dc))) as Hlc'.
  { apply heap_consume_all; [done| |done]. subst all.
    apply elem_of_app. right. by left. }
  by rewrite (bind_Ok _ _ _ _ _ (py_mapping_dict _ _ _ Hlc')).
Qed.

(** [get_initialization] on a [cloud_init] mapping, up to the call of the
    constructor. *)
Lemma get_initialization_cloud_init_run s lv dv lc dc
    (frags : list (loc * gmap string val)) :
  let all := frags ++ [(lc, dc)] in
  _initialization s = None →
  heap s !! lv = Some (ODict dv) →
  field dv "cloud_init" = VRef lc →
  fragments_given s (field dv "cloud_init_nics") frags →
  NoDup all.*1 →
  Forall (λ f, heap s !! f.1 = Some (ODict f.2)) all →
  Forall (λ f, boot_protocol_ok f.2 = true) all →
  ∃ ll,
    (∀ d, heap s !! ll ≠ Some (ODict d)) ∧
    (frags ≠ [] → field dv "cloud_init_nics" = VRef ll) ∧
    get_initialization (VRef lv) s =
      bind (Initialization_new
              (Some (nic_configuration_of <$> List.filter is_configured all.*2))
              (leftover dc))
           (λ i, bind (modify (set__initialization (Some i)))
                      (λ _, gets _initialization))
           (consume_all all
              (set_heap (<[ll := OList (VRef <$> all.*1)]> (heap s)) s)).
Proof.
  intros all Hi Hlv Hci Hgiven Hnd Hh Hbp.
  destruct (cloud_init_fragments s dv lc dc frags Hgiven) as (ll & Hll & Hsame & E).
  exists ll. split; [done|]. split; [done|].
  unfold get_initialization.
  rewrite (bind_Ok _ _ s None s) by (unfold gets; by rewrite Hi).
  rewrite (bind_Ok _ _ _ _ _ (py_get_dict _ _ _ _ Hlv)).
  rewrite (bind_Ok _ _ _ _ _ (py_get_dict _ _ _ _ Hlv)).
  rewrite (bind_Ok _ _ _ _ _ (py_get_dict _ _ _ _ Hlv)).
  rewrite Hci. cbv beta iota. rewrite is_None_VRef. cbn [negb].
  rewrite E.
  set (s1 := set_heap (<[ll := OList (VRef <$> all.*1)]> (heap s)) s).
  assert (heap s1 !! ll = Some (OList (VRef <$> all.*1))) as Hll1
    by apply lookup_insert_eq.
  assert (Forall (λ f, heap s1 !! f.1 = Some (ODict f.2)) all) as Hh1
    by (by apply Forall_heap_insert_list).
  unfold bind at 1.
  rewrite (initialize_cloud_init_run _ _ _ _ _ _ Hll1 Hnd Hh1 Hbp).
  fold all. unfold bind.
  destruct (Initialization_new _ _ _) as [[i|e] s2]; done.
Qed.
End Initialization.

Section InitializationExtras.
Context `{Collaborators}.

Lemma consumed_lookup d k :
  consumed d !! k = None ∨ consumed d !! k = d !! k.
Proof.
  unfold consumed.
  destruct (has_ip d), (scalar_truthy (field d "nic_boot_protocol"));
    repeat (rewrite lookup_delete; case_decide; [by left|]); by right.
Qed.

Lemma consumed_lookup_other d k :
  k ∉ nic_keys → consumed d !! k = d !! k.
Proof.
  unfold nic_keys. rewrite !not_elem_of_cons. intros (?&?&?&?&?&?&_).
  unfold consumed.
  destruct (has_ip d), (scalar_truthy (field d "nic_boot_protocol"));
    by rewrite !lookup_delete_ne.
Qed.

Lemma consumed_lookup_name d :
  consumed d !! "nic_name" = None ∧ consumed d !! "nic_on_boot" = None.
Proof.
  unfold consumed.
  destruct (has_ip d), (scalar_truthy (field d "nic_boot_protocol")); split;
    repeat (rewrite lookup_delete; case_decide; [done|]); done.
Qed.

Lemma not_accepted (kwargs : gmap string val) k v :
  kwargs !! k = Some v → Initialization_accepts k v = false → accepted kwargs = false.
Proof.
  intros Ek Hk. unfold accepted. apply bool_decide_eq_false.
  intros Hall. specialize (Hall k v Ek). simpl in Hall. congruence.
Qed.

Lemma Initialization_new_refuses ncs (kwargs : gmap string val) k v s :
  kwargs !! k = Some v →
  k = "nic_configurations" ∨ Initialization_accepts k v = false →
  Initialization_new ncs kwargs s = (Raise TypeError, s).
Proof.
  intros Hk Hbad. unfold Initialization_new.
  destruct (bool_decide (is_Some (kwargs !! "nic_configurations"))) eqn:En; [done|].
  destruct Hbad as [->|Hbad].
  - apply bool_decide_eq_false in En. destruct En. by exists v.
  - by rewrite (not_accepted _ _ _ Hk Hbad).
Qed.

Lemma consume_all_frame frags : ∀ s,
  _initialization (consume_all frags s) = _initialization s ∧
  changed (consume_all frags s) = changed s ∧
  engine (consume_all frags s) = engine s.
Proof.
  induction frags as [|[l d] r IH]; intros s; [done|]. simpl.
  destruct (IH (if is_configured d then upd l (consumed d) s else s)) as (-> & -> & ->).
  by destruct (is_configured d).
Qed.

(** X3: an entry of the [cloud_init] mapping that is left once the NIC fields
    are taken out and whose key [otypes.Initialization] does not have, or
    whose value the setter of that attribute does not take, or whose key is
    [nic_configurations] itself (which is then given twice), makes
    [get_initialization] raise TypeError; nothing is cached. *)
Theorem get_initialization_refused_keyword s lv dv lc dc
    (frags : list (loc * gmap string val)) k v :
  let all := frags ++ [(lc, dc)] in
  _initialization s = None →
  heap s !! lv = Some (ODict dv) →
  field dv "cloud_init" = VRef lc →
  fragments_given s (field dv "cloud_init_nics") frags →
  NoDup all.*1 →
  Forall (λ f, heap s !! f.1 = Some (ODict f.2)) all →
  Forall (λ f, boot_protocol_ok f.2 = true) all →
  leftover dc !! k = Some v →
  k = "nic_configurations" ∨ Initialization_accepts k v = false →
  ∃ s', get_initialization (VRef lv) s = (Raise TypeError, s') ∧
        _initialization s' = None.
Proof.
  intros all Hi Hlv Hci Hg Hnd Hh Hbp Hk Hbad.
  destruct (get_initialization_cloud_init_run s lv dv lc dc frags
              Hi Hlv Hci Hg Hnd Hh Hbp) as (ll & _ & _ & ->).
  rewrite (bind_Raise _ _ _ _ _ (Initialization_new_refuses _ _ _ _ _ Hk Hbad)).
  eexists. split; [done|].
  by rewrite (proj1 (consume_all_frame _ _)).
Qed.

(** X4: a call that builds the initialization from cloud-init data, the
    constructor taking every key and value that is left of the [cloud_init]
    mapping, changes the caller's mappings: the [cloud_init] mapping is
    appended to the given list of fragments; every fragment with one of the
    five NIC fields, the [cloud_init] mapping included, loses [nic_name] and
    [nic_on_boot] and no key outside the six NIC keys; a fragment with none
    of the five is left as it is; no entry is added or altered; and the
    attributes of the result are what is left of the [cloud_init]
    mapping. *)
Theorem get_initialization_consumes s lv dv lc dc
    (frags : list (loc * gmap string val)) :
  let all := frags ++ [(lc, dc)] in
  _initialization s = None →
  heap s !! lv = Some (ODict dv) →
  field dv "cloud_init" = VRef lc →
  fragments_given s (field dv "cloud_init_nics") frags →
  NoDup all.*1 →
  Forall (λ f, heap s !! f.1 = Some (ODict f.2)) all →
  Forall (λ f, boot_protocol_ok f.2 = true) all →
  leftover dc !! "nic_configurations" = None →
  accepted (leftover dc) = true →
  ∃ i s',
    get_initialization (VRef lv) s = (Ok (Some i), s') ∧
    (∀ ll, frags ≠ [] → field dv "cloud_init_nics" = VRef ll →
           heap s' !! ll = Some (OList (VRef <$> all.*1))) ∧
    ∀ l d, (l, d) ∈ all →
      ∃ d', heap s' !! l = Some (ODict d') ∧
            (l = lc → init_attrs i = d') ∧
            (∀ k, d' !! k = None ∨ d' !! k = d !! k) ∧
            (∀ k, k ∉ nic_keys → d' !! k = d !! k) ∧
            (is_configured d = false → d' = d) ∧
            (is_configured d = true →
             d' !! "nic_name" = None ∧ d' !! "nic_on_boot" = None).
Proof.
  intros all Hi Hlv Hci Hg Hnd Hh Hbp Hnc Hacc.
  destruct (get_initialization_cloud_init_run s lv dv lc dc frags
              Hi Hlv Hci Hg Hnd Hh Hbp) as (ll & Hll & Hsame & ->).
  set (s1 := set_heap (<[ll := OList (VRef <$> all.*1)]> (heap s)) s).
  unfold bind at 1, Initialization_new. rewrite Hnc, Hacc.
  rewrite bool_decide_eq_false_2 by (by intros [? ?]).
  eexists _, _. split; [reflexivity|]. split.
  { intros ll0 Hne Hll0. rewrite (Hsame Hne) in Hll0. injection Hll0 as <-.
    cbn. rewrite heap_consume_all_other.
    - apply lookup_insert_eq.
    - intros (f & -> & Hf)%list_elem_of_fmap.
      rewrite Forall_forall in Hh. by apply (Hll f.2), Hh. }
  intros l d Hin. exists (leftover d).
  assert (heap s !! l = Some (ODict d)) as Hl.
  { rewrite Forall_forall in Hh. apply (Hh (l, d) Hin). }
  split; [|split; [|split; [|split; [|split]]]].
  - cbn. apply heap_consume_all; [done..|].
    cbn. rewrite lookup_insert_ne; [done|]. intros ->. by apply (Hll d).
  - intros ->. cbn. f_equal.
    assert (heap s !! lc = Some (ODict dc)) as Hlc.
    { rewrite Forall_forall in Hh. apply (Hh (lc, dc)).
      apply elem_of_app. right. by left. }
    congruence.
  - intros k. unfold leftover. destruct (is_configured d); [|by right].
    apply consumed_lookup.
  - intros k Hk. unfold leftover. destruct (is_configured d); [|done].
    by apply consumed_lookup_other.
  - intros Hc. unfold leftover. by rewrite Hc.
  - intros Hc. unfold leftover. rewrite Hc. apply consumed_lookup_name.
Qed.
End InitializationExtras.

Lemma get_initialization_refused_keyword_witness :
  let s := start misspelt_keyword empty_engine in
  let dv : gmap string val := {[ "cloud_init" := VRef 1%nat ]} in
  let dc : gmap string val := {[ "hostname" := VStr "h" ]} in
  let all := [] ++ [(1%nat, dc)] in
  (_initialization s = None ∧
   heap s !! 0%nat = Some (ODict dv) ∧
   field dv "cloud_init" = VRef 1%nat ∧
   fragments_given s (field dv "cloud_init_nics") [] ∧
   NoDup all.*1 ∧
   Forall (λ f, heap s !! f.1 = Some (ODict f.2)) all ∧
   Forall (λ f, boot_protocol_ok f.2 = true) all ∧
   leftover dc !! "hostname" = Some (VStr "h") ∧
   ("hostname" = "nic_configurations" ∨
    Initialization_accepts "hostname" (VStr "h") = false)) ∧
  ∃ s', get_initialization (VRef 0%nat) s = (Raise TypeError, s') ∧
        _initialization s' = None.
Proof.
  intros s dv dc all.
  assert (NoDup all.*1) as Hnd by apply NoDup_singleton.
  assert (Forall (λ f, heap s !! f.1 = Some (ODict f.2)) all) as Hh
    by (by apply Forall_singleton).
  assert (Forall (λ f, boot_protocol_ok f.2 = true) all) as Hbp
    by (by apply Forall_singleton).
  assert (leftover dc !! "hostname" = Some (VStr "h")) as Hk by reflexivity.
  assert ("hostname" = "nic_configurations" ∨
          Initialization_accepts "hostname" (VStr "h") = false)
    as Hbad by (by right).
  split; [by repeat split|].
  apply (get_initialization_refused_keyword s 0%nat dv 1%nat dc [] "hostname"
           (VStr "h")); done.
Defined.

Lemma get_initialization_consumes_witness :
  let s := start three_fragments empty_engine in
  let dv : gmap string val :=
    {[ "cloud_init_nics" := VRef 4%nat; "cloud_init" := VRef 3%nat ]} in
  let eth0 : gmap string val :=
    {[ "nic_name" := VStr "eth0"; "nic_boot_protocol" := VStr "DHCP" ]} in
  let eth1 : gmap string val := {[ "nic_name" := VStr "eth1" ]} in
  let eth2 : gmap string val :=
    {[ "host_name" := VStr "h"; "nic_name" := VStr "eth2";
       "nic_on_boot" := VBool true; "nic_ip_address" := VStr "10.0.0.2" ]} in
  let frags := [ (1%nat, eth0); (2%nat, eth1) ] in
  let all := frags ++ [(3%nat, eth2)] in
  (_initialization s = None ∧
   heap s !! 0%nat = Some (ODict dv) ∧
   field dv "cloud_init" = VRef 3%nat ∧
   fragments_given s (field dv "cloud_init_nics") frags ∧
   NoDup all.*1 ∧
   Forall (λ f, heap s !! f.1 = Some (ODict f.2)) all ∧
   Forall (λ f, boot_protocol_ok f.2 = true) all ∧
   leftover eth2 !! "nic_configurations" = None ∧
   accepted (leftover eth2) = true) ∧
  ∃ i s',
    get_initialization (VRef 0%nat) s = (Ok (Some i), s') ∧
    heap s' !! 4%nat = Some (OList [VRef 1%nat; VRef 2%nat; VRef 3%nat]) ∧
    init_attrs i !! "nic_name" = None ∧
    init_attrs i !! "host_name" = Some (VStr "h") ∧
    heap s' !! 2%nat = Some (ODict eth1).
Proof.
  intros s dv eth0 eth1 eth2 frags all.
  assert (NoDup all.*1) as Hnd by (apply (bool_decide_unpack _); reflexivity).
  assert (Forall (λ f, heap s !! f.1 = Some (ODict f.2)) all) as Hh
    by (repeat constructor).
  assert (Forall (λ f, boot_protocol_ok f.2 = true) all) as Hbp
    by (repeat constructor).
  assert (accepted (leftover eth2) = true) as Hacc by reflexivity.
  split; [by repeat split|].
  destruct (get_initialization_consumes s 0%nat dv 3%nat eth2 frags
              eq_refl eq_refl eq_refl eq_refl Hnd Hh Hbp eq_refl Hacc)
    as (i & s' & E & Hlist & Hall).
  exists i, s'. split; [done|]. split; [by apply Hlist|].
  destruct (Hall 3%nat eth2) as (d3 & _ & Hattrs & _ & Hother & _ & Hname).
  { apply elem_of_app. right. by left. }
  destruct (Hall 2%nat eth1) as (d2 & Hd2 & _ & _ & _ & Hsame & _).
  { apply elem_of_app. left. right. by left. }
  rewrite (Hattrs eq_refl). split; [by apply Hname|]. split.
  - rewrite Hother; [done|]. apply (bool_decide_unpack _). reflexivity.
  - rewrite <- (Hsame eq_refl). exact Hd2.
Defined.

(** So is a [cloud_init] mapping that does, with a NIC field beside it. *)
Lemma get_initialization_cloud_init_struct_value :
  (get_initialization (VRef 2%nat) (start struct_as_string empty_engine)).1
  = Raise TypeError.
Proof. reflexivity. Qed.

(** ** [get_initialization] on a boot protocol the enumeration does not have *)

Section BootProtocol.
Context `{Collaborators}.

(** The comprehension over fragments in order, followed by further items. *)
Lemma build_nic_configurations_app (frags : list (loc * gmap string val)) ys : ∀ s,
  NoDup frags.*1 →
  Forall (λ f, heap s !! f.1 = Some (ODict f.2)) frags →
  Forall (λ f, boot_protocol_ok f.2 = true) frags →
  build_nic_configurations ((VRef <$> frags.*1) ++ ys) s =
    bind (build_nic_configurations ys)
         (λ cs, ret ((nic_configuration_of <$> List.filter is_configured frags.*2) ++ cs))
         (consume_all frags s).
Proof.
  induction frags as [|[l d] rest IH]; intros s Hnd Hh Hbp.
  - cbn. unfold bind, ret. by destruct (build_nic_configurations ys s) as [[?|?] ?].
  - rewrite !fmap_cons in *. cbn [fst snd] in *.
    apply NoDup_cons in Hnd as [Hl Hnd].
    apply Forall_cons in Hh as [E Hh]. apply Forall_cons in Hbp as [Hb Hbp].
    cbn [fst snd app build_nic_configurations List.filter consume_all] in *.
    rewrite (bind_Ok _ _ _ _ _ (nic_is_configured_dict _ _ _ E)).
    destruct (is_configured d).
    + rewrite (bind_Ok _ _ _ _ _ (build_nic_configuration_dict _ _ _ E Hb)).
      unfold bind at 1.
      rewrite (IH (upd l (consumed d) s) Hnd (Forall_upd_other _ _ _ _ Hl Hh) Hbp).
      rewrite fmap_cons.
      unfold bind, ret.
      by destruct (build_nic_configurations ys _) as [[?|?] ?].
    + by apply IH.
Qed.

Lemma nic_boot_protocol_bad l d e s :
  heap s !! l = Some (ODict d) →
  bad_boot_protocol (field d "nic_boot_protocol") = Some e →
  nic_boot_protocol (VRef l) s = (Raise e, upd l (delete "nic_boot_protocol" d) s).
Proof.
  intros E Hbad. unfold nic_boot_protocol.
  rewrite (bind_Ok _ _ _ _ _ (py_get_dict _ _ _ _ E)).
  unfold field in *.
  destruct (d !! "nic_boot_protocol") as [v|] eqn:Ek; [|done]. cbn in Hbad |- *.
  unfold bad_boot_protocol in Hbad.
  destruct v as [|[]|n|t|]; try done.
  - injection Hbad as <-.
    rewrite (bind_Ok (truthy _) _ s true s); [|done].
    by rewrite (bind_Ok _ _ _ _ _ (py_pop_dict _ _ _ _ _ E Ek)).
  - assert (e = AttributeError ∧ (n =? 0)%Z = false) as [-> En]
      by (destruct n; cbn in Hbad; by simplify_eq).
    rewrite (bind_Ok (truthy _) _ s true s); [|unfold truthy; by rewrite En].
    by rewrite (bind_Ok _ _ _ _ _ (py_pop_dict _ _ _ _ _ E Ek)).
  - revert Hbad. destruct (bool_decide (t = "")) eqn:Et; [done|].
    destruct (is_BootProtocol (lower_string t)) eqn:Ev; [done|].
    intros [= <-].
    rewrite (bind_Ok (truthy _) _ s true s); [|unfold truthy; by rewrite Et].
    rewrite (bind_Ok _ _ _ _ _ (py_pop_dict _ _ _ _ _ E Ek)).
    unfold bind, py_lower, ret, BootProtocol_new. by rewrite Ev.
Qed.

Lemma bad_boot_protocol_not_None v e :
  bad_boot_protocol v = Some e → is_None v = false.
Proof. by destruct v. Qed.

Lemma build_nic_configurations_bad
    (frags : list (loc * gmap string val)) l d ys e s :
  NoDup (l :: frags.*1) →
  Forall (λ f, heap s !! f.1 = Some (ODict f.2)) frags →
  Forall (λ f, boot_protocol_ok f.2 = true) frags →
  heap s !! l = Some (ODict d) →
  bad_boot_protocol (field d "nic_boot_protocol") = Some e →
  build_nic_configurations ((VRef <$> frags.*1) ++ VRef l :: ys) s =
    (Raise e, upd l (delete "nic_boot_protocol" d) (consume_all frags s)).
Proof.
  intros [Hl Hnd]%NoDup_cons Hh Hbp E Hbad.
  rewrite (build_nic_configurations_app _ _ _ Hnd Hh Hbp).
  assert (heap (consume_all frags s) !! l = Some (ODict d)) as E'
    by (by rewrite heap_consume_all_other).
  apply bind_Raise. cbn [build_nic_configurations].
  rewrite (bind_Ok _ _ _ _ _ (nic_is_configured_dict _ _ _ E')).
  assert (is_configured d = true) as ->.
  { unfold is_configured. rewrite (bad_boot_protocol_not_None _ _ Hbad). cbn.
    by rewrite !orb_true_r. }
  apply bind_Raise. unfold build_nic_configuration.
  apply bind_Raise. by apply nic_boot_protocol_bad.
Qed.

(** X5: a fragment, or the [cloud_init] mapping itself, whose
    [nic_boot_protocol] is a non-empty string that is no boot protocol makes
    [get_initialization] raise ValueError, and one that is a true value but no
    string makes it raise AttributeError, when the fragments before it are
    well formed.  Nothing is cached, and the offending key has by then been
    removed from the caller's dict. *)
Theorem get_initialization_bad_boot_protocol s lv dv lc
    (frags pre post : list (loc * gmap string val)) dc l d e :
  frags ++ [(lc, dc)] = pre ++ (l, d) :: post →
  _initialization s = None →
  heap s !! lv = Some (ODict dv) →
  field dv "cloud_init" = VRef lc →
  fragments_given s (field dv "cloud_init_nics") frags →
  NoDup (l :: pre.*1) →
  Forall (λ f, heap s !! f.1 = Some (ODict f.2)) pre →
  Forall (λ f, boot_protocol_ok f.2 = true) pre →
  heap s !! l = Some (ODict d) →
  bad_boot_protocol (field d "nic_boot_protocol") = Some e →
  ∃ s',
    get_initialization (VRef lv) s = (Raise e, s') ∧
    _initialization s' = None ∧
    heap s' !! l = Some (ODict (delete "nic_boot_protocol" d)).
Proof.
  intros Hall Hi Hlv Hci Hg Hnd Hh Hbp Hl Hbad.
  destruct (cloud_init_fragments s dv lc dc frags Hg) as (ll & Hll & _ & E).
  unfold get_initialization.
  rewrite (bind_Ok _ _ s None s) by (unfold gets; by rewrite Hi).
  rewrite (bind_Ok _ _ _ _ _ (py_get_dict _ _ _ _ Hlv)).
  rewrite (bind_Ok _ _ _ _ _ (py_get_dict _ _ _ _ Hlv)).
  rewrite (bind_Ok _ _ _ _ _ (py_get_dict _ _ _ _ Hlv)).
  rewrite Hci. cbv beta iota. rewrite is_None_VRef. cbn [negb].
  rewrite E. cbv zeta in Hall |- *. rewrite Hall.
  set (xs := VRef <$> (pre ++ (l, d) :: post).*1).
  set (s1 := set_heap (<[ll := OList xs]> (heap s)) s).
  assert (heap s1 !! ll = Some (OList xs)) as Hll1 by apply lookup_insert_eq.
  assert (Forall (λ f, heap s1 !! f.1 = Some (ODict f.2)) pre) as Hh1
    by (by apply Forall_heap_insert_list).
  assert (heap s1 !! l = Some (ODict d)) as Hl1.
  { cbn. rewrite lookup_insert_ne; [done|]. intros ->. by apply (Hll d). }
  assert (truthy (VRef ll) s1 = (Ok true, s1)) as Htl.
  { rewrite (truthy_list _ _ _ Hll1). subst xs.
    rewrite fmap_app, fmap_app. by destruct (VRef <$> pre.*1). }
  assert (∃ x, truthy (VRef lc) s1 = (Ok x, s1)) as Htc.
  { unfold truthy. destruct (heap s1 !! lc) as [[?|?]|]; eauto. }
  eexists. split; [|split].
  - apply bind_Raise. unfold initialize.
    rewrite (bind_Ok _ _ _ _ _ (or_else_true _ _ _ (or_intror (conj Htc Htl)))).
    rewrite (bind_Ok _ _ _ _ _ Htl). cbv beta iota.
    apply bind_Raise.
    rewrite (bind_Ok _ _ _ _ _ (py_iter_list _ _ _ Hll1)).
    apply bind_Raise. subst xs. rewrite fmap_app, fmap_app, !fmap_cons.
    cbn [fst]. by apply build_nic_configurations_bad.
  - cbn. by rewrite consume_all_fields.
  - apply heap_upd.
Qed.
End BootProtocol.

Lemma get_initialization_bad_boot_protocol_witness :
  let s := start unknown_boot_protocol empty_engine in
  let dv : gmap string val :=
    {[ "cloud_init_nics" := VRef 3%nat; "cloud_init" := VRef 2%nat ]} in
  let eth0 : gmap string val :=
    {[ "nic_name" := VStr "eth0"; "nic_boot_protocol" := VStr "dhcp" ]} in
  let eth1 : gmap string val :=
    {[ "nic_name" := VStr "eth1"; "nic_boot_protocol" := VStr "bootp" ]} in
  let frags := [ (1%nat, eth0) ] in
  (frags ++ [(2%nat, eth1)] = frags ++ (2%nat, eth1) :: [] ∧
   _initialization s = None ∧
   heap s !! 0%nat = Some (ODict dv) ∧
   field dv "cloud_init" = VRef 2%nat ∧
   fragments_given s (field dv "cloud_init_nics") frags ∧
   NoDup (2%nat :: frags.*1) ∧
   Forall (λ f, heap s !! f.1 = Some (ODict f.2)) frags ∧
   Forall (λ f, boot_protocol_ok f.2 = true) frags ∧
   heap s !! 2%nat = Some (ODict eth1) ∧
   bad_boot_protocol (field eth1 "nic_boot_protocol") = Some ValueError) ∧
  ∃ s',
    get_initialization (VRef 0%nat) s = (Raise ValueError, s') ∧
    _initialization s' = None ∧
    heap s' !! 2%nat = Some (ODict (delete "nic_boot_protocol" eth1)).
Proof.
  intros s dv eth0 eth1 frags.
  assert (NoDup (2%nat :: frags.*1)) as Hnd
    by (apply (bool_decide_unpack _); reflexivity).
  assert (Forall (λ f, heap s !! f.1 = Some (ODict f.2)) frags) as Hh
    by (repeat constructor).
  assert (Forall (λ f, boot_protocol_ok f.2 = true) frags) as Hbp
    by (repeat constructor).
  split; [by repeat split|].
  apply (get_initialization_bad_boot_protocol s 0%nat dv 2%nat frags frags []
           eth1 2%nat eth1 ValueError); done.
Defined.

(** ** [get_initialization] and the [vm] mapping itself *)

Section VmKept.
Context `{Collaborators}.

Lemma dict_kept_refl l s : dict_kept l s s.
Proof. by intros d. Qed.

Lemma dict_kept_trans l s1 s2 s3 :
  dict_kept l s1 s2 → dict_kept l s2 s3 → dict_kept l s1 s3.
Proof. intros H1 H2 d E. by apply H2, H1. Qed.

Lemma keeps_pop_default l nic k dflt :
  nic ≠ VRef l → keeps (dict_kept l) (py_pop_default nic k dflt).
Proof.
  intros Hn s r s'. unfold py_pop_default.
  destruct nic as [|?|?|?|l']; try (intros [= <- <-]; apply dict_kept_refl).
  destruct (heap s !! l') as [[d'|]|] eqn:E';
    try (intros [= <- <-]; apply dict_kept_refl).
  destruct (d' !! k); intros [= <- <-]; [|apply dict_kept_refl].
  intros d E. cbn. rewrite lookup_insert_ne; [done|]. congruence.
Qed.

Lemma keeps_pop l nic k :
  nic ≠ VRef l → keeps (dict_kept l) (py_pop nic k).
Proof.
  intros Hn s r s'. unfold py_pop.
  destruct nic as [|?|?|?|l']; try (intros [= <- <-]; apply dict_kept_refl).
  destruct (heap s !! l') as [[d'|]|] eqn:E';
    try (intros [= <- <-]; apply dict_kept_refl).
  destruct (d' !! k); intros [= <- <-]; [|apply dict_kept_refl].
  intros d E. cbn. rewrite lookup_insert_ne; [done|]. congruence.
Qed.

Lemma keeps_dict_reads {A} l (m : M A) : preserves id m → keeps (dict_kept l) m.
Proof. apply keeps_reads. apply dict_kept_refl. Qed.

Lemma keeps_dict_bind {A C} l (m : M A) (k : A → M C) :
  keeps (dict_kept l) m → (∀ a, keeps (dict_kept l) (k a)) →
  keeps (dict_kept l) (bind m k).
Proof. apply keeps_bind. apply dict_kept_trans. Qed.

Lemma reads_or_else (a b : M bool) :
  preserves id a → preserves id b → preserves id (or_else a b).
Proof. intros. unfold or_else. frame. Qed.

Lemma reads_is_not_None_get nic k : preserves id (is_not_None (py_get nic k)).
Proof. unfold is_not_None. frame. Qed.

Lemma reads_nic_is_configured nic : preserves id (nic_is_configured nic).
Proof.
  unfold nic_is_configured.
  repeat (apply reads_or_else; [apply reads_is_not_None_get|]).
  apply reads_is_not_None_get.
Qed.

Lemma reads_nic_has_ip nic : preserves id (nic_has_ip nic).
Proof.
  unfold nic_has_ip.
  repeat (apply reads_or_else; [apply reads_is_not_None_get|]).
  apply reads_is_not_None_get.
Qed.

Lemma keeps_build_nic_configuration l nic :
  nic ≠ VRef l → keeps (dict_kept l) (build_nic_configuration nic).
Proof.
  intros Hn. unfold build_nic_configuration, nic_boot_protocol, nic_ip.
  repeat first
    [ apply keeps_ret; apply dict_kept_refl
    | apply keeps_pop_default; exact Hn
    | apply keeps_pop; exact Hn
    | apply keeps_dict_bind; [|intros ?]
    | match goal with |- keeps _ (if ?b then _ else _) => destruct b end
    | apply keeps_dict_reads;
        solve [ apply preserves_py_get | apply preserves_truthy
              | apply reads_nic_has_ip
              | unfold py_lower; frame | unfold BootProtocol_new; frame ] ].
Qed.

Lemma keeps_build_nic_configurations l nics :
  VRef l ∉ nics → keeps (dict_kept l) (build_nic_configurations nics).
Proof.
  induction nics as [|nic rest IH]; intros Hn; simpl.
  - apply keeps_ret, dict_kept_refl.
  - apply not_elem_of_cons in Hn as [Hne Hn].
    apply keeps_dict_bind; [apply keeps_dict_reads, reads_nic_is_configured|].
    intros [|]; [|by apply IH].
    apply keeps_dict_bind; [by apply keeps_build_nic_configuration|]. intros c.
    apply keeps_dict_bind; [by apply IH|]. intros cs.
    apply keeps_ret, dict_kept_refl.
Qed.

Lemma reads_Initialization_new ncs kwargs : preserves id (Initialization_new ncs kwargs).
Proof. unfold Initialization_new. frame. Qed.

Lemma reads_Initialization_of_mapping kwargs :
  preserves id (Initialization_of_mapping kwargs).
Proof. unfold Initialization_of_mapping. frame. Qed.

Lemma keeps_set__initialization l i :
  keeps (dict_kept l) (modify (set__initialization i)).
Proof. by intros s r s' [= <- <-] d. Qed.

Lemma bind_dict_kept {A C} l (m : M A) (k : A → M C) s r s' :
  (∀ r0 s0, m s = (r0, s0) → dict_kept l s s0) →
  (∀ a, keeps (dict_kept l) (k a)) →
  bind m k s = (r, s') → dict_kept l s s'.
Proof.
  intros Hm Hk. unfold bind. destruct (m s) as [[a|e] s0] eqn:E.
  - intros E'. eapply dict_kept_trans; [by eapply Hm | by eapply Hk].
  - intros [= <- <-]. by eapply Hm.
Qed.

Lemma initialize_keeps l sysprep cloud_init cloud_init_nics s r s' :
  iterates_apart l cloud_init_nics s →
  initialize sysprep cloud_init cloud_init_nics s = (r, s') →
  dict_kept l s s'.
Proof.
  intros Hsafe. unfold initialize. intros E.
  apply bind_inv_reads in E as [(c & _ & E)|(e & _ & -> & ->)];
    [|apply dict_kept_refl|apply reads_or_else; apply preserves_truthy].
  destruct c.
  - apply bind_inv_reads in E as [(any & _ & E)|(e & _ & -> & ->)];
      [|apply dict_kept_refl|apply preserves_truthy].
    revert E. apply bind_dict_kept.
    + destruct any; [|intros r0 s0 [= <- <-]; apply dict_kept_refl].
      intros r0 s0 E.
      apply bind_inv_reads in E as [(items & Ei & E)|(e & _ & -> & ->)];
        [|apply dict_kept_refl|apply preserves_py_iter].
      revert E. apply keeps_dict_bind.
      * apply keeps_build_nic_configurations. by apply Hsafe.
      * intros cs. apply keeps_ret, dict_kept_refl.
    + intros ncs.
      apply keeps_dict_bind; [apply keeps_dict_reads, preserves_py_mapping|].
      intros kwargs.
      apply keeps_dict_bind; [apply keeps_dict_reads, reads_Initialization_new|].
      intros i. apply keeps_set__initialization.
  - revert E. apply keeps_dict_bind; [apply keeps_dict_reads, preserves_truthy|].
    intros [|]; [|apply keeps_ret, dict_kept_refl].
    apply keeps_dict_bind; [apply keeps_dict_reads, preserves_py_mapping|].
    intros kwargs.
    apply keeps_dict_bind; [apply keeps_dict_reads, reads_Initialization_of_mapping|].
    intros i. apply keeps_set__initialization.
Qed.

Lemma VRef_not_in_strings l (ts : list string) : VRef l ∉ VStr <$> ts.
Proof. by intros (t & [=] & _)%list_elem_of_fmap. Qed.

(** The store after lines 207-211, and the list the comprehension will go
    over. *)
Lemma fragments_apart l d s ci r0 s1 :
  heap s !! l = Some (ODict d) →
  not_own_fragment l d s →
  ci = field d "cloud_init" →
  bind (truthy (field d "cloud_init_nics"))
    (λ has_nics,
       bind (if has_nics then ret (field d "cloud_init_nics") else new_list)
         (λ cloud_init_nics,
            bind (if negb (is_None ci)
                  then list_append cloud_init_nics ci else ret tt)
              (λ _, ret cloud_init_nics))) s = (r0, s1) →
  dict_kept l s s1 ∧ ∀ cin, r0 = Ok cin → iterates_apart l cin s1.
Proof.
  intros Hl [Hci Hnics] -> E.
  apply bind_inv_reads in E as [(has & Eh & E)|(e & _ & -> & ->)];
    [|by split; [apply dict_kept_refl|]|apply preserves_truthy].
  destruct has.
  - rewrite (bind_Ok _ _ s (field d "cloud_init_nics") s) in E by done.
    destruct (negb (is_None (field d "cloud_init"))).
    + unfold bind, list_append, ret in E.
      destruct (field d "cloud_init_nics") as [|?|?|?|ll] eqn:Eg;
        try (injection E as <- <-; by split; [apply dict_kept_refl|]).
      destruct (heap s !! ll) as [[?|xs]|] eqn:Ell;
        try (injection E as <- <-; by split; [apply dict_kept_refl|]).
      injection E as <- <-. split.
      * intros d' Hd'. cbn. rewrite lookup_insert_ne; [done|]. congruence.
      * intros cin [= <-] items. unfold py_iter. cbn. rewrite lookup_insert_eq.
        intros [= <-]. apply not_elem_of_app. split; [by eapply Hnics|].
        apply not_elem_of_cons. split; [congruence|apply not_elem_of_nil].
    + rewrite (bind_Ok _ _ s tt s) in E by done. injection E as <- <-.
      split; [apply dict_kept_refl|].
      intros cin [= <-] items. unfold py_iter.
      destruct (field d "cloud_init_nics") as [|?|?|t|ll] eqn:Eg; try done.
      * intros [= <-]. by intros (c & [=] & _)%list_elem_of_fmap.
      * destruct (heap s !! ll) as [[?|xs]|] eqn:Ell; try done.
        -- intros [= <-]. apply VRef_not_in_strings.
        -- intros [= <-]. by eapply Hnics.
  - unfold bind at 1, new_list in E.
    set (l' := fresh (dom (heap s))) in *.
    assert (heap s !! l' = None) as Hfresh by (apply not_elem_of_dom, is_fresh).
    assert (l' ≠ l) as Hne by congruence.
    destruct (negb (is_None (field d "cloud_init"))).
    + unfold bind, list_append, ret in E. cbn in E. rewrite lookup_insert_eq in E.
      injection E as <- <-. split.
      * intros d' Hd'. cbn. rewrite !lookup_insert_ne; done.
      * intros cin [= <-] items. unfold py_iter. cbn. rewrite lookup_insert_eq.
        intros [= <-]. apply not_elem_of_cons. split; [congruence|apply not_elem_of_nil].
    + rewrite (bind_Ok _ _ _ tt _) in E by done. injection E as <- <-. split.
      * intros d' Hd'. cbn. rewrite lookup_insert_ne; done.
      * intros cin [= <-] items. unfold py_iter. cbn. rewrite lookup_insert_eq.
        intros [= <-]. apply not_elem_of_nil.
Qed.

(** [get_initialization] does not touch the [vm] mapping itself: what it
    changes is the list of fragments, the fragments and the [cloud_init]
    mapping. *)
Lemma get_initialization_keeps_vm l d s r s' :
  heap s !! l = Some (ODict d) →
  not_own_fragment l d s →
  get_initialization (VRef l) s = (r, s') →
  heap s' !! l = Some (ODict d).
Proof.
  intros Hl Hown E. cut (dict_kept l s s'); [by intros Hk; apply Hk|].
  unfold get_initialization in E.
  apply bind_inv_reads in E as [(cached & _ & E)|(e & _ & -> & ->)];
    [|apply dict_kept_refl|apply preserves_gets].
  destruct cached as [i|]; [injection E as <- <-; apply dict_kept_refl|].
  rewrite (bind_Ok _ _ _ _ _ (py_get_dict _ _ _ _ Hl)) in E.
  rewrite (bind_Ok _ _ _ _ _ (py_get_dict _ _ _ _ Hl)) in E.
  rewrite (bind_Ok _ _ _ _ _ (py_get_dict _ _ _ _ Hl)) in E.
  set (K := λ cin : val,
         bind (initialize (field d "sysprep") (field d "cloud_init") cin)
              (λ _, gets _initialization)).
  set (PRO := bind (truthy (field d "cloud_init_nics"))
    (λ has_nics,
       bind (if has_nics then ret (field d "cloud_init_nics") else new_list)
         (λ cloud_init_nics,
            bind (if negb (is_None (field d "cloud_init"))
                  then list_append cloud_init_nics (field d "cloud_init") else ret tt)
              (λ _, ret cloud_init_nics)))).
  assert (bind PRO K s = (r, s')) as E'.
  { rewrite <- E. subst PRO K. unfold bind, ret.
    destruct (truthy _ s) as [[[|]|?] ?]; try done.
    - destruct (if negb _ then _ else _) as [[?|?] ?]; done.
    - destruct (new_list _) as [[?|?] ?]; [|done].
      destruct (if negb _ then _ else _) as [[?|?] ?]; done. }
  clear E. unfold bind in E'.
  destruct (PRO s) as [[cin|e] s1] eqn:Ep;
    destruct (fragments_apart l d s _ _ _ Hl Hown eq_refl Ep) as [Hk Hsafe].
  - apply (dict_kept_trans _ _ s1); [done|].
    subst K. cbv beta in E'. revert E'.
    apply bind_dict_kept.
    + intros r0 s0. apply initialize_keeps. by apply Hsafe.
    + intros _. apply keeps_dict_reads, preserves_gets.
  - by injection E' as <- <-.
Qed.
End VmKept.

(** ** [build_vm] and [build_entity] *)

Section BuildVm.
Context `{Collaborators}.

Lemma plain_truthy d k s :
  plain_fields d →
  k ∈ ["memory"; "memory_guaranteed"; "memory_max"; "sso"; "timezone"] →
  truthy (field d k) s = (Ok (scalar_truthy (field d k)), s).
Proof.
  intros Hd Hk. apply truthy_scalar.
  unfold plain_fields in Hd. rewrite Forall_forall in Hd. by apply Hd.
Qed.

Ltac plain := repeat first [by left | right].

(** X6: on a [vm] mapping that is not one of its own cloud-init
    fragments, [build_vm] converts the sizes, then resolves the
    initialization, then reads the remaining fields, and fails where one of
    these fails: [memory] is left out when it is empty or 0; a memory policy
    is built when one of its two sizes is given, the other being converted
    as it is; [smartcard_enabled] and [sso] are taken whenever they are not
    None, a false [sso] giving an empty list of methods; an empty [timezone]
    is left out.  A size that does not convert makes the call raise before
    anything is resolved or changed. *)
Theorem build_vm_fields l d s :
  heap s !! l = Some (ODict d) →
  not_own_fragment l d s →
  plain_fields d →
  build_vm (VRef l) s =
    match memory_of d with
    | Raise e => (Raise e, s)
    | Ok mem =>
        match memory_policy_of d with
        | Raise e => (Raise e, s)
        | Ok policy =>
            match get_initialization (VRef l) s with
            | (Ok init, s') => (Ok (vm_of d mem policy init), s')
            | (Raise e, s') => (Raise e, s')
            end
        end
    end.
Proof.
  intros Hl Hown Hd. unfold build_vm.
  rewrite (bind_Ok _ _ _ _ _ (py_get_dict _ _ _ _ Hl)).
  rewrite (bind_Ok _ _ _ _ _ (py_get_dict _ _ _ _ Hl)).
  rewrite (bind_Ok _ _ _ _ _ (plain_truthy _ "memory" _ Hd ltac:(plain))).
  unfold memory_of.
  assert (∀ B (k : val → M B),
    bind (if scalar_truthy (field d "memory")
          then bind (py_get (VRef l) "memory") (λ m', lift (convert_to_bytes m'))
          else ret VNone) k s
    = match (if scalar_truthy (field d "memory")
             then convert_to_bytes (field d "memory") else Ok VNone) with
      | Ok mem => k mem s
      | Raise e => (Raise e, s)
      end) as ->.
  { intros B k. destruct (scalar_truthy (field d "memory")); [|done].
    unfold bind at 1. rewrite (bind_Ok _ _ _ _ _ (py_get_dict _ _ _ _ Hl)).
    unfold lift. by destruct (convert_to_bytes _). }
  destruct (if scalar_truthy (field d "memory") then _ else _) as [mem|e]; [|done].
  rewrite (bind_Ok _ _ _ _ _ (py_get_dict _ _ _ _ Hl)).
  rewrite (bind_Ok _ _ _ _ _ (py_get_dict _ _ _ _ Hl)).
  rewrite (bind_Ok _ _ s
    (scalar_truthy (field d "memory_guaranteed") || scalar_truthy (field d "memory_max")) s).
  2:{ rewrite (or_else_Ok _ _ _ _ (plain_truthy _ "memory_guaranteed" _ Hd ltac:(plain))).
      destruct (scalar_truthy (field d "memory_guaranteed")); [done|].
      by rewrite (plain_truthy _ "memory_max" _ Hd ltac:(plain)). }
  unfold memory_policy_of.
  assert (∀ B (k : option MemoryPolicy → M B),
    bind (if scalar_truthy (field d "memory_guaranteed")
             || scalar_truthy (field d "memory_max")
          then bind (py_get (VRef l) "memory_guaranteed")
                 (λ g', bind (lift (convert_to_bytes g'))
                    (λ g, bind (py_get (VRef l) "memory_max")
                       (λ x', bind (lift (convert_to_bytes x'))
                          (λ x, ret (Some {| guaranteed := g; mp_max := x |})))))
          else ret None) k s
    = match (if scalar_truthy (field d "memory_guaranteed")
                || scalar_truthy (field d "memory_max")
             then match convert_to_bytes (field d "memory_guaranteed") with
                  | Ok g =>
                      match convert_to_bytes (field d "memory_max") with
                      | Ok x => Ok (Some {| guaranteed := g; mp_max := x |})
                      | Raise e => Raise e
                      end
                  | Raise e => Raise e
                  end
             else Ok None) with
      | Ok policy => k policy s
      | Raise e => (Raise e, s)
      end) as ->.
  { intros B k. destruct (_ || _); [|done].
    unfold bind at 1. rewrite (bind_Ok _ _ _ _ _ (py_get_dict _ _ _ _ Hl)).
    unfold bind at 1, lift. destruct (convert_to_bytes (field d "memory_guaranteed")); [|done].
    rewrite (bind_Ok _ _ _ _ _ (py_get_dict _ _ _ _ Hl)).
    unfold bind at 1. by destruct (convert_to_bytes (field d "memory_max")). }
  destruct (if _ || _ then _ else _) as [policy|e]; [|done].
  unfold bind at 1.
  destruct (get_initialization (VRef l) s) as [[init|e] s'] eqn:Ei; [|done].
  pose proof (get_initialization_keeps_vm _ _ _ _ _ Hl Hown Ei) as Hl'.
  rewrite (bind_Ok _ _ _ _ _ (py_get_dict _ _ _ _ Hl')).
  rewrite (bind_Ok _ _ s'
    (if is_None (field d "smartcard_enabled") then None
     else Some (field d "smartcard_enabled")) s').
  2:{ destruct (is_None (field d "smartcard_enabled")); [done|]. cbn [negb].
      by rewrite (bind_Ok _ _ _ _ _ (py_get_dict _ _ _ _ Hl')). }
  rewrite (bind_Ok _ _ _ _ _ (py_get_dict _ _ _ _ Hl')).
  rewrite (bind_Ok _ _ s'
    (if is_None (field d "sso") then None
     else Some (if scalar_truthy (field d "sso") then [GUEST_AGENT] else [])) s').
  2:{ destruct (is_None (field d "sso")); [done|]. cbn [negb].
      rewrite (bind_Ok _ _ _ _ _ (py_get_dict _ _ _ _ Hl')).
      by rewrite (bind_Ok _ _ _ _ _ (plain_truthy _ "sso" _ Hd ltac:(plain))). }
  rewrite (bind_Ok _ _ _ _ _ (py_get_dict _ _ _ _ Hl')).
  rewrite (bind_Ok _ _ _ _ _ (plain_truthy _ "timezone" _ Hd ltac:(plain))).
  rewrite (bind_Ok _ _ s'
    (if scalar_truthy (field d "timezone") then Some (field d "timezone") else None) s').
  2:{ destruct (scalar_truthy (field d "timezone")); [|done].
      by rewrite (bind_Ok _ _ _ _ _ (py_get_dict _ _ _ _ Hl')). }
  done.
Qed.
End BuildVm.

Lemma build_vm_fields_witness :
  let s := start plain_vm empty_engine in
  let d : gmap string val :=
    {[ "memory" := VStr "2GiB"; "memory_max" := VStr "4GiB";
       "sso" := VBool false; "timezone" := VStr ""; "sysprep" := VRef 1%nat ]} in
  (heap s !! 0%nat = Some (ODict d) ∧ not_own_fragment 0%nat d s ∧ plain_fields d) ∧
  ∃ s',
    build_vm (VRef 0%nat) s =
      (Ok {| vm_comment := VNone; memory := VStr "2GiB";
             memory_policy := Some {| guaranteed := VNone; mp_max := VStr "4GiB" |};
             initialization :=
               Some {| nic_configurations := None;
                       init_attrs := {[ "host_name" := VStr "w" ]} |};
             display_smartcard_enabled := None;
             sso_methods := Some [];
             time_zone := None |}, s').
Proof.
  intros s d.
  assert (not_own_fragment 0%nat d s) as Hown by (by split).
  assert (plain_fields d) as Hd by (by repeat constructor).
  split; [by repeat split|].
  rewrite (build_vm_fields 0%nat d s eq_refl Hown Hd).
  eexists. reflexivity.
Defined.

(** ** [build_entity] *)

Section BuildEntityExtras.
Context `{Collaborators}.

Lemma build_entity_Ok module s desired s1 :
  build_entity module s = (Ok desired, s1) →
  let p := params module in
  ∃ type built,
    build_vm (p_vm p) s = (Ok built, s1) ∧
    desired =
      {| vp_id := p_id p; vp_name := Some (p_name p);
         vp_description := p_description p; vp_comment := p_comment p;
         vp_cluster := if str_truthy (p_cluster p)
                       then Some {| cl_id := None; cl_name := p_cluster p |} else None;
         vp_template := if str_truthy (p_template p) then p_template p else None;
         vp_max_user_vms := p_vm_per_user p;
         vp_prestarted_vms := p_prestarted p;
         vp_size := p_vm_count p;
         vp_type := type; vp_vm := Some built |}.
Proof.
  intros E. cbv zeta. unfold build_entity in E.
  apply bind_Ok_inv_reads in E as (type & _ & E).
  2:{ unfold VmPoolType_new. frame. }
  apply bind_Ok_inv in E as (built & s0 & Eb & E).
  unfold ret in E. injection E as <- <-. by exists type, built.
Qed.

(** X7: an entity of the engine that holds what [build_entity] asked for,
    in the fields that [update_check] compares and with a link to the
    cluster that was named, is found up to date by [update_check], so that a
    second run sends no update; this needs a [cluster] parameter that is not
    the empty string, for which [build_entity] names no cluster while
    [update_check] still compares the parameter. *)
Theorem build_entity_update_check module s desired s1 entity s2 :
  build_entity module s = (Ok desired, s1) →
  stored (engine s2) desired entity →
  p_cluster (params module) ≠ Some "" →
  update_check module entity s2 = (Ok true, s2).
Proof.
  intros E (Hn & Hd & Hc & Hu & Hp & Hs & Hcl) Hne.
  apply build_entity_Ok in E as (type & built & _ & ->). cbn in *.
  unfold update_check, bind, gets, ret. do 2 f_equal.
  rewrite Hn, Hd, Hc, Hu, Hp, Hs.
  assert (∀ A `{EqDecision A} (o : option A), equal o o = true) as Hrefl.
  { intros A ? [a|]; [|done]. by apply bool_decide_eq_true_2. }
  rewrite !Hrefl, !andb_true_r.
  rewrite bool_decide_eq_true_2 by done. cbn [andb].
  destruct (p_cluster (params module)) as [c|] eqn:Ec; [|done].
  unfold str_truthy in Hcl. rewrite bool_decide_eq_false_2 in Hcl by congruence.
  cbn in Hcl. rewrite Hcl. apply Hrefl.
Qed.
End BuildEntityExtras.

Section BuildEntityFrame.
Context `{Collaborators}.
Context {B : Type} (f : state → B).
Hypothesis f_heap : ∀ h s, f (set_heap h s) = f s.
Hypothesis f_init : ∀ i s, f (set__initialization i s) = f s.

Lemma frame_build_nic_configurations nics :
  preserves f (build_nic_configurations nics).
Proof using f_heap.
  induction nics as [|nic rest IH]; simpl.
  - frame.
  - unfold nic_is_configured, build_nic_configuration, nic_boot_protocol, nic_ip,
      nic_has_ip, or_else, is_not_None, py_lower, BootProtocol_new.
    frame.
Qed.

Lemma frame_get_initialization vm : preserves f (get_initialization vm).
Proof using f_heap f_init.
  pose proof frame_build_nic_configurations.
  unfold get_initialization, initialize, or_else, Initialization_new,
    Initialization_of_mapping.
  frame; apply preserves_modify; intros ?; apply f_init.
Qed.

Lemma frame_build_entity module : preserves f (build_entity module).
Proof using f_heap f_init.
  pose proof frame_get_initialization.
  unfold build_entity, build_vm, VmPoolType_new, or_else. frame.
Qed.
End BuildEntityFrame.

Section BuildEntitySends.
Context `{Collaborators}.

(** X8: [build_entity] sends nothing to the engine and does not set
    [changed], whether it returns or raises: all it may change is the cache
    of the initialization and the mappings of the [vm] parameter. *)
Theorem build_entity_sends_nothing module s r s' :
  build_entity module s = (r, s') →
  engine s' = engine s ∧ changed s' = changed s ∧
  clock s' = clock s ∧ polled s' = polled s.
Proof.
  intros E.
  pose proof (frame_build_entity (λ s, (engine s, changed s, clock s, polled s))
                (λ _ _, eq_refl) (λ _ _, eq_refl) module s r s' E) as Hf.
  cbv beta in Hf. by injection Hf as -> -> -> ->.
Qed.
End BuildEntitySends.

Lemma build_entity_update_check_witness :
  let module := {| params := scenario_with_vm; check_mode := false |} in
  let s := start two_vms sample_engine in
  let r := build_entity module s in
  ∃ desired,
    (build_entity module s = (Ok desired, r.2) ∧
     stored (engine r.2) desired sample_pool ∧
     p_cluster (params module) ≠ Some "") ∧
    update_check module sample_pool r.2 = (Ok true, r.2).
Proof.
  intros module s r.
  assert (∃ desired, build_entity module s = (Ok desired, r.2)) as [desired E]
    by (eexists; reflexivity).
  exists desired.
  assert (stored (engine r.2) desired sample_pool) as Hst.
  { vm_compute in E. injection E as <-. by repeat split. }
  assert (p_cluster (params module) ≠ Some "") as Hne by done.
  split; [done|].
  by apply (build_entity_update_check module s desired r.2 sample_pool r.2).
Defined.

Lemma build_entity_sends_nothing_witness :
  let module := {| params := scenario_with_vm; check_mode := false |} in
  let s := start plain_vm sample_engine in
  let r := build_entity module s in
  build_entity module s = (r.1, r.2) ∧
  engine r.2 = engine s ∧ changed r.2 = changed s ∧
  clock r.2 = clock s ∧ polled r.2 = polled s.
Proof.
  intros module s r. split; [reflexivity|].
  apply (build_entity_sends_nothing module s r.1 r.2). reflexivity.
Defined.

(** ** [__get_vnic_profile_id] without a cluster *)

Section NoCluster.
Context `{Collaborators}.

Lemma py_get_raises o k s e s' :
  py_get o k s = (Raise e, s') → e = AttributeError.
Proof.
  unfold py_get, py_get_default. destruct o; try by intros [= <- _].
  destruct (heap s !! l) as [[]|]; by intros [= <- _].
Qed.

Lemma filterM_by_name_outcome nic (l : list VnicProfile) s r s' :
  filterM (λ profile, bind (py_get nic "profile_name")
             (λ name, ret (bool_decide (VStr (prof_name profile) = name)))) l s
  = (r, s') →
  s' = s ∧ ∀ e, r = Raise e → e = AttributeError.
Proof.
  revert r s'. induction l as [|p l IH]; intros r s'; simpl.
  - by intros [= <- <-].
  - intros E.
    apply bind_inv_reads in E as [(b & _ & E)|(e & E & -> & ->)].
    + destruct (filterM _ l s) as [[r'|e'] s1] eqn:El.
      * destruct (IH _ _ eq_refl) as [-> _].
        rewrite (bind_Ok _ _ _ _ _ El) in E. by injection E as <- <-.
      * destruct (IH _ _ eq_refl) as [-> He].
        rewrite (bind_Raise _ _ _ _ _ El) in E. injection E as <- <-.
        split; [done|]. intros e [= <-]. by apply He.
    + split; [done|]. intros e' [= <-].
      unfold bind in E. destruct (py_get nic "profile_name" s) as [[v|e0] s0] eqn:Eg.
      * done.
      * injection E as -> _. by apply py_get_raises in Eg.
    + frame.
Qed.

(** X9: when the clusters service finds no cluster of the name given by
    the [cluster] parameter (or the parameter is not set),
    [__get_vnic_profile_id] raises AttributeError for every declaration,
    whatever profiles the engine has, and leaves the state as it was. *)
Theorem get_vnic_profile_id_without_cluster module nic s :
  find_cluster (p_cluster (params module)) s = None →
  get_vnic_profile_id module nic s = (Raise AttributeError, s).
Proof.
  intros Ec. unfold get_vnic_profile_id.
  rewrite (bind_Ok _ _ s (engine s) s) by done.
  rewrite (bind_Ok _ _ s None s).
  2:{ unfold search_by_name_cluster, bind, gets, ret. unfold find_cluster in Ec.
      by rewrite Ec. }
  unfold bind at 1.
  destruct (filterM _ _ s) as [[profiles|e] s1] eqn:Ef;
    destruct (filterM_by_name_outcome _ _ _ _ _ Ef) as [-> He]; [done|].
  by rewrite (He e eq_refl).
Qed.

(** No cluster is found when the [cluster] parameter is not set. *)
Lemma find_cluster_unset s : find_cluster None s = None.
Proof.
  unfold find_cluster. by induction (clusters (engine s)) as [|c l IH].
Qed.
End NoCluster.

Lemma get_vnic_profile_id_without_cluster_witness :
  let s := start one_nic empty_engine in
  find_cluster (p_cluster (params sample_module)) s = None ∧
  get_vnic_profile_id sample_module (VRef 2%nat) s = (Raise AttributeError, s).
Proof.
  split; [reflexivity|].
  apply (get_vnic_profile_id_without_cluster sample_module (VRef 2%nat)
           (start one_nic empty_engine)).
  reflexivity.
Defined.

(** ** [__attach_nics]: interfaces *)

Section Interface.
Context `{Collaborators}.

(** X10: a declared NIC that the virtual machine does not have and whose
    [interface] (virtio when none is given) is no value of
    [otypes.NicInterface] makes [__attach_nics] raise ValueError before
    anything is sent, the state being as it was; check mode does not look
    at the interface and reports a change. *)
Theorem attach_nic_invalid_interface module vm_id l d s ns :
  heap s !! l = Some (ODict d) →
  vm_nics vm_id s = Some ns →
  find_nic (field d "name") ns = None →
  (∀ i, default (VStr "virtio") (d !! "interface") = VStr i →
        is_NicInterface i = false) →
  attach_nic module vm_id (VRef l) s =
    if check_mode module then (Ok tt, set_changed true s)
    else (Raise ValueError, s).
Proof.
  intros E Ens Ef Hi.
  destruct (check_mode module) eqn:Hc; [by eapply attach_nic_check_mode|].
  unfold attach_nic.
  rewrite (bind_Ok _ _ _ _ _ (py_get_dict _ _ _ _ E)).
  rewrite (bind_Ok _ _ _ _ _ (search_by_name_nic_vm _ _ _ _ Ens)).
  rewrite Ef, Hc. cbn [negb].
  apply bind_Raise.
  rewrite (bind_Ok _ _ _ _ _ (py_get_dict _ _ _ _ E)).
  rewrite (bind_Ok _ _ s (default (VStr "virtio") (d !! "interface")) s).
  2:{ unfold py_get_default. by rewrite E. }
  apply bind_Raise. unfold NicInterface_new.
  destruct (default (VStr "virtio") (d !! "interface")) as [|?|?|i|?]; try done.
  by rewrite (Hi i eq_refl).
Qed.
End Interface.

Lemma attach_nic_invalid_interface_witness :
  let s := start {[ 0%nat := ODict {[ "name" := VStr "nic1";
                                      "interface" := VStr "token_ring" ]} ]}
                 sample_engine in
  let d : gmap string val :=
    {[ "name" := VStr "nic1"; "interface" := VStr "token_ring" ]} in
  (heap s !! 0%nat = Some (ODict d) ∧
   vm_nics "vm1" s = Some [] ∧
   find_nic (field d "name") [] = None ∧
   (∀ i, default (VStr "virtio") (d !! "interface") = VStr i →
         is_NicInterface i = false)) ∧
  attach_nic sample_module "vm1" (VRef 0%nat) s = (Raise ValueError, s).
Proof.
  intros s d.
  assert (∀ i, default (VStr "virtio") (d !! "interface") = VStr i →
               is_NicInterface i = false) as Hi by (by intros i [= <-]).
  split; [by repeat split|].
  apply (attach_nic_invalid_interface sample_module "vm1" 0%nat d s []); done.
Defined.

(** ** [post_create] and [__attach_nics]: what a pass may do *)

Section PostCreate.
Context `{Collaborators}.

Lemma nics_service_add_outcomes vm_id nic s r s' :
  nics_service_add vm_id nic s = (r, s') →
  (r = Ok tt ∧ s' = with_nic vm_id nic s) ∨ ((∃ e, r = Raise e) ∧ s' = s).
Proof.
  unfold nics_service_add. intros E.
  apply bind_inv_reads in E as [(ns & _ & E)|(e & _ & -> & ->)];
    [|right; eauto|apply reads_nics_service_list].
  unfold modify in E. injection E as <- <-. by left.
Qed.

(** The outcomes of one step of the loop of [__attach_nics]. *)
Lemma attach_nic_outcomes module vm_id nic s r s' :
  attach_nic module vm_id nic s = (r, s') →
  s' = s ∨
  (r = Ok tt ∧
   if check_mode module then s' = set_changed true s
   else ∃ new, s' = set_changed true (with_nic vm_id new s)).
Proof.
  intros E. unfold attach_nic in E.
  apply bind_inv_reads in E as [(wanted & _ & E)|(e & _ & -> & ->)];
    [|by left|apply preserves_py_get].
  apply bind_inv_reads in E as [(found & _ & E)|(e & _ & -> & ->)];
    [|by left|apply reads_search_by_name_nic].
  destruct found as [n|].
  { unfold ret in E. injection E as <- <-. by left. }
  destruct (check_mode module); cbn [negb] in E.
  { injection E as <- <-. right. by split. }
  unfold bind at 1 in E.
  match type of E with match ?m s with _ => _ end = _ =>
    assert (∃ new, (m s = (Ok tt, with_nic vm_id new s)) ∨ (∃ e, m s = (Raise e, s)))
      as (new & [Em|(e & Em)]) end.
  2:{ rewrite Em in E. unfold modify in E. injection E as <- <-. right. split; eauto. }
  2:{ rewrite Em in E. injection E as <- <-. by left. }
  clear E.
  set (dummy := {| nic_name := VNone; nic_interface := NicInterface_of "";
                   nic_vnic_profile := None; nic_mac := None |}).
  match goal with |- ∃ new, ?m s = _ ∨ _ => destruct (m s) as [r0 s0] eqn:E end.
  apply bind_inv_reads in E as [(name & _ & E)|(e & _ & -> & ->)];
    [|exists dummy; right; eauto|apply preserves_py_get].
  apply bind_inv_reads in E as [(i & _ & E)|(e & _ & -> & ->)];
    [|exists dummy; right; eauto|apply preserves_py_get_default].
  apply bind_inv_reads in E as [(interface & _ & E)|(e & _ & -> & ->)];
    [|exists dummy; right; eauto|apply reads_NicInterface_new].
  apply bind_inv_reads in E as [(pn & _ & E)|(e & _ & -> & ->)];
    [|exists dummy; right; eauto|apply preserves_py_get].
  apply bind_inv_reads in E as [(has_profile & _ & E)|(e & _ & -> & ->)];
    [|exists dummy; right; eauto|apply preserves_truthy].
  apply bind_inv_reads in E as [(profile & _ & E)|(e & _ & -> & ->)];
    [|exists dummy; right; eauto|].
  2:{ pose proof reads_get_vnic_profile_id. destruct has_profile; frame. }
  apply bind_inv_reads in E as [(ma & _ & E)|(e & _ & -> & ->)];
    [|exists dummy; right; eauto|apply preserves_py_get].
  apply bind_inv_reads in E as [(has_mac & _ & E)|(e & _ & -> & ->)];
    [|exists dummy; right; eauto|apply preserves_truthy].
  apply bind_inv_reads in E as [(mac & _ & E)|(e & _ & -> & ->)];
    [|exists dummy; right; eauto|].
  2:{ destruct has_mac; frame. }
  apply nics_service_add_outcomes in E as [[-> ->]|[[e ->] ->]].
  - eexists. by left.
  - exists dummy. right. eauto.
Qed.

Lemma get_vms_members entity s : get_vms entity s = (Ok (members entity s), s).
Proof. reflexivity. Qed.

Lemma keeps_attach_nics R module vm vm_param :
  (∀ s, R s s) → (∀ s1 s2 s3, R s1 s2 → R s2 s3 → R s1 s3) →
  (∀ nic, keeps R (attach_nic module (evm_id vm) nic)) →
  keeps R (attach_nics module vm vm_param).
Proof.
  intros Hrefl Htrans Hstep. unfold attach_nics.
  apply keeps_bind; [done..| |intros declared].
  { apply keeps_reads; [done|]. apply preserves_py_get. }
  apply keeps_bind; [done..| |intros nics].
  { apply keeps_reads; [done|]. apply preserves_py_iter. }
  by apply keeps_forM_.
Qed.

(** [post_create] goes along every reflexive and transitive relation that
    each step of the loop, on a virtual machine of the pool, goes along. *)
Lemma post_create_keeps R module entity s r s' :
  (∀ s, R s s) → (∀ s1 s2 s3, R s1 s2 → R s2 s3 → R s1 s3) →
  (∀ vm nic, vm ∈ members entity s → keeps R (attach_nic module (evm_id vm) nic)) →
  post_create module entity s = (r, s') → R s s'.
Proof.
  intros Hrefl Htrans Hstep. unfold post_create.
  destruct (negb (is_None (p_vm (params module)))); [|by intros [= <- <-]].
  intros E.
  apply bind_inv_reads in E as [(declared & _ & E)|(e & _ & -> & ->)];
    [|done|apply preserves_py_get].
  destruct (negb (is_None declared)); [|by injection E as <- <-].
  rewrite (bind_Ok _ _ _ _ _ (get_vms_members entity s)) in E.
  revert E. apply keeps_forM_; [done..|].
  intros vm Hvm. apply keeps_attach_nics; [done..|].
  intros nic. by apply Hstep.
Qed.

Lemma set_changed_set_changed b b' s :
  set_changed b (set_changed b' s) = set_changed b s.
Proof. reflexivity. Qed.

Lemma nics_appended_refl ids vm : nics_appended ids vm vm.
Proof. repeat split. exists []. by rewrite app_nil_r. Qed.

Lemma nics_appended_trans ids vm1 vm2 vm3 :
  nics_appended ids vm1 vm2 → nics_appended ids vm2 vm3 → nics_appended ids vm1 vm3.
Proof.
  intros (Hi & Hp & Hs & x & Hx & Hix) (Hi' & Hp' & Hs' & y & Hy & Hiy).
  repeat split; [congruence..|].
  exists (x ++ y). split; [by rewrite Hy, Hx, app_assoc|].
  intros Hn. rewrite Hix by done. rewrite Hiy; [done|]. by rewrite Hi.
Qed.

Lemma only_nics_appended_refl ids s : only_nics_appended ids s s.
Proof.
  repeat split. apply Forall2_same_length_lookup. split; [done|].
  intros i vm vm' E E'. assert (vm' = vm) as -> by congruence.
  apply nics_appended_refl.
Qed.

Lemma only_nics_appended_trans ids s1 s2 s3 :
  only_nics_appended ids s1 s2 → only_nics_appended ids s2 s3 →
  only_nics_appended ids s1 s3.
Proof.
  intros (?&?&?&?&?&?&?&Hv) (?&?&?&?&?&?&?&Hv').
  repeat split; [congruence..|].
  revert Hv'. generalize (vms (engine s3)).
  induction Hv as [|vm1 vm2 l1 l2 Hvm _ IH]; intros l3 Hv'.
  - by inversion Hv'.
  - inversion Hv' as [|? vm3 ? l3' Hvm' Hl3]; subst. constructor.
    + by eapply nics_appended_trans.
    + by apply IH.
Qed.

Lemma only_nics_appended_with_nic ids vm_id nic s :
  vm_id ∈ ids → only_nics_appended ids s (set_changed true (with_nic vm_id nic s)).
Proof.
  intros Hid. repeat split. cbn.
  induction (vms (engine s)) as [|vm l IH]; [constructor|].
  rewrite fmap_cons. constructor; [|done].
  unfold add_nic. destruct (bool_decide (evm_id vm = vm_id)) eqn:Ev.
  - repeat split. exists [nic]. split; [done|].
    apply bool_decide_eq_true in Ev. by rewrite Ev.
  - apply nics_appended_refl.
Qed.

Lemma only_nics_appended_set_changed ids s :
  only_nics_appended ids s (set_changed true s).
Proof. apply (only_nics_appended_refl ids s). Qed.

(** X11: a declared NIC that makes the loop of [__attach_nics] fail (a lookup
    that fails, an interface the enumeration does not have, a profile that
    does not resolve, a request the engine refuses) leaves everything as it
    was: nothing was sent for it and [changed] was not set for it. *)
Theorem attach_nic_fails_unchanged module vm_id nic s e s' :
  attach_nic module vm_id nic s = (Raise e, s') → s' = s.
Proof. intros E. by apply attach_nic_outcomes in E as [?|[? _]]. Qed.

(** X12: in check mode [post_create] sends nothing to the engine and leaves
    the parameters alone, whether it returns or raises: the state is as
    before, but for [changed], which may have been set. *)
Theorem post_create_check_mode module entity s r s' :
  check_mode module = true →
  post_create module entity s = (r, s') →
  s' = s ∨ s' = set_changed true s.
Proof.
  intros Hc.
  apply (post_create_keeps (λ s s', s' = s ∨ s' = set_changed true s)).
  - by left.
  - intros s1 s2 s3 [-> | ->] [-> | ->]; auto.
  - intros vm nic _ s0 r0 s0' [-> | [_ E]]%attach_nic_outcomes; [by left|].
    rewrite Hc in E. by right.
Qed.

Lemma nics_appended_none ids vm vm' :
  nics_appended ids vm vm' → evm_id vm ∉ ids → vm' = vm.
Proof.
  intros (Hi & Hp & Hs & extra & Hx & Hn) Hid. rewrite (Hn Hid), app_nil_r in Hx.
  destruct vm, vm'. simpl in *. by subst.
Qed.

Lemma not_member_id entity s i vm :
  NoDup (evm_id <$> vms (engine s)) →
  vms (engine s) !! i = Some vm →
  is_member entity vm = false →
  evm_id vm ∉ evm_id <$> members entity s.
Proof.
  intros Hnd Hi Hm Hin.
  apply list_elem_of_fmap in Hin as (vm2 & Hid & Hin).
  unfold members in Hin. apply list_elem_of_In, filter_In in Hin as [Hin Hm2].
  apply list_elem_of_In, list_elem_of_lookup in Hin as [j Hj].
  assert (i = j) as ->.
  { apply (NoDup_lookup _ _ _ (evm_id vm) Hnd); rewrite list_lookup_fmap.
    - by rewrite Hi.
    - by rewrite Hj, Hid. }
  congruence.
Qed.

(** X13: whatever [post_create] does, and whether it returns or raises, it
    leaves the parameters, the cache, the pools, the profiles and the clusters
    alone, removes, alters and reorders no virtual machine and no NIC, and
    appends NICs only to virtual machines whose id is that of a virtual
    machine of the pool, so that, ids being unique, a virtual machine outside
    the pool is as it was; and when anything has changed, [changed] is set. *)
Theorem post_create_only_appends module entity s r s' :
  post_create module entity s = (r, s') →
  only_nics_appended (evm_id <$> members entity s) s s' ∧
  (NoDup (evm_id <$> vms (engine s)) →
   ∀ i vm, vms (engine s) !! i = Some vm → is_member entity vm = false →
           vms (engine s') !! i = Some vm) ∧
  unchanged_or_reported s s'.
Proof.
  intros E.
  assert (only_nics_appended (evm_id <$> members entity s) s s') as Happ.
  { revert E.
    apply (post_create_keeps (only_nics_appended (evm_id <$> members entity s))).
    - apply only_nics_appended_refl.
    - apply only_nics_appended_trans.
    - intros vm nic Hvm s0 r0 s0' [-> | [_ E]]%attach_nic_outcomes.
      + apply only_nics_appended_refl.
      + destruct (check_mode module).
        * subst s0'. apply only_nics_appended_set_changed.
        * destruct E as [new ->]. apply only_nics_appended_with_nic.
          by apply list_elem_of_fmap_2. }
  split; [done|]. split.
  - intros Hnd i vm Hi Hm.
    destruct Happ as (_&_&_&_&_&_&_&Hv).
    destruct (Forall2_lookup_l _ _ _ _ _ Hv Hi) as (vm' & Hi' & Hvm).
    rewrite Hi'. f_equal. apply (nics_appended_none _ _ _ Hvm).
    by apply (not_member_id entity s i).
  - revert E. apply (post_create_keeps unchanged_or_reported).
    + by left.
    + intros s1 s2 s3 [-> | ?] [-> | ?]; unfold unchanged_or_reported; auto.
    + intros vm nic _ s0 r0 s0' [-> | [_ E]]%attach_nic_outcomes; [by left|].
      right. destruct (check_mode module); [by subst|]. by destruct E as [? ->].
Qed.
End PostCreate.

Lemma attach_nic_fails_unchanged_witness :
  let s := start one_nic empty_engine in
  let r := attach_nic sample_module "vm1" (VRef 2%nat) s in
  r = (Raise RemoteApiError, r.2) ∧ r.2 = s.
Proof.
  split; [reflexivity|].
  apply (attach_nic_fails_unchanged sample_module "vm1" (VRef 2%nat)
           (start one_nic empty_engine) RemoteApiError).
  reflexivity.
Defined.

Lemma post_create_check_mode_witness :
  let module := {| params := scenario_with_vm; check_mode := true |} in
  let s := start one_nic three_vms in
  let r := post_create module sample_pool s in
  (check_mode module = true ∧ post_create module sample_pool s = (r.1, r.2)) ∧
  (r.2 = s ∨ r.2 = set_changed true s).
Proof.
  intros module s r. split; [by split|].
  apply (post_create_check_mode module sample_pool s r.1 r.2); reflexivity.
Defined.

Lemma post_create_only_appends_witness :
  let module := {| params := scenario_with_vm; check_mode := false |} in
  let s := start one_nic three_vms in
  let r := post_create module sample_pool s in
  post_create module sample_pool s = (r.1, r.2) ∧
  only_nics_appended (evm_id <$> members sample_pool s) s r.2 ∧
  (NoDup (evm_id <$> vms (engine s)) →
   ∀ i vm, vms (engine s) !! i = Some vm → is_member sample_pool vm = false →
           vms (engine r.2) !! i = Some vm) ∧
  unchanged_or_reported s r.2.
Proof.
  intros module s r. split; [reflexivity|].
  apply (post_create_only_appends module sample_pool s r.1 r.2). reflexivity.
Defined.

(** ** [post_create]: a second pass *)

Section SecondPass.
Context `{Collaborators}.

Lemma find_Forall2 {A} (R : A → A → Prop) (f : A → bool) (l l' : list A) x :
  Forall2 R l l' → (∀ x y, R x y → f y = f x) →
  List.find f l = Some x → ∃ y, List.find f l' = Some y ∧ R x y.
Proof.
  intros HR Hf. induction HR as [|a b l l' Hab _ IH]; [done|]. simpl.
  rewrite (Hf _ _ Hab). destruct (f a); [|done].
  intros [= <-]. eauto.
Qed.

Lemma filter_Forall2 {A} (R : A → A → Prop) (f : A → bool) (l l' : list A) :
  Forall2 R l l' → (∀ x y, R x y → f y = f x) →
  Forall2 R (List.filter f l) (List.filter f l').
Proof.
  intros HR Hf. induction HR as [|a b l l' Hab _ IH]; [constructor|]. simpl.
  rewrite (Hf _ _ Hab). destruct (f a); [by constructor|done].
Qed.

(** NICs are never lost along [only_nics_appended]. *)
Lemma has_nic_appended ids vm_id name s s' :
  only_nics_appended ids s s' → has_nic vm_id name s → has_nic vm_id name s'.
Proof.
  intros (_&_&_&_&_&_&_&Hv) (ns & n & Ens & Ef).
  unfold has_nic, vm_nics, find_vm in *.
  destruct (List.find _ (vms (engine s))) as [vm|] eqn:Evm; [|done].
  injection Ens as <-.
  destruct (find_Forall2 _ _ _ _ _ Hv
              (λ x y (Hxy : nics_appended ids x y),
                 f_equal (λ i, bool_decide (i = vm_id)) (proj1 Hxy)) Evm)
    as (vm' & Evm' & _ & _ & _ & extra & Hx & _).
  exists (evm_nics vm'), n. rewrite Evm'. split; [done|].
  rewrite Hx. by apply find_nic_app_l.
Qed.

Lemma members_appended ids entity s s' :
  only_nics_appended ids s s' →
  Forall2 (nics_appended ids) (members entity s) (members entity s').
Proof.
  intros (_&_&_&_&_&_&_&Hv). apply filter_Forall2; [done|].
  intros x y (_ & Hp & _). unfold is_member. by rewrite Hp.
Qed.

Lemma attach_step_appends ids module vm_id nic :
  vm_id ∈ ids → keeps (only_nics_appended ids) (attach_nic module vm_id nic).
Proof.
  intros Hid s0 r0 s0' [-> | [_ E]]%attach_nic_outcomes.
  - apply only_nics_appended_refl.
  - destruct (check_mode module).
    + subst s0'. apply only_nics_appended_set_changed.
    + destruct E as [new ->]. by apply only_nics_appended_with_nic.
Qed.

Lemma declared_present_heap vm_id s1 s s0 nic :
  heap s0 = heap s → declared_present vm_id s1 s nic → declared_present vm_id s1 s0 nic.
Proof.
  intros Hh (name & En & Hn). exists name. split; [|done].
  by apply (py_get_heap _ _ s s0).
Qed.

(** After a pass outside check mode that went through, every virtual
    machine of the loop has a NIC of every declared name. *)
Lemma first_pass module vm_param declared nics ids : ∀ l s s1,
  check_mode module = false →
  (∀ vm, vm ∈ l → evm_id vm ∈ ids) →
  py_get vm_param "nics" s = (Ok declared, s) →
  py_iter declared s = (Ok nics, s) →
  forM_ (λ vm, attach_nics module vm vm_param) l s = (Ok tt, s1) →
  only_nics_appended ids s s1 ∧
  Forall (λ vm, Forall (declared_present (evm_id vm) s1 s) nics) l.
Proof.
  induction l as [|vm rest IH]; intros s s1 Hc Hids Ed Ei E; simpl in E.
  - unfold ret in E. injection E as <-. split; [apply only_nics_appended_refl|done].
  - apply bind_Ok_inv in E as ([] & s0 & E0 & E).
    assert (only_nics_appended ids s s0) as Happ0.
    { revert E0. apply keeps_attach_nics.
      - apply only_nics_appended_refl.
      - apply only_nics_appended_trans.
      - intros nic. apply attach_step_appends. apply Hids. by left. }
    unfold attach_nics in E0.
    apply bind_Ok_inv_reads in E0 as (declared' & Ed' & E0); [|apply preserves_py_get].
    assert (declared' = declared) as -> by congruence.
    apply bind_Ok_inv_reads in E0 as (nics' & Ei' & E0); [|apply preserves_py_iter].
    assert (nics' = nics) as -> by congruence.
    apply (attach_loop_post _ _ _ _ _ Hc) in E0 as (Hh0 & _ & Hall0).
    apply IH in E as (Happ & Hall); [|done| |by apply (py_get_heap _ _ s s0)
                                     |by apply (py_iter_heap _ s s0)].
    2:{ intros vm' Hvm'. apply Hids. by right. }
    split; [by eapply only_nics_appended_trans|].
    constructor.
    + eapply Forall_impl; [exact Hall0|].
      intros nic (name & En & Hn). exists name. split; [done|].
      by apply (has_nic_appended _ _ _ _ _ Happ).
    + eapply Forall_impl; [exact Hall|]. intros vm' Hvm'. cbn beta in *.
      eapply Forall_impl; [exact Hvm'|]. intros nic.
      by apply declared_present_heap.
Qed.

Lemma second_pass module vm_param declared nics l s :
  py_get vm_param "nics" s = (Ok declared, s) →
  py_iter declared s = (Ok nics, s) →
  Forall (λ vm, Forall (declared_present (evm_id vm) s s) nics) l →
  forM_ (λ vm, attach_nics module vm vm_param) l s = (Ok tt, s).
Proof.
  intros Ed Ei. induction 1 as [|vm rest Hvm _ IH]; [done|]. simpl.
  rewrite (bind_Ok _ _ s tt s); [done|]. unfold attach_nics.
  rewrite (bind_Ok _ _ _ _ _ Ed). rewrite (bind_Ok _ _ _ _ _ Ei).
  by apply attach_loop_noop.
Qed.

(** X14: when [post_create] has gone through outside check mode, a second
    call on the same parameters, over the virtual machines the engine then
    lists for the pool, adds nothing and leaves [changed] unset. *)
Theorem post_create_twice module entity s s1 :
  check_mode module = false →
  post_create module entity s = (Ok tt, s1) →
  post_create module entity (set_changed false s1) = (Ok tt, set_changed false s1).
Proof.
  intros Hc E. unfold post_create in *.
  destruct (negb (is_None (p_vm (params module)))); [|done].
  apply bind_Ok_inv_reads in E as (declared & Ed & E); [|apply preserves_py_get].
  set (ids := evm_id <$> members entity s).
  set (s2 := set_changed false s1).
  destruct (negb (is_None declared)) eqn:En.
  - rewrite (bind_Ok _ _ _ _ _ (get_vms_members entity s)) in E.
    destruct (py_iter declared s) as [[nics|e] si] eqn:Ei.
    2:{ (* the declaration is not iterable: no virtual machine, no loop *)
        assert (members entity s = []) as Hnil.
        { destruct (members entity s) as [|vm l]; [done|]. simpl in E.
          unfold bind at 1, attach_nics in E. rewrite (bind_Ok _ _ _ _ _ Ed) in E.
          unfold bind at 1 in E. by rewrite Ei in E. }
        rewrite Hnil in E. injection E as <-.
        rewrite (bind_Ok _ _ _ _ _ (py_get_heap _ _ s s2 _ eq_refl Ed)).
        rewrite En.
        rewrite (bind_Ok _ _ _ _ _ (get_vms_members entity s2)).
        change (members entity s2) with (members entity s). by rewrite Hnil. }
    assert (si = s) as -> by (by apply (preserves_py_iter id) in Ei).
    assert (∀ vm, vm ∈ members entity s → evm_id vm ∈ ids) as Hids
      by (intros vm Hvm; by apply list_elem_of_fmap_2).
    destruct (first_pass _ _ _ _ _ _ _ _ Hc Hids Ed Ei E) as (Happ & Hall).
    assert (heap s2 = heap s) as Hh by apply Happ.
    rewrite (bind_Ok _ _ _ _ _ (py_get_heap _ _ s s2 _ Hh Ed)). rewrite En.
    rewrite (bind_Ok _ _ _ _ _ (get_vms_members entity s2)).
    apply (second_pass _ _ declared nics);
      [by apply (py_get_heap _ _ s s2) | by apply (py_iter_heap _ s s2) |].
    pose proof (members_appended ids entity s s1 Happ) as Hm.
    change (members entity s2) with (members entity s1).
    clear -Hm Hall Hh. induction Hm as [|vm vm' l l' Hvm _ IH]; [done|].
    apply Forall_cons in Hall as [Hhead Hall]. constructor; [|by apply IH].
    destruct Hvm as (-> & _). eapply Forall_impl; [exact Hhead|].
    intros nic Hnic. by apply (declared_present_heap _ _ s s2).
  - injection E as <-.
    rewrite (bind_Ok _ _ _ _ _ (py_get_heap _ _ s (set_changed false s) _ eq_refl Ed)).
    by rewrite En.
Qed.
End SecondPass.

Lemma post_create_twice_witness :
  let module := {| params := scenario_with_vm; check_mode := false |} in
  let s := start one_nic three_vms in
  let s1 := (post_create module sample_pool s).2 in
  (check_mode module = false ∧ post_create module sample_pool s = (Ok tt, s1)) ∧
  post_create module sample_pool (set_changed false s1)
  = (Ok tt, set_changed false s1).
Proof.
  intros module s s1. split; [by split|].
  apply (post_create_twice module sample_pool s s1); reflexivity.
Defined.
